(** * KnowledgeCircuitVis: the graph parser and the layout engine of [demo.py]

    A shallow embedding of [gv_to_edges], [get_layer], [get_attention_head],
    [create_elements], [get_gv_files] and the choice of a case in [main],
    with the Python primitives they rely on ([str.startswith], [str.split],
    [int], [re.search], [sorted], list indexing, [os.path.join]), followed
    by the properties of the specification and further properties of the
    code.

    Conventions.
    - A Python [str] is a [string]; its characters are read as the code
      points 0..255.
    - A Python [int] is a [Z].
    - A Python [float] is a member of the carrier of [Arith];
      [float_arith] is binary64.
    - A raised exception is the [Raise] case of [result]. *)

From Stdlib Require Import ZArith QArith Lqa String Ascii List Lia Permutation Bool Sorted.
From Stdlib Require OrderedTypeEx.
From Stdlib Require Import Floats.SpecFloat.
From stdpp Require Import base list strings gmap.
Import ListNotations.

Local Open Scope string_scope.
Local Open Scope Z_scope.

#[local] Arguments String.append !s1 s2 : simpl nomatch.

(** ** Exceptions *)

Inductive exn : Type :=
| ValueError
| ZeroDivisionError
| IndexError
| OverflowError
| MemoryError.

Inductive result (A : Type) : Type :=
| Ok (a : A)
| Raise (e : exn).

Arguments Ok {A} a.
Arguments Raise {A} e.

Definition bind {A B : Type} (r : result A) (k : A -> result B) : result B :=
  match r with
  | Ok a => k a
  | Raise e => Raise e
  end.

Notation "'let*' x ':=' r 'in' k" := (bind r (fun x => k))
  (at level 10, x pattern, r at level 100, k at level 200).

Definition returns {A : Type} (r : result A) : Prop :=
  exists a, r = Ok a.

(** ** Python string primitives *)

Module Py.

(** Line feed, the only character the regex dot refuses, and carriage
    return. *)
Definition LF : ascii := "010"%char.
Definition CR : ascii := "013"%char.

(** [s.startswith(p)] *)
Definition startswith (s p : string) : bool := String.prefix p s.

(** [s[1:]] *)
Definition tail1 (s : string) : string :=
  match s with
  | EmptyString => EmptyString
  | String _ r => r
  end.

(** [s.split(sep)] for a one-character separator: never an empty list. *)
Fixpoint split (sep : ascii) (s : string) : list string :=
  match s with
  | EmptyString => [EmptyString]
  | String c r =>
      if Ascii.eqb c sep then EmptyString :: split sep r
      else match split sep r with
           | h :: t => String c h :: t
           | [] => [String c EmptyString]
           end
  end.

(** [l[0]] and [l[-1]] on a list. *)
Definition item_first {A : Type} (l : list A) : result A :=
  match l with
  | [] => Raise IndexError
  | h :: _ => Ok h
  end.

Fixpoint item_last {A : Type} (l : list A) : result A :=
  match l with
  | [] => Raise IndexError
  | [h] => Ok h
  | _ :: t => item_last t
  end.

(** [c in s] for a one-character needle. *)
Fixpoint contains (c : ascii) (s : string) : bool :=
  match s with
  | EmptyString => false
  | String c' r => Ascii.eqb c' c || contains c r
  end.

(** *** [int(s)] in base 10

    Leading and trailing white space is dropped, one sign is allowed, then
    at least one decimal digit; single underscores may separate digits.
    White space is that of CPython's [int] on the code points 0..255:
    TAB, LF, VT, FF, CR, SPACE, NEL (0x85) and NBSP (0xA0).  A string
    with more than [int_max_str_digits] digits is refused, as CPython 3.11
    refuses it with its default limit. *)

Definition is_space (c : ascii) : bool :=
  let n := nat_of_ascii c in
  ((9 <=? n)%nat && (n <=? 13)%nat) || (n =? 32)%nat
  || (n =? 133)%nat || (n =? 160)%nat.

Definition is_digit (c : ascii) : bool :=
  let n := nat_of_ascii c in (48 <=? n)%nat && (n <=? 57)%nat.

Definition digit_value (c : ascii) : Z := Z.of_nat (nat_of_ascii c) - 48.

Fixpoint lstrip (s : string) : string :=
  match s with
  | EmptyString => EmptyString
  | String c r => if is_space c then lstrip r else s
  end.

(** The digit scan of [PyLong_FromString]: [prev_us] tells whether the
    previous character was an underscore. *)
Fixpoint scan_digits (s : string) (prev_us : bool) (acc : Z)
  : option (Z * string) :=
  match s with
  | EmptyString => if prev_us then None else Some (acc, s)
  | String c r =>
      if is_digit c then scan_digits r false (10 * acc + digit_value c)
      else if Ascii.eqb c "_"%char then
             if prev_us then None else scan_digits r true acc
      else if prev_us then None else Some (acc, s)
  end.

(** The digits that the scan runs over: those of the leading run of digits
    and underscores. *)
Fixpoint count_digits (s : string) : Z :=
  match s with
  | EmptyString => 0
  | String c r =>
      if is_digit c then 1 + count_digits r
      else if Ascii.eqb c "_"%char then count_digits r
      else 0
  end.

(** [sys.get_int_max_str_digits()], at its default. *)
Definition int_max_str_digits : Z := 4300.

Definition int (s : string) : result Z :=
  let s1 := lstrip s in
  let '(neg, s2) :=
    match s1 with
    | String c r =>
        if Ascii.eqb c "-"%char then (true, r)
        else if Ascii.eqb c "+"%char then (false, r)
        else (false, s1)
    | EmptyString => (false, s1)
    end in
  match s2 with
  | EmptyString => Raise ValueError
  | String c _ =>
      if is_digit c then
        match scan_digits s2 false 0 with
        | Some (v, rest) =>
            match lstrip rest with
            | EmptyString =>
                if int_max_str_digits <? count_digits s2 then Raise ValueError
                else Ok (if neg then - v else v)
            | String _ _ => Raise ValueError
            end
        | None => Raise ValueError
        end
      else Raise ValueError
  end.

(** *** Reading text

    [open(path, 'r')] reads in universal-newlines mode: CR LF and a lone CR
    both arrive as LF. *)
Fixpoint universal_newlines (s : string) : string :=
  match s with
  | EmptyString => EmptyString
  | String c r =>
      if Ascii.eqb c CR then
        match r with
        | String c' r' =>
            if Ascii.eqb c' LF then String LF (universal_newlines r')
            else String LF (universal_newlines r)
        | EmptyString => String LF EmptyString
        end
      else String c (universal_newlines r)
  end.

(** The lines of a text, each with its terminating LF when it has one. *)
Fixpoint keepends (s : string) : list string :=
  match s with
  | EmptyString => []
  | String c r =>
      if Ascii.eqb c LF then String c EmptyString :: keepends r
      else match keepends r with
           | h :: t => String c h :: t
           | [] => [String c EmptyString]
           end
  end.

(** [file.readlines()] on a file opened with [open(path, 'r')] whose
    decoded content is [text]. *)
Definition readlines (text : string) : list string :=
  keepends (universal_newlines text).

End Py.

(** ** The edge pattern

    [re.compile(r'\"<(.+?)>\" -> \"<(.+?)>\"')]: the literal ["<], a lazy
    non-empty run of characters other than LF, the literal [>" -> "<], a
    second such run, the literal [>"]. *)

Module Re.

(** [strip_prefix p s] is the rest of [s] after the literal [p]. *)
Fixpoint strip_prefix (p s : string) : option string :=
  match p with
  | EmptyString => Some s
  | String a p' =>
      match s with
      | EmptyString => None
      | String b s' => if Ascii.eqb a b then strip_prefix p' s' else None
      end
  end.

(** [(.+?)] followed by the continuation [k]: the shortest non-empty run of
    non-LF characters after which [k] matches, as a backtracking matcher
    tries them (one character, then two, ...). *)
Fixpoint lazy_plus {B : Type} (k : string -> option B) (s : string)
  : option (string * B) :=
  match s with
  | EmptyString => None
  | String c r =>
      if Ascii.eqb c Py.LF then None
      else match k r with
           | Some b => Some (String c EmptyString, b)
           | None =>
               match lazy_plus k r with
               | Some (g, b) => Some (String c g, b)
               | None => None
               end
           end
  end.

Definition DQ : ascii := "034"%char.
Definition lit_open : string := String DQ "<".
Definition lit_arrow : string :=
  String ">"%char (String DQ (" -> " ++ String DQ "<")).
Definition lit_close : string := String ">"%char (String DQ EmptyString).

(** The tail of the pattern after the second group. *)
Definition match_close (s : string) : option unit :=
  match strip_prefix lit_close s with
  | Some _ => Some tt
  | None => None
  end.

(** The tail of the pattern after the first group. *)
Definition match_arrow (s : string) : option string :=
  match strip_prefix lit_arrow s with
  | Some r =>
      match lazy_plus match_close r with
      | Some (g2, _) => Some g2
      | None => None
      end
  | None => None
  end.

(** [edge_pattern.match] anchored at the start of [s]: groups 1 and 2. *)
Definition match_here (s : string) : option (string * string) :=
  match strip_prefix lit_open s with
  | Some r => lazy_plus match_arrow r
  | None => None
  end.

(** [edge_pattern.search(s)]: the match at the leftmost position that has
    one. *)
Fixpoint search (s : string) : option (string * string) :=
  match match_here s with
  | Some m => Some m
  | None =>
      match s with
      | EmptyString => None
      | String _ r => search r
      end
  end.

End Re.

(** ** [gv_to_edges] *)

Definition edge : Type := (string * string)%type.

(** The loop over [lines]: one edge per line on which the pattern is found. *)
Fixpoint edges_of_lines (lines : list string) : list edge :=
  match lines with
  | [] => []
  | line :: rest =>
      match Re.search line with
      | Some (a, b) => (a, b) :: edges_of_lines rest
      | None => edges_of_lines rest
      end
  end.

(** The two kinds of argument: a path, given by the text that the file it
    names holds (before the translation of line ends, which [readlines]
    does), and an upload buffer, given by the text its bytes decode to. *)
Inductive gv_input : Type :=
| FilePath (content : string)
| UploadedFile (decoded : string).

Definition gv_lines (gv_file : gv_input) : list string :=
  match gv_file with
  | FilePath content => Py.readlines content
  | UploadedFile decoded => Py.split Py.LF decoded
  end.

Definition gv_to_edges (gv_file : gv_input) : list edge :=
  edges_of_lines (gv_lines gv_file).

(** ** [get_layer] and [get_attention_head] *)

Definition get_layer (node : string) : result Z :=
  if Py.startswith node "m" then
    let* part := Py.item_first (Py.split "-"%char (Py.tail1 node)) in
    Py.int part
  else if Py.startswith node "a" then
    let* part := Py.item_first (Py.split "."%char (Py.tail1 node)) in
    Py.int part
  else Ok 100.

Definition get_attention_head (node : string) : result Z :=
  if Py.startswith node "a" then
    let* part := Py.item_last (Py.split "."%char node) in
    Py.int part
  else Ok (-1).

(** ** Numbers of the layout, and the room for a list

    The width and the height that [create_elements] receives are floats,
    or [int]s that a float represents exactly, such as the 1400 and 800 of
    [main]; an [int] too large for a float, on which the first
    multiplication raises [OverflowError], is outside this development.
    The layout only multiplies, subtracts and divides, so it is written
    over any carrier [R] with these operations: [of_int] is the float of an
    [int] and [lit] the float that a decimal literal denotes.  What is
    proved for every carrier holds for Python's floats with their
    rounding, which [float_arith] below computes; the exact rationals of
    [Q_arith] are a second carrier, without rounding.  The operations are
    total: division by an [int] that is zero raises before the operation
    is reached, see [py_div].

    [list_capacity] is the length of the longest list that the interpreter
    can allocate where it runs: [[0] * n] raises [MemoryError] beyond it,
    see [py_zeros].  A list of up to 65536 entries is always allocated, as
    all the other objects of a run are taken to be. *)

Class Arith (R : Type) : Type := {
  of_int : Z -> R;
  lit : Q -> R;
  mul : R -> R -> R;
  sub : R -> R -> R;
  div : R -> R -> R;
  list_capacity : Z;
  list_capacity_min : 65536 <= list_capacity
}.

(** Exact rational arithmetic, with room for a list of 2^31 - 1 entries. *)
#[export] Instance Q_arith : Arith Q := {|
  of_int := inject_Z;
  lit := fun q => q;
  mul := Qmult;
  sub := Qminus;
  div := Qdiv;
  list_capacity := 2147483647;
  list_capacity_min := ltac:(discriminate)
|}.

(** Python's floats: IEEE 754 binary64 with rounding to nearest, ties to
    even, as [SpecFloat] defines it.  [of_int] rounds an [int] as
    [float(n)] does; a literal [p / q] is the quotient of the floats of
    [p] and [q], which is the float nearest to the literal when both are
    exact, as they are for the literals of [create_elements]. *)
Definition float : Type := spec_float.

Definition float_of_int (n : Z) : float := binary_normalize 53 1024 n 0 false.

#[export] Instance float_arith : Arith float := {|
  of_int := float_of_int;
  lit := fun q =>
    SFdiv 53 1024 (float_of_int (Qnum q)) (float_of_int (Z.pos (Qden q)));
  mul := SFmul 53 1024;
  sub := SFsub 53 1024;
  div := SFdiv 53 1024;
  list_capacity := 2147483647;
  list_capacity_min := ltac:(discriminate)
|}.

(** [a < b] and [a == b] on floats. *)
Definition float_lt (a b : float) : Prop := SFltb a b = true.
Definition float_eq (a b : float) : Prop := SFeqb a b = true.

(** [a / n] for an [int] divisor [n]. *)
Definition py_div {R : Type} `{Arith R} (a : R) (n : Z) : result R :=
  if n =? 0 then Raise ZeroDivisionError else Ok (div a (of_int n)).

(** ** Lists as Python lists *)

(** The position a Python index denotes in a list of length [len]. *)
Definition list_index (len : nat) (i : Z) : result nat :=
  let n := Z.of_nat len in
  if (0 <=? i) && (i <? n) then Ok (Z.to_nat i)
  else if (- n <=? i) && (i <? 0) then Ok (Z.to_nat (n + i))
  else Raise IndexError.

(** [l[i]] *)
Definition getitem {A : Type} (l : list A) (i : Z) : result A :=
  let* k := list_index (length l) i in
  match l !! k with
  | Some v => Ok v
  | None => Raise IndexError
  end.

(** [l[i] = v] *)
Definition setitem {A : Type} (l : list A) (i : Z) (v : A) : result (list A) :=
  let* k := list_index (length l) i in
  Ok (<[k := v]> l).

(** [l[:k]] *)
Definition slice_to {A : Type} (l : list A) (k : Z) : list A :=
  if 0 <=? k then take (Z.to_nat k) l
  else take (Z.to_nat (Z.of_nat (length l) + k)) l.

(** The list of [n] zeros. *)
Definition zeros (n : Z) : list Z := replicate (Z.to_nat n) 0.

(** The largest [Py_ssize_t] of a 64-bit interpreter. *)
Definition ssize_max : Z := 2 ^ 63 - 1.

(** [[0] * n]: [OverflowError] when [n] does not fit a [Py_ssize_t],
    [MemoryError] when the list cannot be allocated, see [list_capacity]. *)
Definition py_zeros (capacity n : Z) : result (list Z) :=
  if ssize_max <? n then Raise OverflowError
  else if capacity <? n then Raise MemoryError
  else Ok (zeros n).

(** [sum(l)] *)
Definition sum (l : list Z) : Z := foldr Z.add 0 l.

(** [min(l)] and [max(l)]: [ValueError] on an empty sequence. *)
Definition py_min (l : list Z) : result Z :=
  match l with
  | [] => Raise ValueError
  | h :: t => Ok (foldl Z.min h t)
  end.

Definition py_max (l : list Z) : result Z :=
  match l with
  | [] => Raise ValueError
  | h :: t => Ok (foldl Z.max h t)
  end.

(** A loop whose body may raise. *)
Fixpoint for_each {S X : Type} (body : S -> X -> result S) (st : S)
  (xs : list X) : result S :=
  match xs with
  | [] => Ok st
  | x :: rest => let* st' := body st x in for_each body st' rest
  end.

(** ** Elements *)

Inductive style_value : Type :=
| StyleStr (s : string)
| StyleInt (n : Z).

Definition style : Type := list (string * style_value).

Fixpoint dict_get {V : Type} (d : list (string * V)) (k : string) (default : V)
  : V :=
  match d with
  | [] => default
  | (k', v) :: rest => if String.eqb k' k then v else dict_get rest k default
  end.

Definition centered (background : string) (width : Z) : style :=
  [("background", StyleStr background); ("width", StyleInt width);
   ("display", StyleStr "flex"); ("justifyContent", StyleStr "center");
   ("alignItems", StyleStr "center")].

Definition node_types : list (string * list (string * style)) :=
  [("Input", [("style", centered "#f472b6" 50)]);
   ("Embedding", [("style", centered "#4ea8de" 50)]);
   ("Attention", [("style", centered "#ff9a3c" 50)]);
   ("MLP", [("style", centered "#6ede87" 50)]);
   ("Output", [("style", centered "#ffcc50" 80)])].

Record position (R : Type) : Type := Position { pos_x : R; pos_y : R }.
Arguments Position {R} pos_x pos_y.
Arguments pos_x {R} p.
Arguments pos_y {R} p.

Record node_element (R : Type) : Type := NodeElement {
  node_id : string;
  node_label : string;
  node_type : string;
  node_position : position R;
  node_style : style
}.
Arguments NodeElement {R} node_id node_label node_type node_position node_style.
Arguments node_id {R} n.
Arguments node_label {R} n.
Arguments node_type {R} n.
Arguments node_position {R} n.
Arguments node_style {R} n.

Record edge_element : Type := EdgeElement {
  edge_id : string;
  edge_source : string;
  edge_target : string;
  edge_type : string;
  edge_animated : bool;
  edge_style : style
}.

Inductive element (R : Type) : Type :=
| Node (n : node_element R)
| Edge (e : edge_element).
Arguments Node {R} n.
Arguments Edge {R} e.

(** ** [create_elements] *)

(** *** The node set

    [nodes] is a Python [set]: [nodes_of edges] lists its members in the
    order of first insertion.  The order in which Python iterates over a
    set of strings is not fixed, so [create_elements] takes the iteration
    order as an argument, and it may be any arrangement of the members. *)

Definition set_add (s : list string) (x : string) : list string :=
  if existsb (String.eqb x) s then s else (s ++ [x])%list.

Definition nodes_of (edges : list edge) : list string :=
  foldl (fun s '(source, target) => set_add (set_add s source) target) [] edges.

Definition set_iteration (edges : list edge) (nodes : list string) : Prop :=
  Permutation nodes (nodes_of edges).

(** *** Sorting

    The key of line 90 and a stable descending sort: with [reverse=True]
    elements of equal key keep their original order. *)

Definition sort_key (x : string) : result (Z * Z) :=
  let* layer := get_layer x in
  let* head := (if Py.startswith x "a" then get_attention_head x else Ok (-1)) in
  Ok (layer, head).

Definition key_lt (a b : Z * Z) : bool :=
  (fst a <? fst b) || ((fst a =? fst b) && (snd a <? snd b)).

Fixpoint with_keys (l : list string) : result (list ((Z * Z) * string)) :=
  match l with
  | [] => Ok []
  | x :: rest =>
      let* k := sort_key x in
      let* krest := with_keys rest in
      Ok ((k, x) :: krest)
  end.

Fixpoint insert_desc (x : (Z * Z) * string) (l : list ((Z * Z) * string))
  : list ((Z * Z) * string) :=
  match l with
  | [] => [x]
  | y :: rest =>
      if key_lt (fst x) (fst y) then y :: insert_desc x rest else x :: l
  end.

Definition sort_desc (l : list ((Z * Z) * string)) : list ((Z * Z) * string) :=
  foldr insert_desc [] l.

Definition sorted (nodes : list string) : result (list string) :=
  let* keyed := with_keys nodes in
  Ok (map snd (sort_desc keyed)).

(** *** The layer range

    [get_layer(node) != float('-inf')]: an [int] compared with minus
    infinity, which no [int] equals. *)
Definition ne_neg_inf (layer : Z) : bool := true.

(** The generator of lines 92 and 93. *)
Fixpoint finite_layers (nodes : list string) : result (list Z) :=
  match nodes with
  | [] => Ok []
  | node :: rest =>
      let* l := get_layer node in
      if ne_neg_inf l then
        let* layer := get_layer node in
        let* more := finite_layers rest in
        Ok (layer :: more)
      else finite_layers rest
  end.

Definition min_layer_of (nodes : list string) : result Z :=
  let* ls := finite_layers nodes in py_min ls.

Definition max_layer_of (nodes : list string) : result Z :=
  let* ls := finite_layers nodes in py_max ls.

(** *** The counting loop (lines 98 to 102) *)

Definition count_body (min_layer : Z) (st : list Z * list Z) (node : string)
  : result (list Z * list Z) :=
  let '(layer_counts, layer_heights) := st in
  let* layer := get_layer node in
  if negb (layer =? 100) then
    let* c := getitem layer_counts (layer - min_layer) in
    let* layer_counts := setitem layer_counts (layer - min_layer) (c + 1) in
    let* h := getitem layer_heights (layer - min_layer) in
    let* layer_heights := setitem layer_heights (layer - min_layer) (Z.max h 1) in
    Ok (layer_counts, layer_heights)
  else Ok st.

Definition node_kind (node : string) : string :=
  if Py.startswith node "m" then "MLP"
  else if Py.startswith node "a" then "Attention"
  else if String.eqb node "resid_post" then "Output"
  else "default".

Definition edge_stroke : style :=
  [("stroke", StyleStr "#888"); ("strokeWidth", StyleInt 2);
   ("strokeDasharray", StyleStr "5, 5")].

Definition edge_to_element (e : edge) : edge_element :=
  let '(source, target) := e in
  {| edge_id := source ++ "-" ++ target;
     edge_source := source;
     edge_target := target;
     edge_type := "smoothstep";
     edge_animated := true;
     edge_style := edge_stroke |}.

Section Layout.

Context {R : Type} {AR : Arith R}.

(** The state of the placing loop (lines 111 to 144). *)
Record place_state : Type := PlaceState {
  elements : list (element R);
  node_positions : gmap string (position R);
  attention_counts : list Z
}.

(** What the loops before line 107 leave for the placing loop. *)
Record layout_env : Type := LayoutEnv {
  graph_width : R;
  min_layer : Z;
  layer_counts : list Z;
  layer_heights : list Z;
  total_layers : Z;
  layer_height : R
}.

(** Line 122: the y-coordinate of the layer [layer]. *)
Definition stack_y (env : layout_env) (layer : Z) : R :=
  let before := sum (slice_to (layer_heights env) (layer - min_layer env)) in
  mul (sub (of_int (total_layers env - before)) (lit (5 # 10)))
      (layer_height env).

(** Lines 113 to 122: the position of [node] and the updated counters. *)
Definition place_xy (env : layout_env) (attention_counts : list Z)
  (node : string) (layer : Z) : result (R * R * list Z) :=
  if layer =? 100 then
    Ok (mul (graph_width env) (lit (7 # 10)), of_int 20, attention_counts)
  else
    let* (x, attention_counts) :=
      (if Py.startswith node "m" then
         Ok (mul (graph_width env) (lit (5 # 100)), attention_counts)
       else
         let i := layer - min_layer env in
         let* c := getitem attention_counts i in
         let* attention_counts := setitem attention_counts i (c + 1) in
         let* ac := getitem attention_counts i in
         let* lc := getitem (layer_counts env) i in
         let* q := py_div (mul (of_int ac) (mul (graph_width env) (lit (8 # 10))))
                          (lc + 1) in
         Ok (sub (mul (graph_width env) (lit (85 # 100))) q, attention_counts)) in
    Ok (x, stack_y env layer, attention_counts).

(** Lines 143 and 144, on the y of the element just appended. *)
Definition shift_H (env : layout_env) (node : string) (y : R) : R :=
  if Py.contains "H"%char node then sub y (div (layer_height env) (of_int 4))
  else y.

(** Lines 126 to 144: the element of [node], computed at [(x, y)]. *)
Definition node_to_element (env : layout_env) (node : string) (x y : R)
  : node_element R :=
  let kind := node_kind node in
  {| node_id := node;
     node_label := node;
     node_type := kind;
     node_position := Position x (shift_H env node y);
     node_style := dict_get (dict_get node_types kind []) "style" [] |}.

Definition place_body (env : layout_env) (st : place_state) (node : string)
  : result place_state :=
  let* layer := get_layer node in
  let* (x, y, counts) := place_xy env (attention_counts st) node layer in
  Ok {| elements := (elements st ++ [Node (node_to_element env node x y)])%list;
        node_positions := <[node := Position x y]> (node_positions st);
        attention_counts := counts |}.

(** The function up to line 144: the environment and the final state of
    the placing loop. *)
Definition layout (nodes : list string) (graph_width graph_height : R)
  : result (layout_env * place_state) :=
  let* sorted_nodes := sorted nodes in
  let* min_layer := min_layer_of nodes in
  let* max_layer := max_layer_of nodes in
  let* layer_counts :=
    py_zeros (@list_capacity R AR) (max_layer - min_layer + 1) in
  let* layer_heights :=
    py_zeros (@list_capacity R AR) (max_layer - min_layer + 1) in
  let* (layer_counts, layer_heights) :=
    for_each (count_body min_layer) (layer_counts, layer_heights) sorted_nodes in
  let total_layers := sum layer_heights in
  let* layer_height := py_div graph_height total_layers in
  let* attention_counts :=
    py_zeros (@list_capacity R AR) (max_layer - min_layer + 1) in
  let env :=
    {| graph_width := graph_width;
       min_layer := min_layer;
       layer_counts := layer_counts;
       layer_heights := layer_heights;
       total_layers := total_layers;
       layer_height := layer_height |} in
  let st0 :=
    {| elements := [];
       node_positions := ∅;
       attention_counts := attention_counts |} in
  let* st := for_each (place_body env) st0 sorted_nodes in
  Ok (env, st).

(** [create_elements(edges, graph_width, graph_height)], with [nodes] the
    set built by lines 85 to 88 in its iteration order. *)
Definition create_elements (nodes : list string) (edges : list edge)
  (graph_width graph_height : R) : result (list (element R)) :=
  let* (_, st) := layout nodes graph_width graph_height in
  Ok (elements st ++ map (fun e => Edge (edge_to_element e)) edges)%list.

End Layout.

Arguments layout_env R : clear implicits.
Arguments place_state R : clear implicits.

(** ** [get_gv_files] and the choice of a case in [main]

    The directory tree is a snapshot: what [os.listdir] returns for a
    directory ([None] when it raises [OSError]), and the answers of
    [os.path.isdir] and [os.path.exists], which never raise.  Paths are
    joined as [posixpath.join] joins two components. *)

Module Os.

Record file_system : Type := FileSystem {
  listdir : string -> option (list string);
  isdir : string -> bool;
  path_exists : string -> bool
}.

(** [s.endswith('/')] *)
Fixpoint ends_with_slash (s : string) : bool :=
  match s with
  | EmptyString => false
  | String c EmptyString => Ascii.eqb c "/"%char
  | String _ r => ends_with_slash r
  end.

(** [os.path.join(a, b)] *)
Definition path_join (a b : string) : string :=
  if Py.startswith b "/" then b
  else if String.eqb a EmptyString || ends_with_slash a then a ++ b
  else a ++ "/" ++ b.

End Os.

(** The loop of lines 31 to 36 over the listed names. *)
Fixpoint gv_files_of (fs : Os.file_system) (circuit_dir : string)
  (names : list string) : list (string * string) :=
  match names with
  | [] => []
  | subdir :: rest =>
      let subdir_path := Os.path_join circuit_dir subdir in
      if Os.isdir fs subdir_path then
        let gv_file := Os.path_join subdir_path "graph.gv" in
        if Os.path_exists fs gv_file
        then (subdir, gv_file) :: gv_files_of fs circuit_dir rest
        else gv_files_of fs circuit_dir rest
      else gv_files_of fs circuit_dir rest
  end.

(** [list.sort(key=lambda x: x[0])]: a stable ascending sort on the first
    component, strings being compared character by character. *)
Fixpoint insert_by_name (x : string * string) (l : list (string * string))
  : list (string * string) :=
  match l with
  | [] => [x]
  | y :: rest =>
      if String.ltb (fst y) (fst x) then y :: insert_by_name x rest else x :: l
  end.

Definition sort_by_name (l : list (string * string)) : list (string * string) :=
  foldr insert_by_name [] l.

(** [get_gv_files(circuit_dir)]; [None] is the [OSError] of [os.listdir]. *)
Definition get_gv_files (fs : Os.file_system) (circuit_dir : string)
  : option (list (string * string)) :=
  match Os.listdir fs circuit_dir with
  | None => None
  | Some names => Some (sort_by_name (gv_files_of fs circuit_dir names))
  end.

(** Line 193 of [main]: the names offered in the select box. *)
Definition case_names (gv_files : list (string * string)) : list string :=
  map fst gv_files.

(** Line 196 of [main]:
    [next((file for name, file in gv_files if name == case), "")]. *)
Fixpoint gv_file_path_of (gv_files : list (string * string)) (case : string)
  : string :=
  match gv_files with
  | [] => EmptyString
  | (name, file) :: rest =>
      if String.eqb name case then file else gv_file_path_of rest case
  end.

(** ** Sample inputs *)

(** The edges of the example of the specification. *)
Definition demo_edges : list edge :=
  [("a0.1", "m0-0"); ("m0-0", "resid_post")].

(** The elements expected for [demo_edges] in a [W] by [H] area. *)
Definition demo_elements {R : Type} `{Arith R} (W H : R) : list (element R) :=
  let y0 := mul (sub (of_int 1) (lit (5 # 10))) (div H (of_int 1)) in
  [Node {| node_id := "resid_post"; node_label := "resid_post";
           node_type := "Output";
           node_position := Position (mul W (lit (7 # 10))) (of_int 20);
           node_style := centered "#ffcc50" 80 |};
   Node {| node_id := "a0.1"; node_label := "a0.1";
           node_type := "Attention";
           node_position :=
             Position (sub (mul W (lit (85 # 100)))
                           (div (mul (of_int 1) (mul W (lit (8 # 10))))
                                (of_int 3)))
                      y0;
           node_style := centered "#ff9a3c" 50 |};
   Node {| node_id := "m0-0"; node_label := "m0-0";
           node_type := "MLP";
           node_position := Position (mul W (lit (5 # 100))) y0;
           node_style := centered "#6ede87" 50 |};
   Edge {| edge_id := "a0.1-m0-0"; edge_source := "a0.1";
           edge_target := "m0-0"; edge_type := "smoothstep";
           edge_animated := true; edge_style := edge_stroke |};
   Edge {| edge_id := "m0-0-resid_post"; edge_source := "m0-0";
           edge_target := "resid_post"; edge_type := "smoothstep";
           edge_animated := true; edge_style := edge_stroke |}].

(** An attention node of layer 0 and the output node. *)
Definition output_edges : list edge := [("a0.1", "resid_post")].

(** Two nodes of layer 100. *)
Definition sentinel_edges : list edge := [("resid_post", "logits")].

(** Two attention heads and an MLP node in layer 0. *)
Definition heads_edges : list edge :=
  [("a0.1", "m0-0"); ("a0.3", "m0-0")].

(** Two attention heads whose layer is 100, and an MLP node in layer 0. *)
Definition sentinel_heads_edges : list edge :=
  [("a100.1", "a100.2"); ("a100.1", "m0-0")].

(** Edges with an MLP node and a node of layer 100 whose identifiers
    contain [H]. *)
Definition h_edges : list edge :=
  [("a0.1", "m0-H"); ("m0-H", "H")].

(** The drawing area that [main] passes. *)
Definition main_width : Q := 1400.
Definition main_height : Q := 800.

(** The smallest positive float, 5e-324. *)
Definition tiny_width : float := S754_finite false 1 (-1074).

(** ** Notions used to state the properties of the parser *)

Module ParserSpec.

Import Re.

(** A text without line feed. *)
Definition no_LF (s : string) : Prop := Py.contains Py.LF s = false.

(** [line] contains the pattern with [a] and [b] between the angle
    brackets: the reading of a matching line by the specification. *)
Definition contains_edge (line a b : string) : Prop :=
  exists pre post,
    line = pre ++ lit_open ++ a ++ lit_arrow ++ b ++ lit_close ++ post
    /\ a <> EmptyString /\ b <> EmptyString /\ no_LF a /\ no_LF b.

(** The text of one character; a single line feed, a single carriage
    return. *)
Definition one (c : ascii) : string := String c EmptyString.
Definition nl : string := one Py.LF.
Definition cr : string := one Py.CR.

(** The lines put together again: with a line feed between two lines, as
    [split] took it away, and as they are, for lines that kept theirs. *)
Fixpoint join_lines (lines : list string) : string :=
  match lines with
  | [] => EmptyString
  | l :: rest =>
      match rest with
      | [] => l
      | _ :: _ => l ++ nl ++ join_lines rest
      end
  end.

Definition concat_lines (lines : list string) : string :=
  foldr String.append EmptyString lines.

(** A line that kept its line feed, and a last line without one. *)
Definition ended_line (l : string) : Prop :=
  exists body, no_LF body /\ l = body ++ nl.

Definition open_line (l : string) : Prop := l <> EmptyString /\ no_LF l.

(** The lines of a file: each is ended by its line feed, the only one it
    holds; the last one may be a non-empty text without line feed. *)
Fixpoint file_lines (lines : list string) : Prop :=
  match lines with
  | [] => True
  | l :: rest =>
      match rest with
      | [] => ended_line l \/ open_line l
      | _ :: _ => ended_line l /\ file_lines rest
      end
  end.

(** The characters of the literal parts of the pattern. *)
Definition pattern_chars : string := lit_open ++ lit_arrow ++ lit_close.

(** Every carriage return of the text is followed by a line feed: the text
    has Unix or Windows line ends. *)
Fixpoint crlf_only (s : string) : bool :=
  match s with
  | EmptyString => true
  | String c r =>
      (if Ascii.eqb c Py.CR then
         match r with
         | String c' _ => Ascii.eqb c' Py.LF
         | EmptyString => false
         end
       else true)
      && crlf_only r
  end.

(** How the lines of [split] and of [readlines] correspond: the first line
    [h] of the former, which may keep a carriage return at its end,
    against the lines [ks] of the latter. *)
Definition lines_agree (h : string) (tl ks : list string) : Prop :=
  (ks = [] /\ h = EmptyString /\ tl = [])
  \/ (ks = [h] /\ tl = [])
  \/ (exists x ks', (h = x \/ h = x ++ cr)
                    /\ ks = (x ++ nl) :: ks'
                    /\ edges_of_lines tl = edges_of_lines ks').

(** A line with a carriage return inside the first pair of angle brackets. *)
Definition cr_sample : string :=
  lit_open ++ "a" ++ cr ++ "b" ++ lit_arrow ++ "c" ++ lit_close.

(** A text of one edge line, with a Windows line end. *)
Definition edge_sample : string :=
  lit_open ++ "a0.1" ++ lit_arrow ++ "m0-0" ++ lit_close ++ cr ++ nl.

End ParserSpec.

(** ** Notions used to state the properties of the layout *)

Module LayoutSpec.

(** [node] has layer [L]. *)
Definition layer_is (L : Z) (node : string) : bool :=
  match get_layer node with
  | Ok l => l =? L
  | Raise _ => false
  end.

(** [node] is counted in [layer_counts] at layer [L]: the counting loop
    skips the layer 100. *)
Definition counted_at (L : Z) (node : string) : bool :=
  layer_is L node && negb (L =? 100).

(** [node] takes the attention branch of the placing loop at layer [L]. *)
Definition attention_at (L : Z) (node : string) : bool :=
  counted_at L node && negb (Py.startswith node "m").

(** The number of members of [l] that satisfy [p]. *)
Fixpoint count (p : string -> bool) (l : list string) : Z :=
  match l with
  | [] => 0
  | x :: rest => (if p x then 1 else 0) + count p rest
  end.

(** The node elements of an element list, in order. *)
Definition node_elements {R : Type} (els : list (element R))
  : list (node_element R) :=
  omap (fun e => match e with Node n => Some n | Edge _ => None end) els.

(** The edge elements of an element list, in order. *)
Definition edge_elements {R : Type} (els : list (element R))
  : list edge_element :=
  omap (fun e => match e with Node _ => None | Edge e => Some e end) els.

(** The x-coordinates of the attention nodes of layer [L], in the order of
    the element list. *)
Definition attention_xs {R : Type} (L : Z) (els : list (element R)) : list R :=
  map (fun n => pos_x (node_position n))
      (List.filter (fun n => attention_at L (node_id n)) (node_elements els)).

(** The identifiers of the attention nodes of layer [L], in the order of
    the element list. *)
Definition attention_ids {R : Type} (L : Z) (els : list (element R))
  : list string :=
  map node_id
      (List.filter (fun n => attention_at L (node_id n)) (node_elements els)).

(** [x] and [y] have sort keys, and that of [x] is not the smaller. *)
Definition key_order (x y : string) : Prop :=
  exists kx ky, sort_key x = Ok kx /\ sort_key y = Ok ky
                /\ key_lt kx ky = false.

(** The x-coordinate of line 121 for the [k]-th attention node of a layer
    that holds [c] nodes. *)
Definition attention_x {R : Type} `{Arith R} (W : R) (c k : Z) : R :=
  sub (mul W (lit (85 # 100)))
      (div (mul (of_int k) (mul W (lit (8 # 10)))) (of_int (c + 1))).

(** The integers [a + 1], ..., [a + m]. *)
Definition ranks (a : Z) (m : nat) : list Z :=
  map (fun j => a + Z.of_nat j) (seq 1 m).

(** The element [n] is the element of [node], computed at the position
    that [node_positions] records for it; a node of layer 100 is recorded
    at the fixed corner. *)
Definition placed {R : Type} `{Arith R} (env : layout_env R)
  (st : place_state R) (node : string) (n : node_element R) : Prop :=
  exists p,
    node_positions st !! node = Some p
    /\ n = node_to_element env node (pos_x p) (pos_y p)
    /\ (get_layer node = Ok 100 ->
        p = Position (mul (graph_width env) (lit (7 # 10))) (of_int 20)).

(** [a] does not come after [b] in the descending order of the keys. *)
Definition key_ge (a b : Z * Z) : Prop := key_lt a b = false.

(** What the counting loop has established once the nodes [seen] are
    processed, for lists of length [len] whose first entry stands for the
    layer [mn]. *)
Definition counts_inv (mn : Z) (len : nat) (seen : list string)
  (lc lh : list Z) : Prop :=
  length lc = len /\ length lh = len
  /\ forall k, (k < len)%nat ->
       lc !! k = Some (count (counted_at (mn + Z.of_nat k)) seen)
       /\ lh !! k = Some (if 0 <? count (counted_at (mn + Z.of_nat k)) seen
                          then 1 else 0).

(** The length of the longest list that [[0] * n] builds. *)
Definition list_room (R : Type) {AR : Arith R} : Z :=
  Z.min ssize_max (@list_capacity R AR).

(** The layers of any two nodes of [nodes] lie in a range of at most
    [room] values. *)
Definition span_fits (room : Z) (nodes : list string) : Prop :=
  forall x y Lx Ly, In x nodes -> In y nodes ->
    get_layer x = Ok Lx -> get_layer y = Ok Ly -> Ly - Lx + 1 <= room.

(** Every node of [nodes] has a layer, within the [len] layers from [mn]. *)
Definition layers_within (mn : Z) (len : nat) (nodes : list string) : Prop :=
  forall node, In node nodes ->
    exists L, get_layer node = Ok L /\ mn <= L < mn + Z.of_nat len.

End LayoutSpec.

(** ** Notions used to state further properties *)

Module MoreSpec.

Import Re ParserSpec LayoutSpec.

(** A name that the pattern gives back whole: not empty, without line feed
    and without [>]. *)
Definition clean_name (s : string) : bool :=
  negb (String.eqb s EmptyString) && negb (Py.contains Py.LF s)
  && negb (Py.contains ">"%char s).

Definition clean_edge (e : edge) : bool :=
  clean_name (fst e) && clean_name (snd e).

(** The line of an edge, and the text of a list of lines. *)
Definition edge_line (e : edge) : string :=
  lit_open ++ fst e ++ lit_arrow ++ snd e ++ lit_close.

Fixpoint unlines (lines : list string) : string :=
  match lines with
  | [] => EmptyString
  | l :: rest => l ++ nl ++ unlines rest
  end.

(** A line of a graph file around an edge: [pre] before it and [post]
    after it. *)
Definition dressed_line (pre post : string) (e : edge) : string :=
  pre ++ edge_line e ++ post.

(** The lines of a graph file: an edge line, or a line without double
    quote (a header, a closing brace, a blank line). *)
Inductive gv_line : Type :=
| EdgeLine (pre post : string) (e : edge)
| PlainLine (text : string).

Definition render_line (l : gv_line) : string :=
  match l with
  | EdgeLine pre post e => dressed_line pre post e
  | PlainLine text => text
  end.

Definition line_edge (l : gv_line) : option edge :=
  match l with
  | EdgeLine _ _ e => Some e
  | PlainLine _ => None
  end.

Definition line_ok (l : gv_line) : bool :=
  match l with
  | EdgeLine pre post e =>
      negb (Py.contains DQ pre) && negb (Py.contains Py.LF pre)
      && negb (Py.contains Py.LF post) && clean_edge e
  | PlainLine text =>
      negb (Py.contains DQ text) && negb (Py.contains Py.LF text)
  end.

(** The text of a graph file, each line ended by a line feed. *)
Definition render (lines : list gv_line) : string :=
  unlines (map render_line lines).

(** Decimal digits, most significant first, and the number they write. *)
Definition digit_char (d : nat) : ascii := ascii_of_nat (48 + d).

Fixpoint decimal (ds : list nat) : string :=
  match ds with
  | [] => EmptyString
  | d :: rest => String (digit_char d) (decimal rest)
  end.

Definition decimal_value (ds : list nat) : Z :=
  foldl (fun acc d => 10 * acc + Z.of_nat d) 0 ds.

Definition digits (ds : list nat) : Prop :=
  ds <> [] /\ Forall (fun d => (d < 10)%nat) ds.

(** The layers other than 100 that hold a node, each once. *)
Definition stacked_layers (nodes : list string) : list Z :=
  remove_dups
    (omap (fun node =>
             match get_layer node with
             | Ok l => if l =? 100 then None else Some l
             | Raise _ => None
             end) nodes).

(** How many of them there are, and how many lie below [L]. *)
Definition layer_total (nodes : list string) : Z :=
  Z.of_nat (length (stacked_layers nodes)).

Definition layers_below (L : Z) (nodes : list string) : Z :=
  Z.of_nat (length (List.filter (fun l => l <? L) (stacked_layers nodes))).

(** The y-coordinate of the layer [L] in an area of height [H], before the
    shift of lines 143 and 144, and that shift. *)
Definition layer_y {R : Type} `{Arith R} (H : R) (nodes : list string) (L : Z)
  : R :=
  mul (sub (of_int (layer_total nodes - layers_below L nodes)) (lit (5 # 10)))
      (div H (of_int (layer_total nodes))).

Definition quarter_unit {R : Type} `{Arith R} (H : R) (nodes : list string) : R :=
  div (div H (of_int (layer_total nodes))) (of_int 4).

(** The element [n] is the element of [node], at the position that lines
    113 to 122 give to its layer and kind. *)
Definition placed_at {R : Type} `{Arith R} (env : layout_env R)
  (node : string) (n : node_element R) : Prop :=
  exists L x y,
    get_layer node = Ok L
    /\ n = node_to_element env node x y
    /\ (L = 100 ->
        x = mul (graph_width env) (lit (7 # 10)) /\ y = of_int 20)
    /\ (L <> 100 ->
        y = stack_y env L
        /\ (Py.startswith node "m" = true ->
            x = mul (graph_width env) (lit (5 # 100)))).

(** The element [n] is drawn in the band of rank [r], counted from the
    top of the area: at y = (r - 0.5) (H / T), less a quarter of H / T
    when its identifier contains [H], with [T] the number of stacked
    layers. *)
Definition at_rank {R : Type} `{Arith R} (H : R) (nodes : list string)
  (r : Z) (n : node_element R) : Prop :=
  let u := div H (of_int (layer_total nodes)) in
  let y := mul (sub (of_int r) (lit (5 # 10))) u in
  pos_y (node_position n)
  = if Py.contains "H"%char (node_id n) then sub y (div u (of_int 4)) else y.

(** The sort keys of [nodes] are pairwise different. *)
Definition distinct_keys (nodes : list string) : Prop :=
  forall x y, In x nodes -> In y nodes -> x <> y -> sort_key x <> sort_key y.

(** [a <= b] on Python strings. *)
Definition name_le (a b : string) : Prop := String.ltb b a = false.

(** The path that [get_gv_files] records for the sub-directory [name]. *)
Definition graph_path (circuit_dir name : string) : string :=
  Os.path_join (Os.path_join circuit_dir name) "graph.gv".

(** *** Further sample inputs *)

(** A graph file of two edges between a header and a closing brace. *)
Definition sample_lines : list gv_line :=
  [PlainLine "digraph {";
   EdgeLine "  " ";" ("a0.1", "m0-0");
   EdgeLine "  " " [color=red];" ("m0-0", "resid_post");
   PlainLine "}"].

(** Two stacked layers, an attention head and a node of layer 100. *)
Definition stack_edges : list edge :=
  [("a0.1", "m0-0"); ("m0-0", "m1-0"); ("m1-0", "resid_post")].

(** A model directory with two cases and a plain file. *)
Definition sample_fs : Os.file_system :=
  {| Os.listdir := fun d =>
       if String.eqb d "gpt2-medium"
       then Some ["country_capital"; "notes.txt"; "birth_year"]
       else None;
     Os.isdir := fun p =>
       String.eqb p "gpt2-medium/country_capital"
       || String.eqb p "gpt2-medium/birth_year";
     Os.path_exists := fun p =>
       String.eqb p "gpt2-medium/country_capital/graph.gv"
       || String.eqb p "gpt2-medium/birth_year/graph.gv" |}.

Definition sample_files : list (string * string) :=
  [("birth_year", "gpt2-medium/birth_year/graph.gv");
   ("country_capital", "gpt2-medium/country_capital/graph.gv")].

End MoreSpec.

(** * Properties *)

(** ** The parser *)

Module ParserFacts.

Import Re ParserSpec.

Lemma no_LF_cons c s : no_LF (String c s) <-> c <> Py.LF /\ no_LF s.
Proof.
  unfold no_LF; simpl. rewrite orb_false_iff, Ascii.eqb_neq. tauto.
Qed.

Lemma strip_prefix_Some p s r : strip_prefix p s = Some r <-> s = p ++ r.
Proof.
  revert s; induction p as [|a p IH]; intros s; simpl.
  - split; congruence.
  - destruct s as [|b s]; [split; discriminate|].
    destruct (Ascii.eqb_spec a b) as [->|Hne].
    + rewrite IH. split; congruence.
    + split; [discriminate | intros [= -> _]; congruence].
Qed.

Lemma strip_prefix_app p r : strip_prefix p (p ++ r) = Some r.
Proof. now apply strip_prefix_Some. Qed.

(** What a successful lazy group has consumed. *)
Lemma lazy_plus_sound {B} (k : string -> option B) s g b :
  lazy_plus k s = Some (g, b) ->
  exists r, s = g ++ r /\ g <> EmptyString /\ no_LF g /\ k r = Some b.
Proof.
  revert g b; induction s as [|c s IH]; intros g b; simpl; [discriminate|].
  destruct (Ascii.eqb_spec c Py.LF) as [|Hc]; [discriminate|].
  destruct (k s) as [b0|] eqn:Hk.
  - intros [= <- <-]. exists s. repeat split; try easy.
    apply no_LF_cons; split; easy.
  - destruct (lazy_plus k s) as [[g' b']|] eqn:Hl; [|discriminate].
    intros [= <- <-]. destruct (IH _ _ eq_refl) as (r & -> & _ & Hg & Hr).
    exists r. repeat split; try easy. apply no_LF_cons; split; easy.
Qed.

(** A lazy group finds a match whenever some split of the text is one. *)
Lemma lazy_plus_complete {B} (k : string -> option B) g r b :
  g <> EmptyString -> no_LF g -> k r = Some b ->
  exists g' b', lazy_plus k (g ++ r) = Some (g', b').
Proof.
  induction g as [|c g IH]; intros Hne Hg Hk; [congruence|].
  apply no_LF_cons in Hg as [Hc Hg]. simpl.
  destruct (Ascii.eqb_spec c Py.LF) as [|_]; [congruence|].
  destruct (k (g ++ r)) as [b0|] eqn:Hk0; [eauto|].
  destruct g as [|c' g].
  - simpl in Hk0. congruence.
  - destruct IH as (g' & b' & ->); try easy. eauto.
Qed.

Lemma match_close_app post : match_close (lit_close ++ post) = Some tt.
Proof. unfold match_close. now rewrite strip_prefix_app. Qed.

Lemma match_arrow_sound s b :
  match_arrow s = Some b ->
  exists post, s = lit_arrow ++ b ++ lit_close ++ post
               /\ b <> EmptyString /\ no_LF b.
Proof.
  unfold match_arrow.
  destruct (strip_prefix lit_arrow s) as [r|] eqn:Hs; [|discriminate].
  apply strip_prefix_Some in Hs as ->.
  destruct (lazy_plus match_close r) as [[g u]|] eqn:Hl; [|discriminate].
  intros [= <-]. apply lazy_plus_sound in Hl as (r' & -> & Hne & Hg & Hc).
  unfold match_close in Hc.
  destruct (strip_prefix lit_close r') as [post|] eqn:Hp; [|discriminate].
  apply strip_prefix_Some in Hp as ->. eauto.
Qed.

Lemma match_here_sound s a b :
  match_here s = Some (a, b) ->
  exists post, s = lit_open ++ a ++ lit_arrow ++ b ++ lit_close ++ post
               /\ a <> EmptyString /\ b <> EmptyString /\ no_LF a /\ no_LF b.
Proof.
  unfold match_here.
  destruct (strip_prefix lit_open s) as [r|] eqn:Hs; [|discriminate].
  apply strip_prefix_Some in Hs as ->. intros Hl.
  apply lazy_plus_sound in Hl as (r' & -> & Hne & Hg & Hm).
  apply match_arrow_sound in Hm as (post & -> & Hb & Hgb).
  exists post. easy.
Qed.

Lemma match_here_complete a b post :
  a <> EmptyString -> b <> EmptyString -> no_LF a -> no_LF b ->
  exists m, match_here (lit_open ++ a ++ lit_arrow ++ b ++ lit_close ++ post)
            = Some m.
Proof.
  intros Ha Hb Hga Hgb. unfold match_here. rewrite strip_prefix_app.
  destruct (lazy_plus_complete match_close b (lit_close ++ post) tt Hb Hgb
              (match_close_app post)) as (g2 & u & H2).
  destruct (lazy_plus_complete match_arrow a
              (lit_arrow ++ b ++ lit_close ++ post) g2 Ha Hga) as (g1 & b1 & H1).
  - unfold match_arrow. rewrite strip_prefix_app, H2. reflexivity.
  - rewrite H1. eauto.
Qed.

Lemma search_sound s a b : search s = Some (a, b) -> contains_edge s a b.
Proof.
  induction s as [|c s IH]; simpl.
  - discriminate.
  - destruct (match_here (String c s)) as [m|] eqn:Hm.
    + intros [= ->]. apply match_here_sound in Hm as (post & -> & H).
      exists EmptyString, post. easy.
    + intros Hs. destruct (IH Hs) as (pre & post & -> & H).
      exists (String c pre), post. easy.
Qed.

Lemma search_here s m : match_here s = Some m -> search s = Some m.
Proof. destruct s; simpl; intros H; try discriminate; now rewrite H. Qed.

Lemma search_not_here s :
  match_here s = None ->
  search s = match s with EmptyString => None | String _ r => search r end.
Proof. destruct s; simpl; intros H; [reflexivity | now rewrite H]. Qed.

Lemma search_complete s a b :
  contains_edge s a b -> exists m, search s = Some m.
Proof.
  intros (pre & post & -> & Ha & Hb & Hga & Hgb).
  induction pre as [|c pre IH].
  - destruct (match_here_complete a b post Ha Hb Hga Hgb) as (m & Hm).
    exists m. now apply search_here.
  - destruct IH as (m & Hm). simpl.
    destruct (match_here _) as [m'|]; eauto.
Qed.

(** The loop is an order-preserving filter of the lines. *)
Lemma edges_of_lines_omap lines : edges_of_lines lines = omap search lines.
Proof.
  induction lines as [|l lines IH]; simpl; [reflexivity|].
  destruct (search l) as [[a b]|]; simpl; now rewrite IH.
Qed.

Lemma edges_of_lines_app l1 l2 :
  edges_of_lines (l1 ++ l2) = (edges_of_lines l1 ++ edges_of_lines l2)%list.
Proof. rewrite !edges_of_lines_omap. apply omap_app. Qed.

(** *** A trailing line end is invisible to the pattern *)

Section Trailing.

(** A character that is not in the literal parts of the pattern. *)
Variable c : ascii.
Hypothesis c_free : Py.contains c pattern_chars = false.

Lemma strip_prefix_snoc p s :
  Py.contains c p = false ->
  strip_prefix p (s ++ one c) = option_map (fun r => r ++ one c) (strip_prefix p s).
Proof.
  revert s; induction p as [|a p IH]; intros s Hp; simpl; [reflexivity|].
  simpl in Hp. apply orb_false_iff in Hp as [Ha Hp].
  destruct s as [|b s]; simpl.
  - now rewrite Ha.
  - destruct (Ascii.eqb a b); [now apply IH | reflexivity].
Qed.

Lemma lazy_plus_snoc {B} (k : string -> option B) s :
  k EmptyString = None -> (forall r, k (r ++ one c) = k r) ->
  lazy_plus k (s ++ one c) = lazy_plus k s.
Proof.
  intros Hk0 Hk. induction s as [|a s IH]; simpl.
  - destruct (Ascii.eqb c Py.LF); [reflexivity | now rewrite Hk0].
  - destruct (Ascii.eqb a Py.LF); [reflexivity|]. now rewrite Hk, IH.
Qed.

Lemma contains_app x a b :
  Py.contains x (a ++ b) = Py.contains x a || Py.contains x b.
Proof.
  induction a as [|y a IH]; simpl; [reflexivity|].
  now rewrite IH, orb_assoc.
Qed.

Lemma c_free_parts :
  Py.contains c lit_open = false /\ Py.contains c lit_arrow = false
  /\ Py.contains c lit_close = false.
Proof.
  pose proof c_free as H. unfold pattern_chars in H.
  rewrite !contains_app, !orb_false_iff in H. tauto.
Qed.

Lemma match_close_snoc s : match_close (s ++ one c) = match_close s.
Proof.
  unfold match_close. rewrite strip_prefix_snoc by apply c_free_parts.
  now destruct (strip_prefix lit_close s).
Qed.

Lemma match_arrow_snoc s : match_arrow (s ++ one c) = match_arrow s.
Proof.
  unfold match_arrow. rewrite strip_prefix_snoc by apply c_free_parts.
  destruct (strip_prefix lit_arrow s) as [r|]; simpl; [|reflexivity].
  rewrite lazy_plus_snoc; [reflexivity | reflexivity | apply match_close_snoc].
Qed.

Lemma match_here_snoc s : match_here (s ++ one c) = match_here s.
Proof.
  unfold match_here. rewrite strip_prefix_snoc by apply c_free_parts.
  destruct (strip_prefix lit_open s) as [r|]; simpl; [|reflexivity].
  apply lazy_plus_snoc; [reflexivity | apply match_arrow_snoc].
Qed.

Lemma match_here_one : match_here (one c) = None.
Proof.
  unfold match_here, one, lit_open. cbn [strip_prefix].
  now destruct (Ascii.eqb DQ c).
Qed.

Lemma search_snoc s : search (s ++ one c) = search s.
Proof.
  induction s as [|a s IH].
  - change (EmptyString ++ one c) with (one c).
    now rewrite (search_not_here (one c) match_here_one).
  - pose proof (match_here_snoc (String a s)) as Hm.
    simpl in *. now rewrite Hm, IH.
Qed.

End Trailing.

Lemma search_nl s : search (s ++ nl) = search s.
Proof. now apply search_snoc. Qed.

Lemma search_cr s : search (s ++ cr) = search s.
Proof. now apply search_snoc. Qed.

Lemma lines_agree_edges h tl ks :
  lines_agree h tl ks -> edges_of_lines (h :: tl) = edges_of_lines ks.
Proof.
  intros [(-> & -> & ->) | [(-> & ->) | (x & ks' & Hh & -> & He)]].
  - reflexivity.
  - reflexivity.
  - simpl. rewrite search_nl, He.
    destruct Hh as [->| ->]; [reflexivity | now rewrite search_cr].
Qed.

Lemma split_readlines t :
  crlf_only t = true ->
  exists h tl, Py.split Py.LF t = h :: tl
               /\ lines_agree h tl (Py.keepends (Py.universal_newlines t)).
Proof.
  induction t as [|c t IH]; simpl.
  - intros _. exists EmptyString, []. split; [reflexivity | now left].
  - intros [Hc Ht]%andb_true_iff. destruct (IH Ht) as (h & tl & Hsp & Hag).
    destruct (Ascii.eqb_spec c Py.CR) as [->|Hcr].
    + destruct t as [|c' t']; [discriminate|].
      apply Ascii.eqb_eq in Hc as ->.
      pose proof (lines_agree_edges _ _ _ Hag) as He.
      rewrite <- Hsp in He. simpl in He, Hsp. injection Hsp as <- <-.
      simpl. exists cr, (Py.split Py.LF t'). split; [reflexivity|].
      right; right. exists EmptyString, (Py.keepends (Py.universal_newlines t')).
      split; [now right|]. split; [reflexivity | exact He].
    + destruct (Ascii.eqb_spec c Py.LF) as [->|Hlf].
      * simpl. exists EmptyString, (Py.split Py.LF t). split; [reflexivity|].
        right; right.
        exists EmptyString, (Py.keepends (Py.universal_newlines t)).
        split; [now left|]. split; [reflexivity|].
        rewrite Hsp. now apply lines_agree_edges.
      * simpl. destruct (Ascii.eqb_spec c Py.LF); [contradiction|].
        rewrite Hsp. exists (String c h), tl. split; [reflexivity|].
        destruct Hag as [(-> & -> & ->) | [(-> & ->) | (x & ks' & Hh & -> & He)]].
        -- right; left. easy.
        -- right; left. easy.
        -- right; right. exists (String c x), ks'.
           split; [destruct Hh as [->| ->]; [now left | now right]|].
           split; [reflexivity | exact He].
Qed.

Lemma edges_split_readlines t :
  crlf_only t = true ->
  edges_of_lines (Py.split Py.LF t) = edges_of_lines (Py.readlines t).
Proof.
  intros Ht. destruct (split_readlines t Ht) as (h & tl & -> & Hag).
  now apply lines_agree_edges.
Qed.

Example search_first_match :
  search (lit_open ++ "a" ++ lit_arrow ++ "b" ++ lit_arrow ++ "c" ++ lit_close)
  = Some ("a", "b").
Proof. reflexivity. Qed.

Example search_lazy_group_extends :
  search (lit_open ++ "a" ++ lit_close ++ " x " ++ lit_open ++ "b"
          ++ lit_arrow ++ "c" ++ lit_close)
  = Some ("a" ++ lit_close ++ " x " ++ lit_open ++ "b", "c").
Proof. reflexivity. Qed.

Example search_empty_name :
  search (lit_open ++ lit_arrow ++ "b" ++ lit_close) = None.
Proof. reflexivity. Qed.

Example readlines_line_ends :
  Py.readlines ("a" ++ cr ++ "b" ++ cr ++ nl ++ "c" ++ nl ++ "d")
  = ["a" ++ nl; "b" ++ nl; "c" ++ nl; "d"].
Proof. reflexivity. Qed.

Example split_line_ends :
  Py.split Py.LF ("a" ++ nl ++ "b" ++ nl) = ["a"; "b"; EmptyString].
Proof. reflexivity. Qed.

(** *** The lines of the input *)

Lemma join_lines_cons c h t :
  join_lines (String c h :: t) = String c (join_lines (h :: t)).
Proof. destruct t; reflexivity. Qed.

(** [split] cuts the text at its line feeds, and only there. *)
Lemma split_lines s :
  join_lines (Py.split Py.LF s) = s
  /\ Forall no_LF (Py.split Py.LF s)
  /\ Py.split Py.LF s <> [].
Proof.
  induction s as [|c r (IHj & IHf & IHn)]; cbn [Py.split].
  - split; [reflexivity|]. split; [|discriminate]. now repeat constructor.
  - destruct (Ascii.eqb_spec c Py.LF) as [->|Hc].
    + split; [|split; [|discriminate]].
      * destruct (Py.split Py.LF r) as [|h t] eqn:E; [contradiction|].
        change (join_lines (EmptyString :: h :: t))
          with (EmptyString ++ nl ++ join_lines (h :: t)).
        rewrite IHj. reflexivity.
      * constructor; [reflexivity | exact IHf].
    + destruct (Py.split Py.LF r) as [|h t] eqn:E; [contradiction|].
      split; [|split; [|discriminate]].
      * now rewrite join_lines_cons, IHj.
      * apply Forall_cons in IHf as [Hh Ht]. constructor; [|exact Ht].
        unfold no_LF in *. cbn [Py.contains]. rewrite Hh.
        now destruct (Ascii.eqb_spec c Py.LF).
Qed.

Lemma ended_line_cons c l :
  c <> Py.LF -> ended_line l -> ended_line (String c l).
Proof.
  intros Hc (body & Hb & ->). exists (String c body). split; [|reflexivity].
  unfold no_LF in *. cbn [Py.contains]. rewrite Hb.
  now destruct (Ascii.eqb_spec c Py.LF).
Qed.

Lemma open_line_cons c l :
  c <> Py.LF -> no_LF l -> open_line (String c l).
Proof.
  intros Hc Hl. split; [discriminate|].
  unfold no_LF in *. cbn [Py.contains]. rewrite Hl.
  now destruct (Ascii.eqb_spec c Py.LF).
Qed.

(** [keepends] cuts the text after its line feeds, and only there. *)
Lemma keepends_lines s :
  concat_lines (Py.keepends s) = s /\ file_lines (Py.keepends s).
Proof.
  induction s as [|c r [IHc IHf]]; cbn [Py.keepends]; [easy|].
  destruct (Ascii.eqb_spec c Py.LF) as [->|Hc].
  - split; [cbn [concat_lines foldr]; fold (concat_lines (Py.keepends r));
            now rewrite IHc|].
    assert (ended_line (String Py.LF EmptyString)) as He
      by (exists EmptyString; easy).
    cbn [file_lines]. destruct (Py.keepends r); [now left | easy].
  - destruct (Py.keepends r) as [|h t] eqn:E.
    + cbn in IHc. subst r. split; [reflexivity|].
      right. now apply open_line_cons.
    + split.
      * cbn [concat_lines foldr] in *. now rewrite <- IHc.
      * cbn [file_lines] in *. destruct t as [|h' t].
        -- destruct IHf as [He|[_ Ho]];
             [left; now apply ended_line_cons
             | right; now apply open_line_cons].
        -- destruct IHf as [He Hf]. split; [now apply ended_line_cons | exact Hf].
Qed.

(** *** The parser as a whole *)


(** C10, as amended: when every carriage return of the text is followed
    by a line feed (Unix or Windows line ends), the path form and the
    upload form of one text give the same edges. *)
Theorem gv_to_edges_forms_agree :
  forall text : string,
    crlf_only text = true ->
    gv_to_edges (FilePath text) = gv_to_edges (UploadedFile text).
Proof.
  intros text Hcr. unfold gv_to_edges, gv_lines.
  symmetry. now apply edges_split_readlines.
Qed.

Lemma gv_to_edges_forms_agree_witness :
  crlf_only edge_sample = true
  /\ gv_to_edges (FilePath edge_sample) = gv_to_edges (UploadedFile edge_sample)
  /\ gv_to_edges (UploadedFile edge_sample) = [("a0.1", "m0-0")].
Proof.
  split; [reflexivity|]. split.
  - apply (gv_to_edges_forms_agree edge_sample). reflexivity.
  - reflexivity.
Defined.

(** C10 as stated fails: read through a path, a lone carriage return ends
    a line, so the pattern around it is cut in two and no edge is found;
    the upload form keeps the line whole and finds the edge. *)
Lemma gv_to_edges_forms_differ :
  gv_to_edges (FilePath cr_sample) = []
  /\ gv_to_edges (UploadedFile cr_sample) = [("a" ++ cr ++ "b", "c")]
  /\ gv_to_edges (FilePath cr_sample) <> gv_to_edges (UploadedFile cr_sample).
Proof. repeat split; try reflexivity. discriminate. Qed.

End ParserFacts.

(** ** Layers and heads *)

Module LayerFacts.

Example int_accepts :
  map Py.int ["3"; "03"; " 7 "; "+5"; "-5"; "1_0"]
  = [Ok 3; Ok 3; Ok 7; Ok 5; Ok (-5); Ok 10].
Proof. reflexivity. Qed.

Example int_refuses :
  map Py.int [EmptyString; " "; "- 5"; "_1"; "1_"; "1__0"; "lp"; "0x1"; "1 2"]
  = repeat (Raise ValueError) 9.
Proof. reflexivity. Qed.

Example get_layer_samples :
  map get_layer ["m3"; "m3-"; "m-5"; "a-5.1"; "a5"; "m100-1"; "M3"]
  = [Ok 3; Ok 3; Raise ValueError; Ok (-5); Ok 5; Ok 100; Ok 100].
Proof. reflexivity. Qed.

Example get_attention_head_samples :
  map get_attention_head ["a5"; "a5.1.2"; "a5."; "a.3"; "x.3"]
  = [Raise ValueError; Ok 2; Raise ValueError; Ok 3; Ok (-1)].
Proof. reflexivity. Qed.

(** C9: the layers and heads of the three sample identifiers. *)
Theorem layer_and_head_samples :
  get_layer "m3-5" = Ok 3
  /\ get_layer "a2.7" = Ok 2
  /\ get_layer "resid_post" = Ok 100
  /\ get_attention_head "a2.7" = Ok 7
  /\ get_attention_head "m3-5" = Ok (-1)
  /\ get_attention_head "resid_post" = Ok (-1).
Proof. repeat split; reflexivity. Qed.

(** C3, as amended: an identifier that starts with neither [m] nor [a] has
    layer 100 and head -1, and any identifier that does not start with [a]
    has head -1. *)
Theorem other_prefix_is_sentinel :
  forall node : string,
    Py.startswith node "a" = false ->
    get_attention_head node = Ok (-1)
    /\ (Py.startswith node "m" = false -> get_layer node = Ok 100).
Proof.
  intros node Ha. unfold get_attention_head, get_layer. rewrite Ha.
  split; [reflexivity|]. now intros ->.
Qed.

Lemma other_prefix_is_sentinel_witness :
  Py.startswith "resid_post" "a" = false
  /\ get_attention_head "resid_post" = Ok (-1)
  /\ (Py.startswith "resid_post" "m" = false -> get_layer "resid_post" = Ok 100).
Proof.
  split; [reflexivity|]. apply (other_prefix_is_sentinel "resid_post"). reflexivity.
Defined.

(** C3 as stated fails: [mlp] and [attn] start with [m] and [a], so the
    text after the first letter goes to [int], which raises. *)
Lemma mlp_attn_raise :
  get_layer "mlp" = Raise ValueError
  /\ get_layer "attn" = Raise ValueError
  /\ get_attention_head "attn" = Raise ValueError
  /\ get_layer "mlp" <> Ok 100.
Proof. repeat split; try reflexivity. discriminate. Qed.

End LayerFacts.

(** ** The layout *)

Module LayoutFacts.

Import LayoutSpec.

(** *** The exception monad *)

Lemma bind_Ok {A B} (r : result A) (k : A -> result B) b :
  bind r k = Ok b -> exists a, r = Ok a /\ k a = Ok b.
Proof. destruct r as [a|e]; simpl; [eauto | discriminate]. Qed.

Ltac inv_bind H :=
  let a := fresh "v" in
  let E := fresh "E" in
  apply bind_Ok in H as (a & E & H).

Lemma returns_Ok {A} (a : A) : returns (Ok a).
Proof. now exists a. Qed.

#[local] Hint Resolve returns_Ok : core.
#[local] Hint Unfold returns : core.

(** *** Python lists *)

Lemma py_zeros_Ok capacity n l :
  py_zeros capacity n = Ok l <-> l = zeros n /\ n <= ssize_max /\ n <= capacity.
Proof.
  unfold py_zeros.
  destruct (Z.ltb_spec ssize_max n); [split; [discriminate | lia]|].
  destruct (Z.ltb_spec capacity n); [split; [discriminate | lia]|].
  split; [intros [= <-]; easy | intros (-> & _); reflexivity].
Qed.

Lemma list_room_min {R : Type} {AR : Arith R} : 65536 <= list_room R.
Proof.
  unfold list_room. pose proof (@list_capacity_min R AR).
  assert (65536 <= ssize_max) by discriminate. lia.
Qed.

Lemma py_zeros_fits {R : Type} {AR : Arith R} n :
  n <= list_room R -> py_zeros (@list_capacity R AR) n = Ok (zeros n).
Proof.
  unfold list_room. intros Hn. apply py_zeros_Ok. split; [reflexivity | lia].
Qed.

Lemma list_index_ok len i :
  0 <= i < Z.of_nat len -> list_index len i = Ok (Z.to_nat i).
Proof.
  intros Hi. unfold list_index.
  destruct (Z.leb_spec 0 i); [|lia]. destruct (Z.ltb_spec i (Z.of_nat len)); [|lia].
  reflexivity.
Qed.

Lemma getitem_ok {A} (l : list A) i :
  0 <= i < Z.of_nat (length l) ->
  exists v, l !! Z.to_nat i = Some v /\ getitem l i = Ok v.
Proof.
  intros Hi. unfold getitem. rewrite list_index_ok by exact Hi. simpl.
  destruct (lookup_lt_is_Some_2 l (Z.to_nat i)) as [v Hv]; [lia|].
  exists v. now rewrite Hv.
Qed.

Lemma setitem_ok {A} (l : list A) i v :
  0 <= i < Z.of_nat (length l) -> setitem l i v = Ok (<[Z.to_nat i := v]> l).
Proof. intros Hi. unfold setitem. now rewrite list_index_ok. Qed.

Lemma sum_nonneg l : Forall (fun x => 0 <= x) l -> 0 <= sum l.
Proof. induction 1; simpl; lia. Qed.

Lemma sum_all_zero l : Forall (fun x => x = 0) l -> sum l = 0.
Proof. induction 1; simpl; lia. Qed.

Lemma foldl_min_le h t :
  foldl Z.min h t <= h /\ forall x, In x t -> foldl Z.min h t <= x.
Proof.
  revert h; induction t as [|y t IH]; intros h; simpl.
  - split; [lia | tauto].
  - destruct (IH (Z.min h y)) as [H1 H2]. split; [lia|].
    intros x [<-|Hx]; [lia | auto].
Qed.

Lemma foldl_max_ge h t :
  h <= foldl Z.max h t /\ forall x, In x t -> x <= foldl Z.max h t.
Proof.
  revert h; induction t as [|y t IH]; intros h; simpl.
  - split; [lia | tauto].
  - destruct (IH (Z.max h y)) as [H1 H2]. split; [lia|].
    intros x [<-|Hx]; [lia | auto].
Qed.

Lemma foldl_min_In h t : In (foldl Z.min h t) (h :: t).
Proof.
  revert h; induction t as [|y t IH]; intros h; simpl; [now left|].
  destruct (IH (Z.min h y)) as [E|Hin]; [|now right; right].
  rewrite <- E. destruct (Z.min_spec h y) as [[_ E']|[_ E']]; rewrite E'; auto.
Qed.

Lemma foldl_max_In h t : In (foldl Z.max h t) (h :: t).
Proof.
  revert h; induction t as [|y t IH]; intros h; simpl; [now left|].
  destruct (IH (Z.max h y)) as [E|Hin]; [|now right; right].
  rewrite <- E. destruct (Z.max_spec h y) as [[_ E']|[_ E']]; rewrite E'; auto.
Qed.

Lemma py_min_le l m : py_min l = Ok m -> forall x, In x l -> m <= x.
Proof.
  destruct l as [|h t]; [discriminate|]. simpl.
  destruct (foldl_min_le h t) as [H1 H2].
  intros [= <-] x [<-|Hx]; auto.
Qed.

Lemma py_max_ge l m : py_max l = Ok m -> forall x, In x l -> x <= m.
Proof.
  destruct l as [|h t]; [discriminate|]. simpl.
  destruct (foldl_max_ge h t) as [H1 H2].
  intros [= <-] x [<-|Hx]; auto.
Qed.

Lemma py_min_returns l : l <> [] -> returns (py_min l).
Proof. destruct l; [congruence | simpl; eauto]. Qed.

Lemma py_max_returns l : l <> [] -> returns (py_max l).
Proof. destruct l; [congruence | simpl; eauto]. Qed.

(** *** The layers of the nodes *)

Lemma finite_layers_Ok nodes ls :
  finite_layers nodes = Ok ls ->
  Forall2 (fun node L => get_layer node = Ok L) nodes ls.
Proof.
  revert ls; induction nodes as [|n nodes IH]; intros ls; simpl.
  - intros [= <-]. constructor.
  - intros H. inv_bind H. unfold ne_neg_inf in H.
    inv_bind H. inv_bind H. injection H as <-.
    constructor; [congruence | auto].
Qed.

Lemma finite_layers_returns nodes :
  (forall n, In n nodes -> returns (get_layer n)) ->
  returns (finite_layers nodes).
Proof.
  induction nodes as [|n nodes IH]; intros Hn; simpl; [eauto|].
  destruct (Hn n) as [L HL]; [now left|]. rewrite HL. simpl.
  destruct IH as [ls ->]; [intros; apply Hn; now right|]. simpl. eauto.
Qed.

Lemma finite_layers_nil nodes : finite_layers nodes = Ok [] -> nodes = [].
Proof. intros H%finite_layers_Ok. now inversion H. Qed.

(** Every layer lies between [min_layer] and [max_layer]. *)
Lemma layer_bounds nodes mn mx :
  min_layer_of nodes = Ok mn -> max_layer_of nodes = Ok mx ->
  forall node L, In node nodes -> get_layer node = Ok L -> mn <= L <= mx.
Proof.
  unfold min_layer_of, max_layer_of. intros Hmn Hmx node L Hin HL.
  inv_bind Hmn. inv_bind Hmx. assert (v0 = v) as -> by congruence.
  apply finite_layers_Ok in E.
  assert (In L v) as HLv.
  { clear -E Hin HL. induction E as [|n l ns ls Hn _ IH]; [easy|].
    destruct Hin as [->|Hin]; [left; congruence | right; auto]. }
  split; [eapply py_min_le | eapply py_max_ge]; eauto.
Qed.

(** [min_layer] and [max_layer] are the layers of two nodes. *)
Lemma layer_range_attained nodes mn mx :
  min_layer_of nodes = Ok mn -> max_layer_of nodes = Ok mx ->
  exists x y, In x nodes /\ In y nodes
              /\ get_layer x = Ok mn /\ get_layer y = Ok mx.
Proof.
  unfold min_layer_of, max_layer_of. intros Hmn Hmx.
  inv_bind Hmn. inv_bind Hmx. assert (v0 = v) as -> by congruence.
  apply finite_layers_Ok in E.
  assert (forall L, In L v -> exists x, In x nodes /\ get_layer x = Ok L) as Hat.
  { clear -E. induction E as [|n l ns ls Hn _ IH]; [easy|].
    intros L [<-|HL]; [exists n; split; [now left | exact Hn]|].
    destruct (IH L HL) as (x & Hx & HxL). exists x. split; [now right | exact HxL]. }
  destruct v as [|h t]; [discriminate|]. simpl in Hmn, Hmx.
  injection Hmn as <-. injection Hmx as <-.
  destruct (Hat _ (foldl_min_In h t)) as (x & Hx & HxL).
  destruct (Hat _ (foldl_max_In h t)) as (y & Hy & HyL).
  exists x, y. easy.
Qed.

(** *** Sorting *)

Lemma sort_key_layer x : returns (sort_key x) -> returns (get_layer x).
Proof.
  intros [k H]. unfold sort_key in H. inv_bind H. now exists v.
Qed.

Lemma with_keys_Ok l kl :
  with_keys l = Ok kl ->
  map snd kl = l /\ Forall (fun p => sort_key (snd p) = Ok (fst p)) kl.
Proof.
  revert kl; induction l as [|x l IH]; intros kl; simpl.
  - intros [= <-]. split; [reflexivity | constructor].
  - intros H. inv_bind H. inv_bind H. injection H as <-.
    destruct (IH _ E0) as [Hm Hf]. simpl. split; [now rewrite Hm|].
    constructor; easy.
Qed.

Lemma with_keys_returns l :
  (forall x, In x l -> returns (sort_key x)) -> returns (with_keys l).
Proof.
  induction l as [|x l IH]; intros Hl; simpl; [eauto|].
  destruct (Hl x) as [k ->]; [now left|]. simpl.
  destruct IH as [kl ->]; [intros; apply Hl; now right|]. simpl. eauto.
Qed.

Lemma with_keys_each l kl :
  with_keys l = Ok kl -> forall x, In x l -> returns (sort_key x).
Proof.
  intros H x Hx. destruct (with_keys_Ok _ _ H) as [<- Hf].
  apply in_map_iff in Hx as (p & <- & Hp).
  rewrite Forall_forall in Hf. exists (fst p).
  apply Hf. now apply list_elem_of_In.
Qed.

Lemma insert_desc_perm x l : Permutation (insert_desc x l) (x :: l).
Proof.
  induction l as [|y l IH]; simpl; [reflexivity|].
  destruct (key_lt (fst x) (fst y)); [|reflexivity].
  rewrite IH. apply perm_swap.
Qed.

Lemma sort_desc_perm l : Permutation (sort_desc l) l.
Proof.
  induction l as [|x l IH]; simpl; [reflexivity|].
  unfold sort_desc in *. simpl. rewrite insert_desc_perm. now constructor.
Qed.

Lemma sorted_perm nodes sn : sorted nodes = Ok sn -> Permutation sn nodes.
Proof.
  unfold sorted. intros H. inv_bind H. injection H as <-.
  destruct (with_keys_Ok _ _ E) as [<- _].
  apply Permutation_map, sort_desc_perm.
Qed.

Lemma sorted_returns nodes :
  returns (sorted nodes) <-> forall x, In x nodes -> returns (sort_key x).
Proof.
  unfold sorted. split.
  - intros [sn H]. inv_bind H. eapply with_keys_each; eauto.
  - intros H. destruct (with_keys_returns _ H) as [kl ->]. simpl. eauto.
Qed.

Lemma key_ge_trans a b c : key_ge a b -> key_ge b c -> key_ge a c.
Proof.
  unfold key_ge, key_lt. destruct a as [a1 a2], b as [b1 b2], c as [c1 c2].
  simpl. rewrite !orb_false_iff, !andb_false_iff, !Z.ltb_ge, !Z.eqb_neq. lia.
Qed.

Lemma key_lt_ge a b : key_lt a b = true -> key_ge b a.
Proof.
  unfold key_ge, key_lt. destruct a as [a1 a2], b as [b1 b2]. simpl.
  rewrite orb_true_iff, andb_true_iff, orb_false_iff, andb_false_iff,
    !Z.ltb_ge, !Z.ltb_lt, Z.eqb_eq, Z.eqb_neq. lia.
Qed.

Lemma insert_desc_sorted x l :
  StronglySorted (fun p q => key_ge (fst p) (fst q)) l ->
  StronglySorted (fun p q => key_ge (fst p) (fst q)) (insert_desc x l).
Proof.
  induction 1 as [|y l Hs IH Hy]; simpl.
  - repeat constructor.
  - destruct (key_lt (fst x) (fst y)) eqn:Hlt.
    + constructor; [exact IH|].
      rewrite Forall_forall in *. intros z Hz%list_elem_of_In.
      apply (Permutation_in _ (insert_desc_perm x l)) in Hz as [<-|Hz].
      * now apply key_lt_ge.
      * apply Hy. now apply list_elem_of_In.
    + constructor; [now constructor|]. constructor; [exact Hlt|].
      rewrite Forall_forall in *. intros z Hz.
      eapply key_ge_trans; [exact Hlt | now apply Hy].
Qed.

Lemma sort_desc_sorted l :
  StronglySorted (fun p q => key_ge (fst p) (fst q)) (sort_desc l).
Proof.
  induction l as [|x l IH]; [constructor|].
  unfold sort_desc in *. simpl. now apply insert_desc_sorted.
Qed.

(** *** Counting *)

Lemma count_app p l1 l2 : count p (l1 ++ l2)%list = count p l1 + count p l2.
Proof. induction l1 as [|x l1 IH]; simpl; [reflexivity | lia]. Qed.

Lemma count_nonneg p l : 0 <= count p l.
Proof. induction l as [|x l IH]; simpl; [lia | destruct (p x); lia]. Qed.

Lemma count_perm p l1 l2 : Permutation l1 l2 -> count p l1 = count p l2.
Proof. induction 1; simpl; lia. Qed.

Lemma count_zero p l : count p l = 0 <-> forall x, In x l -> p x = false.
Proof.
  induction l as [|x l IH]; simpl; [easy|].
  pose proof (count_nonneg p l). split.
  - intros Hc y [<-|Hy].
    + destruct (p x); [lia | reflexivity].
    + apply IH; [|exact Hy]. destruct (p x); lia.
  - intros Hl. rewrite (Hl x) by now left.
    apply IH. intros; apply Hl; now right.
Qed.

Lemma count_le p q l :
  (forall x, p x = true -> q x = true) -> count p l <= count q l.
Proof.
  intros Hpq. induction l as [|x l IH]; simpl; [lia|].
  destruct (p x) eqn:Hp; [rewrite (Hpq _ Hp); lia|].
  destruct (q x); lia.
Qed.

Lemma counted_at_layer L node l :
  get_layer node = Ok l -> counted_at L node = (l =? L) && negb (L =? 100).
Proof. intros H. unfold counted_at, layer_is. now rewrite H. Qed.

Lemma counted_at_sentinel L node :
  get_layer node = Ok 100 -> counted_at L node = false.
Proof.
  intros H. rewrite (counted_at_layer _ _ _ H).
  destruct (Z.eqb_spec 100 L) as [<-|]; reflexivity.
Qed.

Lemma counts_inv_zeros mn len :
  counts_inv mn len [] (replicate len 0) (replicate len 0).
Proof.
  repeat split; try apply length_replicate; now apply lookup_replicate_2.
Qed.

(** One pass of the counting loop. *)
Lemma count_body_step mn len seen lc lh node :
  counts_inv mn len seen lc lh ->
  layers_within mn len [node] ->
  exists lc' lh',
    count_body mn (lc, lh) node = Ok (lc', lh')
    /\ counts_inv mn len (seen ++ [node]) lc' lh'.
Proof.
  intros (Hlc & Hlh & Hk) Hw.
  destruct (Hw node) as (L & HL & HLb); [now left|].
  unfold count_body. rewrite HL. simpl.
  destruct (Z.eqb_spec L 100) as [->|Hne]; simpl.
  - exists lc, lh. split; [reflexivity|].
    split; [exact Hlc|]. split; [exact Hlh|].
    intros k Hklen. destruct (Hk k Hklen) as [H1 H2].
    rewrite count_app. simpl. rewrite (counted_at_sentinel _ _ HL).
    rewrite !Z.add_0_r. easy.
  - set (i := L - mn). assert (0 <= i < Z.of_nat len) as Hi by (unfold i; lia).
    destruct (getitem_ok lc i) as (c & Hc & ->); [now rewrite Hlc|]. simpl.
    rewrite setitem_ok by now rewrite Hlc. simpl.
    destruct (getitem_ok lh i) as (h & Hh & ->); [now rewrite Hlh|]. simpl.
    rewrite setitem_ok by now rewrite Hlh. simpl.
    eexists _, _. split; [reflexivity|].
    split; [now rewrite length_insert|]. split; [now rewrite length_insert|].
    intros k Hklen. destruct (Hk k Hklen) as [H1 H2].
    rewrite count_app. simpl. rewrite (counted_at_layer _ _ _ HL), Z.add_0_r.
    pose proof (count_nonneg (counted_at (mn + Z.of_nat k)) seen) as Hnn.
    destruct (decide (Z.to_nat i = k)) as [<-|Hik].
    + rewrite !list_lookup_insert_eq by lia.
      replace (mn + Z.of_nat (Z.to_nat i)) with L in * by lia.
      rewrite Z.eqb_refl. destruct (Z.eqb_spec L 100); [easy|]. simpl.
      rewrite Hc in H1. injection H1 as ->. split; [reflexivity|].
      rewrite Hh in H2. injection H2 as ->.
      destruct (Z.ltb_spec 0 (count (counted_at L) seen + 1)); [|lia].
      destruct (0 <? count (counted_at L) seen); reflexivity.
    + rewrite !list_lookup_insert_ne by easy.
      destruct (Z.eqb_spec L (mn + Z.of_nat k)); [lia|]. simpl.
      rewrite Z.add_0_r. easy.
Qed.

Lemma layers_within_cons mn len node nodes :
  layers_within mn len (node :: nodes) ->
  layers_within mn len [node] /\ layers_within mn len nodes.
Proof.
  intros H. split; intros n Hn; apply H; [destruct Hn as [<-|[]]; now left|].
  now right.
Qed.

Lemma count_loop mn len nodes : forall seen lc lh,
  counts_inv mn len seen lc lh ->
  layers_within mn len nodes ->
  exists lc' lh',
    for_each (count_body mn) (lc, lh) nodes = Ok (lc', lh')
    /\ counts_inv mn len (seen ++ nodes) lc' lh'.
Proof.
  induction nodes as [|node nodes IH]; intros seen lc lh Hinv Hw;
    cbn [for_each].
  - exists lc, lh. now rewrite app_nil_r.
  - apply layers_within_cons in Hw as [Hw1 Hw2].
    destruct (count_body_step _ _ _ _ _ _ Hinv Hw1) as (lc1 & lh1 & -> & Hinv1).
    cbn [bind]. destruct (IH _ _ _ Hinv1 Hw2) as (lc' & lh' & -> & Hinv').
    exists lc', lh'. split; [reflexivity|].
    now rewrite <- app_assoc in Hinv'.
Qed.

(** *** Placing *)

Lemma list_index_nonneg len i k :
  0 <= i -> list_index len i = Ok k -> k = Z.to_nat i /\ i < Z.of_nat len.
Proof.
  intros Hi. unfold list_index.
  destruct (Z.leb_spec 0 i); [|lia].
  destruct (Z.ltb_spec i (Z.of_nat len)); simpl.
  - intros [= <-]. easy.
  - destruct (Z.ltb_spec i 0); [lia|]. rewrite andb_false_r. discriminate.
Qed.

Lemma getitem_inv {A} (l : list A) i v :
  0 <= i -> getitem l i = Ok v ->
  l !! Z.to_nat i = Some v /\ i < Z.of_nat (length l).
Proof.
  intros Hi H. unfold getitem in H. inv_bind H.
  apply list_index_nonneg in E as [-> Hlt]; [|exact Hi].
  destruct (l !! Z.to_nat i) eqn:Hl; [|discriminate].
  injection H as ->. easy.
Qed.

Lemma setitem_inv {A} (l l' : list A) i v :
  0 <= i -> setitem l i v = Ok l' -> l' = <[Z.to_nat i := v]> l.
Proof.
  intros Hi H. unfold setitem in H. inv_bind H.
  apply list_index_nonneg in E as [-> _]; [|exact Hi]. congruence.
Qed.

Section Placing.

Context {R : Type} {AR : Arith R}.
Implicit Types (env : layout_env R) (st : place_state R).

Lemma place_xy_sentinel env ac node :
  place_xy env ac node 100
  = Ok (mul (graph_width env) (lit (7 # 10)), of_int 20, ac).
Proof. reflexivity. Qed.

(** What a successful [place_xy] has computed. *)
Lemma place_xy_inv env ac node L x y ac' :
  min_layer env <= L ->
  place_xy env ac node L = Ok (x, y, ac') ->
  (L = 100 /\ x = mul (graph_width env) (lit (7 # 10)) /\ y = of_int 20
   /\ ac' = ac)
  \/ (L <> 100 /\ Py.startswith node "m" = true
      /\ x = mul (graph_width env) (lit (5 # 100)) /\ y = stack_y env L
      /\ ac' = ac)
  \/ (L <> 100 /\ Py.startswith node "m" = false /\ y = stack_y env L
      /\ exists a c,
           ac !! Z.to_nat (L - min_layer env) = Some a
           /\ layer_counts env !! Z.to_nat (L - min_layer env) = Some c
           /\ x = attention_x (graph_width env) c (a + 1)
           /\ ac' = <[Z.to_nat (L - min_layer env) := a + 1]> ac).
Proof.
  intros HL. unfold place_xy.
  destruct (Z.eqb_spec L 100) as [->|Hne].
  - intros [= <- <- <-]. left. easy.
  - destruct (Py.startswith node "m") eqn:Hm; cbn [bind].
    + intros [= <- <- <-]. right; left. easy.
    + intros H. inv_bind H. destruct v as [x0 ac0]. injection H as <- <- <-.
      inv_bind E. inv_bind E. inv_bind E. inv_bind E. inv_bind E.
      injection E as <- <-.
      assert (0 <= L - min_layer env) as Hi by lia.
      apply getitem_inv in E0 as [Ha Hlen]; [|exact Hi].
      apply setitem_inv in E1 as ->; [|exact Hi].
      apply getitem_inv in E2 as [Ha' _]; [|exact Hi].
      apply getitem_inv in E3 as [Hc _]; [|exact Hi].
      rewrite list_lookup_insert_eq in Ha' by lia. injection Ha' as <-.
      unfold py_div in E4. destruct (v2 + 1 =? 0); [discriminate|].
      injection E4 as <-.
      right; right. repeat split; try easy. exists v, v2. easy.
Qed.

(** What a successful pass of the placing loop has done. *)
Lemma place_body_inv env st node st' :
  place_body env st node = Ok st' ->
  exists L x y ac',
    get_layer node = Ok L
    /\ place_xy env (attention_counts st) node L = Ok (x, y, ac')
    /\ st' = {| elements := (elements st ++ [Node (node_to_element env node x y)])%list;
                node_positions := <[node := Position x y]> (node_positions st);
                attention_counts := ac' |}.
Proof.
  unfold place_body. intros H. inv_bind H. inv_bind H.
  destruct v0 as [[x y] ac']. injection H as <-.
  exists v, x, y, ac'. easy.
Qed.

(** The loop only writes the positions of the nodes it visits. *)
Lemma place_loop_positions env nodes : forall st st' node,
  for_each (place_body env) st nodes = Ok st' ->
  ~ In node nodes ->
  node_positions st' !! node = node_positions st !! node.
Proof.
  induction nodes as [|n nodes IH]; intros st st' node; cbn [for_each].
  - now intros [= <-].
  - intros H Hnin. inv_bind H.
    apply place_body_inv in E as (L & x & y & ac' & _ & _ & ->).
    rewrite (IH _ _ node H) by (intros Hin; apply Hnin; now right).
    simpl. apply lookup_insert_ne. intros ->. apply Hnin. now left.
Qed.

(** The loop appends one node element per node, in order, each computed
    at its recorded position. *)
Lemma place_loop_elements env nodes : forall st st',
  for_each (place_body env) st nodes = Ok st' ->
  NoDup nodes ->
  exists new,
    elements st' = (elements st ++ map Node new)%list
    /\ Forall2 (placed env st') nodes new.
Proof.
  induction nodes as [|n nodes IH]; intros st st'; cbn [for_each].
  - intros [= <-] _. exists []. simpl. rewrite app_nil_r. split; [easy|constructor].
  - intros H Hnd. inv_bind H. apply NoDup_cons in Hnd as [Hnin Hnd].
    destruct (IH _ _ H Hnd) as (new & Hel & Hpl).
    pose proof (place_loop_positions _ _ _ _ n H) as Hpos.
    apply place_body_inv in E as (L & x & y & ac' & HL & Hxy & ->).
    exists (node_to_element env n x y :: new). split.
    + rewrite Hel. simpl. now rewrite <- app_assoc.
    + constructor; [|exact Hpl].
      exists (Position x y). split; [|split; [reflexivity|]].
      * rewrite Hpos by (rewrite <- list_elem_of_In; exact Hnin).
        simpl. apply lookup_insert_eq.
      * intros H100. rewrite H100 in HL. injection HL as <-.
        rewrite place_xy_sentinel in Hxy. now injection Hxy as <- <- _.
Qed.

(** The steps of a successful [layout]. *)
Lemma layout_inv nodes (W H : R) env st :
  layout nodes W H = Ok (env, st) ->
  exists sn mn mx lc lh,
    sorted nodes = Ok sn
    /\ min_layer_of nodes = Ok mn
    /\ max_layer_of nodes = Ok mx
    /\ for_each (count_body mn)
         (zeros (mx - mn + 1), zeros (mx - mn + 1)) sn = Ok (lc, lh)
    /\ sum lh <> 0
    /\ env = {| graph_width := W; min_layer := mn; layer_counts := lc;
                layer_heights := lh; total_layers := sum lh;
                layer_height := div H (of_int (sum lh)) |}
    /\ for_each (place_body env)
         {| elements := []; node_positions := ∅;
            attention_counts := zeros (mx - mn + 1) |} sn = Ok st.
Proof.
  unfold layout. intros Hl.
  apply bind_Ok in Hl as (sn & Hsn & Hl).
  apply bind_Ok in Hl as (mn & Hmn & Hl).
  apply bind_Ok in Hl as (mx & Hmx & Hl).
  apply bind_Ok in Hl as (lc0 & (-> & _)%py_zeros_Ok & Hl).
  apply bind_Ok in Hl as (lh0 & (-> & _)%py_zeros_Ok & Hl).
  apply bind_Ok in Hl as ([lc lh] & Hcount & Hl).
  apply bind_Ok in Hl as (lht & Hdiv & Hl).
  apply bind_Ok in Hl as (ac & (-> & _)%py_zeros_Ok & Hl).
  apply bind_Ok in Hl as (st' & Hpl & Hl). injection Hl as <- <-.
  unfold py_div in Hdiv.
  destruct (Z.eqb_spec (sum lh) 0) as [|Hs]; [discriminate|].
  injection Hdiv as <-.
  exists sn, mn, mx, lc, lh. easy.
Qed.

Lemma create_elements_inv nodes edges (W H : R) els :
  create_elements nodes edges W H = Ok els ->
  exists env st,
    layout nodes W H = Ok (env, st)
    /\ els = (elements st ++ map (fun e => Edge (edge_to_element e)) edges)%list.
Proof.
  unfold create_elements. intros Hc. inv_bind Hc. destruct v as [env st].
  injection Hc as <-. eauto.
Qed.

End Placing.

(** *** The node set *)

Lemma set_add_In s x y : In y (set_add s x) <-> In y s \/ y = x.
Proof.
  unfold set_add. destruct (existsb (String.eqb x) s) eqn:He.
  - apply existsb_exists in He as (z & Hz & Hxz%String.eqb_eq). subst z.
    split; [tauto|]. intros [Hy|Hy]; [exact Hy | now subst y].
  - rewrite in_app_iff. simpl. split.
    + intros [Hy|[Hy|[]]]; [now left | now right].
    + intros [Hy|Hy]; [now left | right; now left].
Qed.

Lemma set_add_NoDup s x : NoDup s -> NoDup (set_add s x).
Proof.
  intros Hs. unfold set_add. destruct (existsb (String.eqb x) s) eqn:He; [easy|].
  apply NoDup_app. split; [exact Hs|]. split; [|apply NoDup_singleton].
  intros y Hy ->%list_elem_of_singleton.
  assert (existsb (String.eqb x) s = true) as Ht; [|congruence].
  apply existsb_exists. exists x. split; [now apply list_elem_of_In|].
  apply String.eqb_refl.
Qed.

Lemma nodes_of_NoDup edges : NoDup (nodes_of edges).
Proof.
  unfold nodes_of. assert (NoDup (@nil string)) as H0 by constructor.
  revert H0. generalize (@nil string) as s.
  induction edges as [|[a b] edges IH]; intros s Hs; simpl; [exact Hs|].
  apply IH. now do 2 apply set_add_NoDup.
Qed.

Lemma nodes_of_In edges x :
  In x (nodes_of edges) <-> exists e, In e edges /\ (x = fst e \/ x = snd e).
Proof.
  unfold nodes_of.
  enough (forall s, In x (foldl (fun s '(source, target) =>
            set_add (set_add s source) target) s edges)
          <-> In x s \/ exists e, In e edges /\ (x = fst e \/ x = snd e)) as H.
  { rewrite H. simpl. tauto. }
  induction edges as [|[a b] edges IH]; intros s; simpl.
  - split; [tauto | intros [?|(e & [] & _)]; easy].
  - rewrite IH, !set_add_In. split.
    + intros [[[Hx|Hx]|Hx]|(e & He & Hx)].
      * now left.
      * right. exists (a, b). split; [now left | now left].
      * right. exists (a, b). split; [now left | now right].
      * right. exists e. split; [now right | exact Hx].
    + intros [Hx|(e & [He|He] & Hx)].
      * left. left. now left.
      * subst e. simpl in Hx. destruct Hx as [Hx|Hx]; [left; left; now right|].
        left. now right.
      * right. exists e. easy.
Qed.

Lemma set_iteration_NoDup edges nodes : set_iteration edges nodes -> NoDup nodes.
Proof.
  unfold set_iteration. intros ->. apply nodes_of_NoDup.
Qed.

(** *** The node elements of the result *)

Section Elements.

Context {R : Type} {AR : Arith R}.

Lemma Forall2_placed_In (env : layout_env R) (st : place_state R) sn new n :
  Forall2 (placed env st) sn new -> In n new ->
  exists node, In node sn /\ placed env st node n.
Proof.
  induction 1 as [|node m sn new Hp _ IH]; intros Hin; [easy|].
  destruct Hin as [->|Hin].
  - exists node. split; [now left | exact Hp].
  - destruct (IH Hin) as (node' & Hin' & Hp'). exists node'. split; [now right|easy].
Qed.

Lemma In_Node_app (new : list (node_element R)) (es : list edge) n :
  In (Node n) (map Node new ++ map (fun e => Edge (edge_to_element e)) es)%list ->
  In n new.
Proof.
  rewrite in_app_iff, !in_map_iff.
  intros [(m & [= ->] & Hm)|(e & Habs & _)]; [exact Hm | discriminate].
Qed.

(** The result of [create_elements]: the elements of the sorted nodes, each
    computed at its recorded position, then the elements of the edges. *)
Lemma create_elements_shape edges nodes (W H : R) els :
  set_iteration edges nodes ->
  create_elements nodes edges W H = Ok els ->
  exists env st sn new,
    layout nodes W H = Ok (env, st)
    /\ sorted nodes = Ok sn
    /\ graph_width env = W
    /\ total_layers env <> 0
    /\ layer_height env = div H (of_int (total_layers env))
    /\ els = (map Node new ++ map (fun e => Edge (edge_to_element e)) edges)%list
    /\ Forall2 (placed env st) sn new.
Proof.
  intros Hit Hc.
  apply create_elements_inv in Hc as (env & st & Hl & ->).
  destruct (layout_inv _ _ _ _ _ Hl)
    as (sn & mn & mx & lc & lh & Hsn & _ & _ & _ & Hsum & Henv & Hpl).
  assert (NoDup sn) as Hnd.
  { rewrite (sorted_perm _ _ Hsn). eapply set_iteration_NoDup; eauto. }
  destruct (place_loop_elements _ _ _ _ Hpl Hnd) as (new & Hel & Hf).
  exists env, st, sn, new. rewrite Hel. subst env. simpl. easy.
Qed.

Lemma Forall2_placed_node (env : layout_env R) (st : place_state R)
  sn new node :
  Forall2 (placed env st) sn new -> In node sn ->
  exists n, In n new /\ placed env st node n.
Proof.
  induction 1 as [|node' m sn new Hp _ IH]; intros Hin; [easy|].
  destruct Hin as [->|Hin].
  - exists m. split; [now left | exact Hp].
  - destruct (IH Hin) as (n & Hn & Hp'). exists n. split; [now right | easy].
Qed.

Lemma In_Node_new (new : list (node_element R)) (es : list edge) n :
  In n new ->
  In (Node n) (map Node new ++ map (fun e => Edge (edge_to_element e)) es)%list.
Proof. intros Hn. apply in_app_iff. left. now apply in_map. Qed.

(** C6: every node has a node element in the result; the element of a
    node whose identifier contains [H] has the x of the position the
    layout computed for the node (the one recorded in [node_positions])
    and its y less a quarter of the vertical unit
    [graph_height / total_layers]; the element of any other node has that
    position unchanged; and every node element is the element of a node. *)
Theorem H_shift_quarter_unit :
  forall (edges : list edge) (nodes : list string) (W H : R)
         (els : list (element R)),
    set_iteration edges nodes ->
    create_elements nodes edges W H = Ok els ->
    exists env st,
      layout nodes W H = Ok (env, st)
      /\ layer_height env = div H (of_int (total_layers env))
      /\ (forall node, In node nodes ->
            exists n p,
              In (Node n) els /\ node_id n = node
              /\ node_positions st !! node = Some p
              /\ pos_x (node_position n) = pos_x p
              /\ (Py.contains "H"%char node = true ->
                  pos_y (node_position n)
                  = sub (pos_y p) (div (layer_height env) (of_int 4)))
              /\ (Py.contains "H"%char node = false ->
                  pos_y (node_position n) = pos_y p))
      /\ (forall n, In (Node n) els ->
            In (node_id n) nodes
            /\ exists p,
                 node_positions st !! node_id n = Some p
                 /\ pos_x (node_position n) = pos_x p
                 /\ (Py.contains "H"%char (node_id n) = true ->
                     pos_y (node_position n)
                     = sub (pos_y p) (div (layer_height env) (of_int 4)))
                 /\ (Py.contains "H"%char (node_id n) = false ->
                     pos_y (node_position n) = pos_y p)).
Proof.
  intros edges nodes W H els Hit Hc.
  destruct (create_elements_shape _ _ _ _ _ Hit Hc)
    as (env & st & sn & new & Hl & Hsn & _ & _ & Hlh & -> & Hf).
  pose proof (sorted_perm _ _ Hsn) as Hperm.
  exists env, st. split; [exact Hl|]. split; [exact Hlh|]. split.
  - intros node Hin.
    apply (Permutation_in _ (Permutation_sym Hperm)) in Hin.
    destruct (Forall2_placed_node _ _ _ _ _ Hf Hin) as (n & Hn & p & Hp & -> & _).
    exists (node_to_element env node (pos_x p) (pos_y p)), p.
    split; [now apply In_Node_new|]. simpl. split; [reflexivity|].
    split; [exact Hp|]. split; [reflexivity|].
    unfold shift_H. split; intros ->; reflexivity.
  - intros n Hn%In_Node_app.
    destruct (Forall2_placed_In _ _ _ _ _ Hf Hn) as (node & Hin & p & Hp & -> & _).
    simpl. split; [exact (Permutation_in _ Hperm Hin)|].
    exists p. split; [exact Hp|]. split; [reflexivity|].
    unfold shift_H. split; intros ->; reflexivity.
Qed.

(** C7, as amended: every node of layer 100 has a node element in the
    result, with x = 0.7 W; its y is 20 when the identifier does not
    contain [H], and 20 less a quarter of the vertical unit when it does;
    and every node element whose identifier has layer 100 is placed so. *)
Theorem sentinel_corner :
  forall (edges : list edge) (nodes : list string) (W H : R)
         (els : list (element R)),
    set_iteration edges nodes ->
    create_elements nodes edges W H = Ok els ->
    exists env st,
      layout nodes W H = Ok (env, st)
      /\ layer_height env = div H (of_int (total_layers env))
      /\ (forall node, In node nodes -> get_layer node = Ok 100 ->
            exists n,
              In (Node n) els /\ node_id n = node
              /\ pos_x (node_position n) = mul W (lit (7 # 10))
              /\ (Py.contains "H"%char node = false ->
                  pos_y (node_position n) = of_int 20)
              /\ (Py.contains "H"%char node = true ->
                  pos_y (node_position n)
                  = sub (of_int 20) (div (layer_height env) (of_int 4))))
      /\ (forall n, In (Node n) els ->
            get_layer (node_id n) = Ok 100 ->
            pos_x (node_position n) = mul W (lit (7 # 10))
            /\ (Py.contains "H"%char (node_id n) = false ->
                pos_y (node_position n) = of_int 20)
            /\ (Py.contains "H"%char (node_id n) = true ->
                pos_y (node_position n)
                = sub (of_int 20) (div (layer_height env) (of_int 4)))).
Proof.
  intros edges nodes W H els Hit Hc.
  destruct (create_elements_shape _ _ _ _ _ Hit Hc)
    as (env & st & sn & new & Hl & Hsn & HW & _ & Hlh & -> & Hf).
  pose proof (sorted_perm _ _ Hsn) as Hperm.
  exists env, st. split; [exact Hl|]. split; [exact Hlh|]. split.
  - intros node Hin HL.
    apply (Permutation_in _ (Permutation_sym Hperm)) in Hin.
    destruct (Forall2_placed_node _ _ _ _ _ Hf Hin)
      as (n & Hn & p & _ & -> & H100).
    exists (node_to_element env node (pos_x p) (pos_y p)).
    split; [now apply In_Node_new|]. simpl. split; [reflexivity|].
    rewrite (H100 HL), HW. simpl.
    split; [reflexivity|]. unfold shift_H. split; intros ->; reflexivity.
  - intros n Hn%In_Node_app.
    destruct (Forall2_placed_In _ _ _ _ _ Hf Hn)
      as (node & _ & p & _ & -> & H100).
    simpl. intros HL. rewrite (H100 HL), HW. simpl.
    split; [reflexivity|]. unfold shift_H. split; intros ->; reflexivity.
Qed.

End Elements.

(** *** Attention nodes of one layer *)

Lemma ranks_S a m : ranks a (S m) = (a + 1) :: ranks (a + 1) m.
Proof.
  unfold ranks. cbn [seq map]. f_equal.
  rewrite <- seq_shift, map_map. apply map_ext. intros j. lia.
Qed.

Lemma ranks_length a m : length (ranks a m) = m.
Proof. unfold ranks. now rewrite length_map, length_seq. Qed.

Lemma ranks_lookup m : forall a i r,
  ranks a m !! i = Some r -> r = a + Z.of_nat (S i).
Proof.
  induction m as [|m IH]; intros a i r; [discriminate|].
  rewrite ranks_S. destruct i as [|i]; simpl.
  - intros [= <-]. lia.
  - intros Hr%IH. lia.
Qed.

Lemma map_lookup_Some {A B} (f : A -> B) l : forall i y,
  map f l !! i = Some y -> exists x, l !! i = Some x /\ y = f x.
Proof.
  induction l as [|a l IH]; intros i y; [discriminate|].
  destruct i as [|i]; simpl.
  - intros [= <-]. eauto.
  - apply IH.
Qed.

Lemma attention_at_layer node l L :
  get_layer node = Ok l ->
  attention_at L node
  = (l =? L) && negb (L =? 100) && negb (Py.startswith node "m").
Proof. intros H. unfold attention_at. now rewrite (counted_at_layer _ _ _ H). Qed.

Lemma attention_at_counted L node :
  attention_at L node = true -> counted_at L node = true.
Proof. unfold attention_at. now intros [? _]%andb_true_iff. Qed.

Section Attention.

Context {R : Type} {AR : Arith R}.
Implicit Types (env : layout_env R) (st : place_state R).

Lemma attention_xs_Node L (n : node_element R) els :
  attention_xs L (Node n :: els)
  = if attention_at L (node_id n)
    then pos_x (node_position n) :: attention_xs L els
    else attention_xs L els.
Proof.
  unfold attention_xs.
  change (node_elements (Node n :: els)) with (n :: node_elements els).
  cbn [List.filter]. now destruct (attention_at L (node_id n)).
Qed.

Lemma attention_xs_Edge L e (els : list (element R)) :
  attention_xs L (Edge e :: els) = attention_xs L els.
Proof. reflexivity. Qed.

Lemma attention_xs_app L (l1 l2 : list (element R)) :
  attention_xs L (l1 ++ l2)%list = (attention_xs L l1 ++ attention_xs L l2)%list.
Proof.
  induction l1 as [|[n|e] l1 IH]; [reflexivity| |].
  - cbn [app]. rewrite !attention_xs_Node, IH.
    now destruct (attention_at L (node_id n)).
  - cbn [app]. now rewrite !attention_xs_Edge.
Qed.

Lemma attention_xs_edges L (es : list edge) :
  attention_xs (R:=R) L (map (fun e => Edge (edge_to_element e)) es) = [].
Proof. induction es as [|e es IH]; [reflexivity | exact IH]. Qed.

(** The placing loop gives the attention nodes of the layer [L] the
    x-coordinates of consecutive ranks, continuing from the counter of
    [L]. *)
Lemma place_loop_attention env L c nodes : forall st st' a,
  min_layer env <= L -> L <> 100 ->
  (forall node L', In node nodes -> get_layer node = Ok L' ->
                   min_layer env <= L') ->
  layer_counts env !! Z.to_nat (L - min_layer env) = Some c ->
  for_each (place_body env) st nodes = Ok st' ->
  attention_counts st !! Z.to_nat (L - min_layer env) = Some a ->
  exists new m,
    elements st' = (elements st ++ new)%list
    /\ attention_xs L new = map (attention_x (graph_width env) c) (ranks a m)
    /\ attention_counts st' !! Z.to_nat (L - min_layer env)
       = Some (a + Z.of_nat m)
    /\ Z.of_nat m = count (attention_at L) nodes.
Proof.
  induction nodes as [|n nodes IH]; intros st st' a HL H100 Hmin Hc;
    cbn [for_each count].
  - intros [= <-] Ha. exists [], 0%nat. rewrite app_nil_r, Z.add_0_r. easy.
  - intros H Ha. inv_bind H.
    apply place_body_inv in E as (L' & x & y & ac' & HL' & Hxy & ->).
    assert (min_layer env <= L') as HminL'
      by (eapply Hmin; [now left | exact HL']).
    assert (forall node L0, In node nodes -> get_layer node = Ok L0 ->
                            min_layer env <= L0) as Hmin'
      by (intros node L0 Hin; apply Hmin; now right).
    pose proof (attention_at_layer n L' L HL') as Hat.
    apply place_xy_inv in Hxy; [|exact HminL'].
    destruct Hxy as [(-> & -> & -> & ->)
                    |[(Hne & Hm & -> & -> & ->)
                     |(Hne & Hm & -> & a' & c' & Ha' & Hc' & -> & ->)]].
    + destruct (IH _ _ a HL H100 Hmin' Hc H Ha)
        as (new & m & Hel & Hxs & Hac & Hm').
      assert (attention_at L n = false) as Hf.
      { rewrite Hat. now destruct (Z.eqb_spec 100 L); [congruence|]. }
      eexists (Node _ :: new), m. cbn [elements] in Hel.
      rewrite Hel, <- app_assoc. split; [reflexivity|].
      rewrite attention_xs_Node. cbn [node_to_element node_id].
      rewrite Hf, Z.add_0_l. easy.
    + destruct (IH _ _ a HL H100 Hmin' Hc H Ha)
        as (new & m & Hel & Hxs & Hac & Hm').
      assert (attention_at L n = false) as Hf.
      { rewrite Hat, Hm. apply andb_false_r. }
      eexists (Node _ :: new), m. cbn [elements] in Hel.
      rewrite Hel, <- app_assoc. split; [reflexivity|].
      rewrite attention_xs_Node. cbn [node_to_element node_id].
      rewrite Hf, Z.add_0_l. easy.
    + destruct (Z.eq_dec L' L) as [->|HLL].
      * rewrite Ha in Ha'. injection Ha' as <-.
        rewrite Hc in Hc'. injection Hc' as <-.
        assert (<[Z.to_nat (L - min_layer env) := a + 1]> (attention_counts st)
                !! Z.to_nat (L - min_layer env) = Some (a + 1)) as Ha1.
        { apply list_lookup_insert_eq. now apply lookup_lt_Some in Ha. }
        destruct (IH _ _ (a + 1) HL H100 Hmin' Hc H Ha1)
          as (new & m & Hel & Hxs & Hac & Hm').
        assert (attention_at L n = true) as Ht.
        { rewrite Hat, Hm, Z.eqb_refl.
          now destruct (Z.eqb_spec L 100); [congruence|]. }
        eexists (Node _ :: new), (S m). cbn [elements] in Hel.
        rewrite Hel, <- app_assoc. split; [reflexivity|].
        rewrite attention_xs_Node.
        cbn [node_to_element node_id node_position pos_x].
        rewrite Ht, ranks_S. cbn [map]. rewrite Hxs, Hac.
        split; [reflexivity|]. split; [f_equal; lia | lia].
      * assert (<[Z.to_nat (L' - min_layer env) := a' + 1]> (attention_counts st)
                !! Z.to_nat (L - min_layer env) = Some a) as Ha1.
        { rewrite list_lookup_insert_ne by lia. exact Ha. }
        destruct (IH _ _ a HL H100 Hmin' Hc H Ha1)
          as (new & m & Hel & Hxs & Hac & Hm').
        assert (attention_at L n = false) as Hf.
        { rewrite Hat. now destruct (Z.eqb_spec L' L); [congruence|]. }
        eexists (Node _ :: new), m. cbn [elements] in Hel.
        rewrite Hel, <- app_assoc. split; [reflexivity|].
        rewrite attention_xs_Node. cbn [node_to_element node_id].
        rewrite Hf, Z.add_0_l. easy.
Qed.

End Attention.

(** *** The layer range of a successful run *)

Lemma sorted_layers_within nodes sn mn mx :
  sorted nodes = Ok sn ->
  min_layer_of nodes = Ok mn -> max_layer_of nodes = Ok mx ->
  layers_within mn (Z.to_nat (mx - mn + 1)) sn.
Proof.
  intros Hsn Hmn Hmx node Hin.
  apply (Permutation_in _ (sorted_perm _ _ Hsn)) in Hin.
  assert (returns (sorted nodes)) as Hr by (now exists sn).
  rewrite sorted_returns in Hr.
  destruct (sort_key_layer _ (Hr _ Hin)) as [L HL].
  exists L. split; [exact HL|].
  pose proof (layer_bounds _ _ _ Hmn Hmx _ _ Hin HL). lia.
Qed.

Lemma count_loop_inv mn n sn lc lh :
  for_each (count_body mn) (zeros n, zeros n) sn = Ok (lc, lh) ->
  layers_within mn (Z.to_nat n) sn ->
  counts_inv mn (Z.to_nat n) sn lc lh.
Proof.
  intros Hloop Hw.
  destruct (count_loop mn (Z.to_nat n) sn [] _ _ (counts_inv_zeros _ _) Hw)
    as (lc' & lh' & Hloop' & Hinv).
  unfold zeros in Hloop. rewrite Hloop in Hloop'. now injection Hloop' as <- <-.
Qed.

Lemma layer_is_true L node : layer_is L node = true <-> get_layer node = Ok L.
Proof.
  unfold layer_is. destruct (get_layer node) as [l|e]; [|easy].
  rewrite Z.eqb_eq. split; congruence.
Qed.

Lemma attention_x_decreasing (W : Q) (c k1 k2 : Z) :
  (0 < W)%Q -> 0 <= c -> k1 < k2 ->
  (attention_x W c k2 < attention_x W c k1)%Q.
Proof.
  intros HW Hc Hk. unfold attention_x. cbn [sub mul div lit of_int Q_arith].
  assert (0 < inject_Z (c + 1))%Q as Hd
    by (change 0%Q with (inject_Z 0); rewrite <- Zlt_Qlt; lia).
  assert (0 < / inject_Z (c + 1))%Q as He by now apply Qinv_lt_0_compat.
  assert (inject_Z k1 < inject_Z k2)%Q as Hk' by (rewrite <- Zlt_Qlt; lia).
  unfold Qdiv. set (e := / inject_Z (c + 1)) in *.
  assert (0 < W * (8 # 10) * e)%Q as Hwe
    by (apply Qmult_lt_0_compat; [lra | exact He]).
  assert (inject_Z k1 * (W * (8 # 10) * e) < inject_Z k2 * (W * (8 # 10) * e))%Q
    by (apply Qmult_lt_compat_r; assumption).
  lra.
Qed.

(** *** The visiting order *)

Lemma StronglySorted_filter {A} (Rel : A -> A -> Prop) p l :
  StronglySorted Rel l -> StronglySorted Rel (List.filter p l).
Proof.
  induction 1 as [|x l Hs IH Hx]; simpl; [constructor|].
  destruct (p x); [|exact IH]. constructor; [exact IH|].
  rewrite Forall_forall in *. intros y Hy%list_elem_of_In.
  apply filter_In in Hy as [Hy _]. apply Hx. now apply list_elem_of_In.
Qed.

Lemma StronglySorted_lookup_lt {A} (Rel : A -> A -> Prop) l :
  StronglySorted Rel l ->
  forall i j x y, (i < j)%nat -> l !! i = Some x -> l !! j = Some y -> Rel x y.
Proof.
  induction 1 as [|a l Hs IH Ha]; intros i j x y Hij; [discriminate|].
  destruct j as [|j]; [lia|]. destruct i as [|i]; simpl.
  - intros [= <-] Hy. rewrite Forall_forall in Ha. apply Ha.
    eapply list_elem_of_lookup_2; eauto.
  - apply IH. lia.
Qed.

Lemma keyed_sorted_order (l : list ((Z * Z) * string)) :
  Forall (fun p => sort_key (snd p) = Ok (fst p)) l ->
  StronglySorted (fun p q => key_ge (fst p) (fst q)) l ->
  StronglySorted key_order (map snd l).
Proof.
  intros Hk Hs. induction Hs as [|p l Hs IH Hp]; simpl; [constructor|].
  apply Forall_cons in Hk as [Hkp Hk]. constructor; [now apply IH|].
  rewrite Forall_forall in Hk, Hp. rewrite Forall_forall.
  intros y Hy%list_elem_of_In.
  apply in_map_iff in Hy as (q & <- & Hq%list_elem_of_In).
  exists (fst p), (fst q). split; [exact Hkp|]. split; [now apply Hk|].
  now apply Hp.
Qed.

Lemma sorted_key_order nodes sn :
  sorted nodes = Ok sn -> StronglySorted key_order sn.
Proof.
  unfold sorted. intros H. inv_bind H. injection H as <-.
  destruct (with_keys_Ok _ _ E) as [_ Hk].
  apply keyed_sorted_order; [|apply sort_desc_sorted].
  rewrite Forall_forall in *. intros p Hp%list_elem_of_In.
  apply Hk, list_elem_of_In.
  now apply (Permutation_in _ (sort_desc_perm v)).
Qed.

Lemma attention_key L x k :
  attention_at L x = true -> sort_key x = Ok k ->
  fst k = L /\ get_attention_head x = Ok (snd k).
Proof.
  unfold attention_at, counted_at, sort_key.
  intros [[HL H100]%andb_true_iff Hm%negb_true_iff]%andb_true_iff.
  apply layer_is_true in HL. apply negb_true_iff, Z.eqb_neq in H100.
  rewrite HL. cbn [bind].
  destruct (Py.startswith x "a") eqn:Ha.
  - intros Hk. inv_bind Hk. injection Hk as <-. easy.
  - exfalso. unfold get_layer in HL. rewrite Hm, Ha in HL. congruence.
Qed.

(** Within a layer, attention nodes are visited by descending head. *)
Lemma key_order_heads L x y :
  attention_at L x = true -> attention_at L y = true -> key_order x y ->
  exists hx hy, get_attention_head x = Ok hx /\ get_attention_head y = Ok hy
                /\ hy <= hx.
Proof.
  intros Hx Hy (kx & ky & Hkx & Hky & Hge).
  destruct (attention_key _ _ _ Hx Hkx) as [Hlx Hhx].
  destruct (attention_key _ _ _ Hy Hky) as [Hly Hhy].
  exists (snd kx), (snd ky). split; [exact Hhx|]. split; [exact Hhy|].
  unfold key_lt in Hge. rewrite Hlx, Hly in Hge.
  apply orb_false_iff in Hge as [_ Hge]. rewrite Z.eqb_refl in Hge.
  simpl in Hge. now apply Z.ltb_ge in Hge.
Qed.

Lemma placed_ids {R : Type} {AR : Arith R} (env : layout_env R)
  (st : place_state R) sn new :
  Forall2 (placed env st) sn new -> map node_id new = sn.
Proof.
  induction 1 as [|node n sn new (p & _ & -> & _) _ IH]; [reflexivity|].
  simpl. now rewrite IH.
Qed.

Lemma filter_map_ids {R : Type} (p : string -> bool)
  (new : list (node_element R)) :
  map node_id (List.filter (fun n => p (node_id n)) new)
  = List.filter p (map node_id new).
Proof.
  induction new as [|n new IH]; [reflexivity|]. simpl.
  destruct (p (node_id n)); simpl; now rewrite IH.
Qed.

Lemma node_elements_shape {R : Type} (new : list (node_element R))
  (es : list edge) :
  node_elements (map Node new ++ map (fun e => Edge (edge_to_element e)) es)%list
  = new.
Proof.
  induction new as [|n new IH]; simpl.
  - induction es as [|e es IHe]; [reflexivity | exact IHe].
  - unfold node_elements in *. simpl. now rewrite IH.
Qed.

(** The attention nodes of a layer appear in the result by descending
    head, for any arithmetic on the coordinates. *)
Lemma attention_ids_descending {R : Type} {AR : Arith R}
  edges nodes (W H : R) els L :
  set_iteration edges nodes ->
  create_elements nodes edges W H = Ok els ->
  forall i j ni nj, (i < j)%nat ->
    attention_ids L els !! i = Some ni ->
    attention_ids L els !! j = Some nj ->
    exists hi hj, get_attention_head ni = Ok hi
                  /\ get_attention_head nj = Ok hj /\ hj <= hi.
Proof.
  intros Hit Hc.
  destruct (create_elements_shape _ _ _ _ _ Hit Hc)
    as (env & st & sn & new & _ & Hsn & _ & _ & _ & -> & Hf).
  unfold attention_ids.
  rewrite node_elements_shape, filter_map_ids, (placed_ids _ _ _ _ Hf).
  pose proof (StronglySorted_filter _ (attention_at L) _
                (sorted_key_order _ _ Hsn)) as Hs.
  intros i j ni nj Hij Hi Hj.
  pose proof (StronglySorted_lookup_lt _ _ Hs _ _ _ _ Hij Hi Hj) as Hord.
  apply list_elem_of_lookup_2, list_elem_of_In, filter_In in Hi as [_ Hai].
  apply list_elem_of_lookup_2, list_elem_of_In, filter_In in Hj as [_ Haj].
  eapply key_order_heads; eauto.
Qed.

(** The x-coordinates of the attention nodes of a layer other than 100,
    for any arithmetic on the coordinates. *)
Lemma attention_xs_formula {R : Type} {AR : Arith R}
  edges nodes (W H : R) els L :
  set_iteration edges nodes ->
  create_elements nodes edges W H = Ok els ->
  L <> 100 ->
  attention_xs L els
  = map (attention_x W (count (counted_at L) nodes))
        (ranks 0 (length (attention_xs L els)))
  /\ Z.of_nat (length (attention_xs L els)) = count (attention_at L) nodes.
Proof.
  intros Hit Hc H100.
  destruct (create_elements_shape _ _ _ _ _ Hit Hc)
    as (env & st & sn & new & Hl & Hsn' & HW & _ & _ & Hels & Hf).
  apply create_elements_inv in Hc as (env' & st' & Hl' & Hels').
  rewrite Hl in Hl'. injection Hl' as <- <-.
  destruct (layout_inv _ _ _ _ _ Hl)
    as (sn0 & mn & mx & lc & lh & Hsn & Hmn & Hmx & Hcount & _ & Henv & Hpl).
  rewrite Hsn' in Hsn. injection Hsn as <-.
  pose proof (sorted_layers_within _ _ _ _ Hsn' Hmn Hmx) as Hw.
  pose proof (count_loop_inv _ _ _ _ _ Hcount Hw) as (Hlc & Hlh & Hk).
  pose proof (sorted_perm _ _ Hsn') as Hperm.
  rewrite <- (count_perm (counted_at L) _ _ Hperm).
  rewrite <- (count_perm (attention_at L) _ _ Hperm).
  destruct (existsb (layer_is L) sn) eqn:Hex.
  - apply existsb_exists in Hex as (node & Hin & HL%layer_is_true).
    destruct (Hw node Hin) as (L' & HL' & Hb).
    assert (L' = L) as -> by congruence.
    set (k := Z.to_nat (L - mn)).
    assert (k < Z.to_nat (mx - mn + 1))%nat as Hklt by (unfold k; lia).
    destruct (Hk k Hklt) as [Hck _].
    replace (mn + Z.of_nat k) with L in Hck by (unfold k; lia).
    assert (min_layer env = mn) as Hmin by (now subst env).
    assert (min_layer env <= L) as H1 by lia.
    assert (forall n0 L0, In n0 sn -> get_layer n0 = Ok L0 ->
                          min_layer env <= L0) as H2.
    { intros n0 L0 Hin0 HL0. destruct (Hw n0 Hin0) as (L1 & HL1 & Hb1).
      assert (L1 = L0) by congruence. lia. }
    assert (layer_counts env !! Z.to_nat (L - min_layer env)
            = Some (count (counted_at L) sn)) as H3.
    { rewrite Hmin. subst env. exact Hck. }
    assert (zeros (mx - mn + 1) !! Z.to_nat (L - min_layer env) = Some 0) as H4.
    { rewrite Hmin. unfold zeros. now apply lookup_replicate_2. }
    destruct (place_loop_attention env L _ sn _ st 0 H1 H100 H2 H3 Hpl H4)
      as (new' & m & Hel & Hxs & _ & Hm).
    rewrite Hels', Hel, attention_xs_app, attention_xs_edges, app_nil_r.
    cbn [elements app]. rewrite Hxs, length_map, ranks_length, HW.
    split; [reflexivity | exact Hm].
  - assert (forall x, In x sn -> layer_is L x = false) as Hnone.
    { intros x Hx. destruct (layer_is L x) eqn:E; [|reflexivity].
      assert (existsb (layer_is L) sn = true) as Ht; [|congruence].
      apply existsb_exists. now exists x. }
    assert (count (attention_at L) sn = 0) as Hz.
    { apply count_zero. intros x Hx. unfold attention_at, counted_at.
      now rewrite (Hnone x Hx). }
    assert (attention_xs L els = []) as ->; [|now rewrite Hz].
    rewrite Hels, attention_xs_app, attention_xs_edges, app_nil_r.
    clear -Hf Hnone. induction Hf as [|node n sn new (p & _ & -> & _) _ IH];
      [reflexivity|].
    cbn [map]. rewrite attention_xs_Node. cbn [node_to_element node_id].
    unfold attention_at at 1, counted_at. rewrite (Hnone node) by now left.
    apply IH. intros; apply Hnone; now right.
Qed.


(** The elements of [heads_edges] in the 1400 by 800 area of [main], in
    floats. *)
Lemma heads_edges_elements :
  exists els,
    create_elements (nodes_of heads_edges) heads_edges
      (float_of_int 1400) (float_of_int 800) = Ok els.
Proof. eexists. vm_compute. reflexivity. Defined.



(** *** When the layout returns *)

Lemma sum_lookup_le l : Forall (fun x => 0 <= x) l ->
  forall k v, l !! k = Some v -> v <= sum l.
Proof.
  induction 1 as [|x l Hx Hl IH]; intros k v; [discriminate|].
  pose proof (sum_nonneg l Hl). destruct k as [|k]; simpl.
  - intros [= <-]. lia.
  - intros Hv%IH. lia.
Qed.

Lemma counts_inv_heights mn len sn lc lh :
  counts_inv mn len sn lc lh -> Forall (fun x => 0 <= x) lh.
Proof.
  intros (_ & Hlh & Hk). apply Forall_lookup. intros k v Hv.
  destruct (Hk k) as [_ Hh]; [apply lookup_lt_Some in Hv; lia|].
  rewrite Hv in Hh. injection Hh as ->.
  destruct (0 <? _); lia.
Qed.

Lemma counts_inv_counts mn len sn lc lh :
  counts_inv mn len sn lc lh ->
  forall k c, lc !! k = Some c -> 0 <= c.
Proof.
  intros (Hlc & _ & Hk) k c Hc.
  destruct (Hk k) as [Hc' _]; [apply lookup_lt_Some in Hc; lia|].
  rewrite Hc in Hc'. injection Hc' as ->. apply count_nonneg.
Qed.

(** With only nodes of layer 100, no layer has a height. *)
Lemma all_sentinel_sum mn len sn lc lh :
  counts_inv mn len sn lc lh ->
  (forall n, In n sn -> get_layer n = Ok 100) ->
  sum lh = 0.
Proof.
  intros (_ & Hlh & Hk) Hall. apply sum_all_zero, Forall_lookup.
  intros k v Hv. destruct (Hk k) as [_ Hh]; [apply lookup_lt_Some in Hv; lia|].
  rewrite Hv in Hh. injection Hh as ->.
  replace (count _ sn) with 0; [reflexivity|]. symmetry. apply count_zero.
  intros x Hx. now apply counted_at_sentinel, Hall.
Qed.

(** A node of another layer gives its layer the height 1. *)
Lemma some_counted_sum mn len sn lc lh n L :
  counts_inv mn len sn lc lh ->
  In n sn -> get_layer n = Ok L -> L <> 100 ->
  mn <= L < mn + Z.of_nat len ->
  sum lh <> 0.
Proof.
  intros Hinv Hin HL H100 Hb.
  pose proof (counts_inv_heights _ _ _ _ _ Hinv) as Hnn.
  destruct Hinv as (_ & Hlh & Hk).
  destruct (Hk (Z.to_nat (L - mn))) as [_ Hh]; [lia|].
  replace (mn + Z.of_nat (Z.to_nat (L - mn))) with L in Hh by lia.
  assert (0 < count (counted_at L) sn) as Hpos.
  { pose proof (count_nonneg (counted_at L) sn).
    enough (count (counted_at L) sn <> 0) by lia.
    intros Hz. rewrite count_zero in Hz. specialize (Hz n Hin).
    rewrite (counted_at_layer _ _ _ HL), Z.eqb_refl in Hz.
    destruct (Z.eqb_spec L 100); [congruence | discriminate]. }
  destruct (Z.ltb_spec 0 (count (counted_at L) sn)); [|lia].
  pose proof (sum_lookup_le _ Hnn _ _ Hh). lia.
Qed.

Section Returning.

Context {R : Type} {AR : Arith R}.
Implicit Types (env : layout_env R) (st : place_state R).

Lemma place_xy_returns env ac node L :
  min_layer env <= L < min_layer env + Z.of_nat (length ac) ->
  length (layer_counts env) = length ac ->
  (forall k c, layer_counts env !! k = Some c -> 0 <= c) ->
  exists x y ac',
    place_xy env ac node L = Ok (x, y, ac') /\ length ac' = length ac.
Proof.
  intros Hb Hlen Hnn. unfold place_xy.
  destruct (L =? 100); [eauto|].
  destruct (Py.startswith node "m"); cbn [bind]; [eauto|].
  set (i := L - min_layer env).
  assert (0 <= i < Z.of_nat (length ac)) as Hi by (unfold i; lia).
  destruct (getitem_ok ac i Hi) as (a & Ha & ->). cbn [bind].
  rewrite setitem_ok by exact Hi. cbn [bind].
  destruct (getitem_ok (<[Z.to_nat i := a + 1]> ac) i) as (a' & _ & ->);
    [now rewrite length_insert|]. cbn [bind].
  destruct (getitem_ok (layer_counts env) i) as (c & Hc & ->);
    [now rewrite Hlen|]. cbn [bind].
  unfold py_div. pose proof (Hnn _ _ Hc).
  destruct (Z.eqb_spec (c + 1) 0); [lia|]. cbn [bind].
  eexists _, _, _. split; [reflexivity|]. apply length_insert.
Qed.

Lemma place_loop_returns env nodes : forall st,
  layers_within (min_layer env) (length (attention_counts st)) nodes ->
  length (layer_counts env) = length (attention_counts st) ->
  (forall k c, layer_counts env !! k = Some c -> 0 <= c) ->
  returns (for_each (place_body env) st nodes).
Proof.
  induction nodes as [|n nodes IH]; intros st Hw Hlen Hnn; cbn [for_each];
    [eauto|].
  apply layers_within_cons in Hw as [Hw1 Hw2].
  destruct (Hw1 n) as (L & HL & Hb); [now left|].
  destruct (place_xy_returns env (attention_counts st) n L Hb Hlen Hnn)
    as (x & y & ac' & Hxy & Hlen').
  unfold place_body. rewrite HL. cbn [bind]. rewrite Hxy. cbn [bind].
  apply IH; simpl; try rewrite Hlen'; assumption.
Qed.

(** The layout after the counting loop. *)
Lemma layout_after_counting nodes (W H : R) sn mn mx lc lh :
  sorted nodes = Ok sn ->
  min_layer_of nodes = Ok mn -> max_layer_of nodes = Ok mx ->
  for_each (count_body mn) (zeros (mx - mn + 1), zeros (mx - mn + 1)) sn
  = Ok (lc, lh) ->
  mx - mn + 1 <= list_room R ->
  layout nodes W H
  = let* layer_height := py_div H (sum lh) in
    let env := {| graph_width := W; min_layer := mn; layer_counts := lc;
                  layer_heights := lh; total_layers := sum lh;
                  layer_height := layer_height |} in
    let* st := for_each (place_body env)
                 {| elements := []; node_positions := ∅;
                    attention_counts := zeros (mx - mn + 1) |} sn in
    Ok (env, st).
Proof.
  intros Hsn Hmn Hmx Hc Hfit. unfold layout.
  rewrite Hsn, Hmn, Hmx. cbn [bind]. rewrite (py_zeros_fits _ Hfit).
  cbn [bind]. rewrite Hc. reflexivity.
Qed.

Lemma span_fits_range nodes room mn mx :
  span_fits room nodes ->
  min_layer_of nodes = Ok mn -> max_layer_of nodes = Ok mx ->
  mx - mn + 1 <= room.
Proof.
  intros Hfit Hmn Hmx.
  destruct (layer_range_attained _ _ _ Hmn Hmx) as (x & y & Hx & Hy & HLx & HLy).
  exact (Hfit x y mn mx Hx Hy HLx HLy).
Qed.

(** The steps before the division, for nodes that all have a sort key. *)
Lemma layout_counting nodes :
  nodes <> [] ->
  (forall n, In n nodes -> returns (sort_key n)) ->
  exists sn mn mx lc lh,
    sorted nodes = Ok sn
    /\ min_layer_of nodes = Ok mn /\ max_layer_of nodes = Ok mx
    /\ for_each (count_body mn) (zeros (mx - mn + 1), zeros (mx - mn + 1)) sn
       = Ok (lc, lh)
    /\ layers_within mn (Z.to_nat (mx - mn + 1)) sn
    /\ counts_inv mn (Z.to_nat (mx - mn + 1)) sn lc lh.
Proof.
  intros Hne Hkeys.
  destruct (proj2 (sorted_returns nodes) Hkeys) as [sn Hsn].
  destruct (finite_layers_returns nodes) as [ls Hls];
    [intros n Hn; apply sort_key_layer, Hkeys, Hn|].
  assert (ls <> []) as Hlne.
  { intros ->. apply finite_layers_nil in Hls. contradiction. }
  destruct (py_min_returns ls Hlne) as [mn Hmn].
  destruct (py_max_returns ls Hlne) as [mx Hmx].
  assert (min_layer_of nodes = Ok mn) as Hmn'
    by (unfold min_layer_of; now rewrite Hls).
  assert (max_layer_of nodes = Ok mx) as Hmx'
    by (unfold max_layer_of; now rewrite Hls).
  pose proof (sorted_layers_within _ _ _ _ Hsn Hmn' Hmx') as Hw.
  destruct (count_loop mn _ sn [] _ _ (counts_inv_zeros _ _) Hw)
    as (lc & lh & Hloop & Hinv).
  exists sn, mn, mx, lc, lh. easy.
Qed.

Lemma layout_returns nodes (W H : R) :
  (forall n, In n nodes -> returns (sort_key n)) ->
  (exists n L, In n nodes /\ get_layer n = Ok L /\ L <> 100) ->
  span_fits (list_room R) nodes ->
  returns (layout nodes W H).
Proof.
  intros Hkeys (n & L & Hin & HL & H100) Hfit.
  assert (nodes <> []) as Hne by (intros ->; easy).
  destruct (layout_counting nodes Hne Hkeys)
    as (sn & mn & mx & lc & lh & Hsn & Hmn & Hmx & Hloop & Hw & Hinv).
  rewrite (layout_after_counting _ _ _ _ _ _ _ _ Hsn Hmn Hmx Hloop
             (span_fits_range _ _ _ _ Hfit Hmn Hmx)).
  assert (In n sn) as Hin'
    by (apply (Permutation_in _ (Permutation_sym (sorted_perm _ _ Hsn))), Hin).
  assert (sum lh <> 0) as Hsum.
  { destruct (Hw n Hin') as (L' & HL' & Hb). assert (L' = L) as -> by congruence.
    eapply some_counted_sum; eauto. }
  unfold py_div. destruct (Z.eqb_spec (sum lh) 0); [contradiction|]. cbn [bind].
  cbv zeta.
  match goal with
  | |- returns (bind (for_each (place_body ?e) ?s _) _) =>
      destruct (place_loop_returns e sn s) as [st Hst]
  end.
  - simpl. unfold zeros. rewrite length_replicate. exact Hw.
  - simpl. unfold zeros. rewrite length_replicate. now destruct Hinv.
  - simpl. intros k c Hc. eapply counts_inv_counts; eauto.
  - rewrite Hst. cbn [bind]. eauto.
Qed.

Lemma layout_all_sentinel nodes (W H : R) :
  nodes <> [] ->
  (forall n, In n nodes -> returns (sort_key n)) ->
  (forall n, In n nodes -> get_layer n = Ok 100) ->
  layout nodes W H = Raise ZeroDivisionError.
Proof.
  intros Hne Hkeys Hall.
  destruct (layout_counting nodes Hne Hkeys)
    as (sn & mn & mx & lc & lh & Hsn & Hmn & Hmx & Hloop & Hw & Hinv).
  assert (mx - mn + 1 <= list_room R) as Hfit.
  { destruct (layer_range_attained _ _ _ Hmn Hmx)
      as (x & y & Hx & Hy & HLx & HLy).
    rewrite (Hall x Hx) in HLx. rewrite (Hall y Hy) in HLy.
    injection HLx as <-. injection HLy as <-.
    pose proof (@list_room_min R AR). lia. }
  rewrite (layout_after_counting _ _ _ _ _ _ _ _ Hsn Hmn Hmx Hloop Hfit).
  rewrite (all_sentinel_sum _ _ _ _ _ Hinv); [reflexivity|].
  intros n Hn. apply Hall, (Permutation_in _ (sorted_perm _ _ Hsn)), Hn.
Qed.

Lemma layout_returns_inv nodes (W H : R) :
  returns (layout nodes W H) ->
  (forall n, In n nodes -> returns (sort_key n))
  /\ exists n L, In n nodes /\ get_layer n = Ok L /\ L <> 100.
Proof.
  intros [[env st] Hl].
  destruct (layout_inv _ _ _ _ _ Hl)
    as (sn & mn & mx & lc & lh & Hsn & Hmn & Hmx & Hloop & Hsum & _ & _).
  assert (forall n, In n nodes -> returns (sort_key n)) as Hkeys
    by (apply sorted_returns; now exists sn).
  split; [exact Hkeys|].
  destruct (existsb (fun n => negb (layer_is 100 n)) nodes) eqn:Hex.
  - apply existsb_exists in Hex as (n & Hin & Hn%negb_true_iff).
    destruct (sort_key_layer _ (Hkeys n Hin)) as [L HL].
    exists n, L. split; [exact Hin|]. split; [exact HL|].
    intros ->. apply layer_is_true in HL. congruence.
  - exfalso. assert (nodes <> []) as Hne.
    { intros ->. discriminate Hmn. }
    rewrite layout_all_sentinel in Hl; [discriminate | exact Hne | exact Hkeys |].
    intros n Hn. apply layer_is_true.
    destruct (layer_is 100 n) eqn:E; [reflexivity|].
    assert (existsb (fun n => negb (layer_is 100 n)) nodes = true) as Ht;
      [|congruence].
    apply existsb_exists. exists n. now rewrite E.
Qed.

(** C1, as amended: [create_elements] raises [ValueError] on the empty
    edge list; it returns only if every node has a sort key (a layer, and a
    head if it starts with [a], that [int] accepts) and some node has a
    layer other than 100; and it returns whenever, besides, the layers of
    the nodes lie in a range for which a list can be allocated. *)
Theorem create_elements_returns_when :
  forall (edges : list edge) (nodes : list string) (W H : R),
    set_iteration edges nodes ->
    (returns (create_elements nodes edges W H) ->
     (forall n, In n nodes -> returns (sort_key n))
     /\ exists n L, In n nodes /\ get_layer n = Ok L /\ L <> 100)
    /\ ((forall n, In n nodes -> returns (sort_key n)) ->
        (exists n L, In n nodes /\ get_layer n = Ok L /\ L <> 100) ->
        span_fits (list_room R) nodes ->
        returns (create_elements nodes edges W H))
    /\ (edges = [] -> create_elements nodes edges W H = Raise ValueError).
Proof.
  intros edges nodes W H Hit. split; [|split].
  - intros [els Hc]. apply create_elements_inv in Hc as (env & st & Hl & _).
    apply (layout_returns_inv nodes W H). now exists (env, st).
  - intros Hkeys Hex Hfit.
    destruct (layout_returns nodes W H Hkeys Hex Hfit) as [[env st] Hl].
    unfold create_elements. rewrite Hl. cbn [bind]. eauto.
  - intros ->. unfold set_iteration in Hit. cbn in Hit.
    apply Permutation_nil_r in Hit as ->. reflexivity.
Qed.

End Returning.

Lemma create_elements_returns_when_witness :
  set_iteration demo_edges (nodes_of demo_edges)
  /\ (forall n, In n (nodes_of demo_edges) -> returns (sort_key n))
  /\ (exists n L, In n (nodes_of demo_edges) /\ get_layer n = Ok L /\ L <> 100)
  /\ span_fits (list_room float) (nodes_of demo_edges)
  /\ returns (create_elements (nodes_of demo_edges) demo_edges
                (float_of_int 1400) (float_of_int 800)).
Proof.
  assert (set_iteration demo_edges (nodes_of demo_edges)) as Hit
    by (unfold set_iteration; reflexivity).
  assert (forall n, In n (nodes_of demo_edges) -> returns (sort_key n)) as Hk
    by (intros n [<-|[<-|[<-|[]]]]; eexists; reflexivity).
  assert (exists n L, In n (nodes_of demo_edges) /\ get_layer n = Ok L
                      /\ L <> 100) as Hex.
  { exists "a0.1", 0. split; [now left|]. split; [reflexivity | lia]. }
  assert (span_fits (list_room float) (nodes_of demo_edges)) as Hfit.
  { intros x y Lx Ly Hx Hy HLx HLy. vm_compute in Hx, Hy.
    destruct Hx as [<-|[<-|[<-|[]]]], Hy as [<-|[<-|[<-|[]]]];
      vm_compute in HLx, HLy; injection HLx as <-; injection HLy as <-;
      vm_compute; discriminate. }
  split; [exact Hit|]. split; [exact Hk|]. split; [exact Hex|].
  split; [exact Hfit|].
  exact (proj1 (proj2 (create_elements_returns_when demo_edges
                         (nodes_of demo_edges) (float_of_int 1400)
                         (float_of_int 800) Hit)) Hk Hex Hfit).
Defined.

(** C1 as stated fails: the parser returns no edge for an empty text, and
    on no edge [min] raises; with only nodes of layer 100 the division by
    [total_layers] raises. *)
Lemma create_elements_empty_raises :
  gv_to_edges (UploadedFile EmptyString) = []
  /\ set_iteration [] []
  /\ create_elements [] [] main_width main_height = Raise ValueError
  /\ create_elements [] [] main_width main_height <> Ok []
  /\ set_iteration sentinel_edges (nodes_of sentinel_edges)
  /\ create_elements (nodes_of sentinel_edges) sentinel_edges
       main_width main_height = Raise ZeroDivisionError.
Proof.
  split; [reflexivity|]. split; [unfold set_iteration; reflexivity|].
  split; [reflexivity|]. split; [discriminate|].
  split; [unfold set_iteration; reflexivity | reflexivity].
Qed.

(** *** The layer range *)

(** C2 fails on the code: the filter of lines 92 and 93 compares the layer
    with minus infinity, so the nodes of layer 100 take part in the minimum
    and the maximum.  For [a0.1] and [resid_post] the maximum is 100, not
    0; for [m150-0] and [resid_post] the minimum is 100, not 150; and
    whenever a node has layer 100 the range contains 100. *)
Theorem layer_range_includes_sentinel :
  min_layer_of (nodes_of output_edges) = Ok 0
  /\ max_layer_of (nodes_of output_edges) = Ok 100
  /\ max_layer_of ["resid_post"; "a0.1"] = Ok 100
  /\ min_layer_of ["m150-0"; "resid_post"] = Ok 100
  /\ (forall nodes mn mx node,
        min_layer_of nodes = Ok mn -> max_layer_of nodes = Ok mx ->
        In node nodes -> get_layer node = Ok 100 -> mn <= 100 <= mx).
Proof.
  do 4 (split; [reflexivity|]).
  intros nodes mn mx node Hmn Hmx Hin HL.
  exact (layer_bounds nodes mn mx Hmn Hmx node 100 Hin HL).
Qed.

(** *** The example of the specification *)

Lemma demo_iterations nodes :
  set_iteration demo_edges nodes ->
  nodes = ["a0.1"; "m0-0"; "resid_post"]
  \/ nodes = ["a0.1"; "resid_post"; "m0-0"]
  \/ nodes = ["m0-0"; "a0.1"; "resid_post"]
  \/ nodes = ["m0-0"; "resid_post"; "a0.1"]
  \/ nodes = ["resid_post"; "a0.1"; "m0-0"]
  \/ nodes = ["resid_post"; "m0-0"; "a0.1"].
Proof.
  unfold set_iteration. change (nodes_of demo_edges)
    with ["a0.1"; "m0-0"; "resid_post"].
  intros Hp. pose proof (Permutation_length Hp) as Hlen.
  destruct nodes as [|x [|y [|z [|w nodes]]]]; try discriminate Hlen.
  assert (NoDup [x; y; z]) as Hnd.
  { rewrite Hp. compute_done. }
  assert (In x ["a0.1"; "m0-0"; "resid_post"]) as Hx
    by (apply (Permutation_in _ Hp); now left).
  assert (In y ["a0.1"; "m0-0"; "resid_post"]) as Hy
    by (apply (Permutation_in _ Hp); right; now left).
  assert (In z ["a0.1"; "m0-0"; "resid_post"]) as Hz
    by (apply (Permutation_in _ Hp); right; right; now left).
  apply NoDup_cons in Hnd as [Hxy Hnd]. apply NoDup_cons in Hnd as [Hyz _].
  rewrite !list_elem_of_In in Hxy, Hyz. simpl in Hx, Hy, Hz, Hxy, Hyz.
  destruct Hx as [<-|[<-|[<-|[]]]]; destruct Hy as [<-|[<-|[<-|[]]]];
    destruct Hz as [<-|[<-|[<-|[]]]]; tauto.
Qed.

(** Runs [create_elements] on given nodes up to the three lists of zeros,
    which any interpreter has room for when they are short. *)
Ltac run_layout :=
  unfold create_elements, layout;
  repeat match goal with
    | |- context [sorted ?l] =>
        let v := eval vm_compute in (sorted l) in change (sorted l) with v
    | |- context [min_layer_of ?l] =>
        let v := eval vm_compute in (min_layer_of l) in
        change (min_layer_of l) with v
    | |- context [max_layer_of ?l] =>
        let v := eval vm_compute in (max_layer_of l) in
        change (max_layer_of l) with v
    end;
  cbn [bind];
  rewrite !py_zeros_fits by (pose proof (@list_room_min _ _); lia).

(** C8: for the two edges of the example, whatever the iteration order of
    the set, the nodes are [a0.1], [m0-0] and [resid_post], each once, and
    the result is three node elements, for [resid_post], [a0.1] and [m0-0],
    followed by the two edge elements [a0.1-m0-0] and [m0-0-resid_post]. *)
Theorem demo_edges_elements :
  forall (R : Type) (AR : Arith R) (W H : R) (nodes : list string),
    set_iteration demo_edges nodes ->
    Permutation nodes ["a0.1"; "m0-0"; "resid_post"]
    /\ NoDup nodes
    /\ (forall x, In x nodes <->
                  exists e, In e demo_edges /\ (x = fst e \/ x = snd e))
    /\ exists els,
         create_elements nodes demo_edges W H = Ok els
         /\ els = demo_elements W H
         /\ length (node_elements els) = 3%nat
         /\ length (edge_elements els) = 2%nat
         /\ els = (map Node (node_elements els)
                   ++ map Edge (edge_elements els))%list
         /\ map edge_id (edge_elements els)
            = ["a0.1-m0-0"; "m0-0-resid_post"].
Proof.
  intros R AR W H nodes Hit.
  split; [exact Hit|]. split; [eapply set_iteration_NoDup; eauto|].
  split.
  { intros x. unfold set_iteration in Hit. rewrite <- nodes_of_In. split.
    - apply Permutation_in. exact Hit.
    - apply Permutation_in. symmetry. exact Hit. }
  exists (demo_elements W H).
  split; [|repeat split].
  destruct (demo_iterations nodes Hit) as [->|[->|[->|[->|[->| ->]]]]];
    run_layout; vm_compute; reflexivity.
Qed.

Lemma demo_edges_elements_witness :
  set_iteration demo_edges (nodes_of demo_edges)
  /\ create_elements (nodes_of demo_edges) demo_edges main_width main_height
     = Ok (demo_elements main_width main_height).
Proof.
  assert (set_iteration demo_edges (nodes_of demo_edges)) as Hit
    by (unfold set_iteration; reflexivity).
  split; [exact Hit|].
  destruct (demo_edges_elements Q Q_arith main_width main_height
              (nodes_of demo_edges) Hit) as (_ & _ & _ & els & Hc & -> & _).
  exact Hc.
Defined.

Lemma h_edges_elements :
  exists els,
    create_elements (nodes_of h_edges) h_edges main_width main_height = Ok els.
Proof. eexists. vm_compute. reflexivity. Defined.

Lemma H_shift_quarter_unit_witness :
  set_iteration h_edges (nodes_of h_edges)
  /\ In "m0-H" (nodes_of h_edges)
  /\ Py.contains "H"%char "m0-H" = true
  /\ exists els env st n p,
       create_elements (nodes_of h_edges) h_edges main_width main_height = Ok els
       /\ layout (nodes_of h_edges) main_width main_height = Ok (env, st)
       /\ In (Node n) els /\ node_id n = "m0-H"
       /\ node_positions st !! "m0-H" = Some p
       /\ pos_x (node_position n) = pos_x p
       /\ pos_y (node_position n)
          = sub (pos_y p) (div (layer_height env) (of_int 4)).
Proof.
  assert (set_iteration h_edges (nodes_of h_edges)) as Hit
    by (unfold set_iteration; reflexivity).
  assert (In "m0-H" (nodes_of h_edges)) as Hin by (right; left; reflexivity).
  assert (Py.contains "H"%char "m0-H" = true) as HH by reflexivity.
  split; [exact Hit|]. split; [exact Hin|]. split; [exact HH|].
  destruct h_edges_elements as [els Hc].
  destruct (H_shift_quarter_unit h_edges (nodes_of h_edges)
              main_width main_height els Hit Hc) as (env & st & Hl & _ & Hn & _).
  destruct (Hn "m0-H" Hin) as (n & p & Hel & Hid & Hp & Hx & Hy & _).
  exists els, env, st, n, p. split; [exact Hc|]. split; [exact Hl|].
  split; [exact Hel|]. split; [exact Hid|]. split; [exact Hp|].
  split; [exact Hx | exact (Hy HH)].
Defined.

Lemma sentinel_corner_witness :
  set_iteration h_edges (nodes_of h_edges)
  /\ In "H" (nodes_of h_edges)
  /\ get_layer "H" = Ok 100
  /\ Py.contains "H"%char "H" = true
  /\ exists els env st n,
       create_elements (nodes_of h_edges) h_edges main_width main_height = Ok els
       /\ layout (nodes_of h_edges) main_width main_height = Ok (env, st)
       /\ In (Node n) els /\ node_id n = "H"
       /\ pos_x (node_position n) = mul main_width (lit (7 # 10))
       /\ pos_y (node_position n)
          = sub (of_int 20) (div (layer_height env) (of_int 4)).
Proof.
  assert (set_iteration h_edges (nodes_of h_edges)) as Hit
    by (unfold set_iteration; reflexivity).
  assert (In "H" (nodes_of h_edges)) as Hin
    by (right; right; left; reflexivity).
  assert (get_layer "H" = Ok 100) as HL by reflexivity.
  assert (Py.contains "H"%char "H" = true) as HH by reflexivity.
  split; [exact Hit|]. split; [exact Hin|]. split; [exact HL|].
  split; [exact HH|].
  destruct h_edges_elements as [els Hc].
  destruct (sentinel_corner h_edges (nodes_of h_edges)
              main_width main_height els Hit Hc) as (env & st & Hl & _ & Hn & _).
  destruct (Hn "H" Hin HL) as (n & Hel & Hid & Hx & _ & Hy).
  exists els, env, st, n. split; [exact Hc|]. split; [exact Hl|].
  split; [exact Hel|]. split; [exact Hid|]. split; [exact Hx | exact (Hy HH)].
Defined.

(** C7 as stated fails: the node [H] has layer 100 and its identifier
    contains [H], so line 144 moves its element from y = 20 to
    20 - (800 / 1) / 4 = -180. *)
Lemma sentinel_with_H_off_corner :
  exists els n,
    create_elements (nodes_of h_edges) h_edges main_width main_height = Ok els
    /\ In (Node n) els
    /\ get_layer (node_id n) = Ok 100
    /\ (pos_y (node_position n) == -180)%Q
    /\ ~ (pos_y (node_position n) == 20)%Q.
Proof.
  eexists. eexists. split; [vm_compute; reflexivity|].
  split; [left; reflexivity|].
  split; [reflexivity|].
  split; [reflexivity|]. intros Hq. discriminate Hq.
Qed.

End LayoutFacts.

(** * Further properties *)

(** ** The parser on well-formed lines *)

Module ParserMore.

Import Re ParserSpec MoreSpec ParserFacts.

Lemma string_app_assoc (a b c : string) : (a ++ b) ++ c = a ++ (b ++ c).
Proof. induction a as [|x a IH]; simpl; [reflexivity | now rewrite IH]. Qed.

Lemma clean_name_parts s :
  clean_name s = true ->
  s <> EmptyString /\ Py.contains Py.LF s = false
  /\ Py.contains ">"%char s = false.
Proof.
  unfold clean_name. rewrite !andb_true_iff, !negb_true_iff, String.eqb_neq.
  tauto.
Qed.

(** A lazy group stops exactly at the end of [a] when the continuation
    refuses every text that starts with a character of [a]. *)
Lemma lazy_plus_exact {B} (k : string -> option B) a r b :
  a <> EmptyString ->
  Py.contains Py.LF a = false ->
  (forall c s, Py.contains c a = true -> k (String c s) = None) ->
  k r = Some b ->
  lazy_plus k (a ++ r) = Some (a, b).
Proof.
  induction a as [|c a IH]; intros Hne Hlf Hk Hr; [congruence|].
  simpl in Hlf. apply orb_false_iff in Hlf as [Hc Hlf].
  simpl. rewrite Ascii.eqb_sym in Hc. rewrite Ascii.eqb_sym, Hc.
  destruct a as [|c' a].
  - simpl. now rewrite Hr.
  - assert (k (String c' a ++ r) = None) as ->.
    { apply Hk. simpl. rewrite Ascii.eqb_refl. apply orb_true_r. }
    rewrite IH; [reflexivity | discriminate | exact Hlf | | exact Hr].
    intros x s Hx. apply Hk. simpl in *. rewrite Hx. apply orb_true_r.
Qed.

Lemma strip_prefix_other p c s :
  match p with String a _ => a <> c | EmptyString => False end ->
  strip_prefix p (String c s) = None.
Proof.
  destruct p as [|a p]; [easy|]. intros Hne. simpl.
  now apply Ascii.eqb_neq in Hne as ->.
Qed.

Lemma contains_true_neq c x a :
  Py.contains x a = false -> Py.contains c a = true -> c <> x.
Proof. intros Hx Hc ->. congruence. Qed.

Lemma match_here_exact a b post :
  clean_name a = true -> clean_name b = true ->
  match_here (lit_open ++ a ++ lit_arrow ++ b ++ lit_close ++ post)
  = Some (a, b).
Proof.
  intros (Ha & Hal & Hag)%clean_name_parts (Hb & Hbl & Hbg)%clean_name_parts.
  unfold match_here. rewrite strip_prefix_app.
  apply lazy_plus_exact; try assumption.
  - intros c s Hc. unfold match_arrow. rewrite strip_prefix_other; [reflexivity|].
    simpl. intros E. symmetry in E. revert E.
    exact (contains_true_neq _ _ _ Hag Hc).
  - unfold match_arrow. rewrite strip_prefix_app.
    rewrite (lazy_plus_exact match_close b (lit_close ++ post) tt);
      try assumption; [reflexivity | | apply match_close_app].
    intros c s Hc. unfold match_close. rewrite strip_prefix_other; [reflexivity|].
    simpl. intros E. symmetry in E. revert E.
    exact (contains_true_neq _ _ _ Hbg Hc).
Qed.

Lemma search_skip pre s :
  Py.contains DQ pre = false -> search (pre ++ s) = search s.
Proof.
  induction pre as [|c pre IH]; [reflexivity|].
  intros Hp. simpl in Hp. apply orb_false_iff in Hp as [Hc Hpre].
  rewrite (search_not_here (String c pre ++ s)).
  - change (String c pre ++ s) with (String c (pre ++ s)). now apply IH.
  - change (String c pre ++ s) with (String c (pre ++ s)).
    unfold match_here. rewrite strip_prefix_other; [reflexivity|].
    simpl. intros E. subst c. now rewrite Ascii.eqb_refl in Hc.
Qed.

Lemma dressed_line_search pre post e :
  Py.contains DQ pre = false ->
  clean_edge e = true ->
  search (dressed_line pre post e) = Some e.
Proof.
  destruct e as [a b]. intros Hpre [Ha Hb]%andb_true_iff.
  unfold dressed_line, edge_line. cbn [fst snd] in *.
  rewrite search_skip by exact Hpre.
  rewrite !string_app_assoc.
  apply search_here. now apply match_here_exact.
Qed.

Lemma search_plain text : Py.contains DQ text = false -> search text = None.
Proof.
  intros H. pose proof (search_skip text EmptyString H) as Hs.
  replace (text ++ EmptyString) with text in Hs; [exact Hs|].
  clear. induction text as [|c t IH]; simpl; [reflexivity | now rewrite <- IH].
Qed.

Lemma split_line l rest :
  Py.contains Py.LF l = false ->
  Py.split Py.LF (l ++ String Py.LF rest) = l :: Py.split Py.LF rest.
Proof.
  induction l as [|c l IH]; simpl; [reflexivity|].
  intros [Hc Hl]%orb_false_iff. rewrite (IH Hl). now rewrite Hc.
Qed.

Lemma contains_app_false x a b :
  Py.contains x a = false -> Py.contains x b = false ->
  Py.contains x (a ++ b) = false.
Proof.
  intros Ha Hb. induction a as [|y a IH]; simpl in *; [exact Hb|].
  apply orb_false_iff in Ha as [-> Ha]. now apply IH.
Qed.

Lemma render_line_no_LF l :
  line_ok l = true -> Py.contains Py.LF (render_line l) = false.
Proof.
  destruct l as [pre post [a b]|text]; simpl.
  - rewrite !andb_true_iff, !negb_true_iff.
    intros [[[_ Hpre] Hpost] [Ha Hb]%andb_true_iff].
    apply clean_name_parts in Ha as (_ & Ha & _).
    apply clean_name_parts in Hb as (_ & Hb & _).
    unfold dressed_line, edge_line. cbn [fst snd].
    repeat (apply contains_app_false; try assumption); reflexivity.
  - rewrite andb_true_iff, !negb_true_iff. tauto.
Qed.

Lemma split_no_LF s : no_LF s -> Py.split Py.LF s = [s].
Proof.
  unfold no_LF. induction s as [|c s IH]; simpl; [reflexivity|].
  intros [Hc Hs]%orb_false_iff. rewrite (IH Hs). now rewrite Hc.
Qed.

(** X1: on a line that holds the pattern around two clean names, after a
    text without double quote, [search] captures exactly these names,
    whatever follows; and when neither the text before nor the text after
    holds a line feed, [gv_to_edges] returns this one edge for an upload
    buffer made of that line. *)
Theorem search_exact_capture :
  forall (pre post : string) (e : edge),
    Py.contains DQ pre = false ->
    clean_edge e = true ->
    search (dressed_line pre post e) = Some e
    /\ (no_LF pre -> no_LF post ->
        gv_to_edges (UploadedFile (dressed_line pre post e)) = [e]).
Proof.
  intros pre post e Hpre He.
  pose proof (dressed_line_search pre post e Hpre He) as Hs.
  split; [exact Hs|]. intros Hlpre Hlpost.
  assert (no_LF (dressed_line pre post e)) as Hline.
  { apply (render_line_no_LF (EdgeLine pre post e)). cbn [line_ok].
    unfold no_LF in Hlpre, Hlpost. now rewrite Hpre, Hlpre, Hlpost, He. }
  unfold gv_to_edges, gv_lines. rewrite (split_no_LF _ Hline).
  cbn [edges_of_lines]. rewrite Hs. now destruct e.
Qed.

Lemma search_exact_capture_witness :
  Py.contains DQ "  " = false
  /\ clean_edge ("a0.1", "m0-0") = true
  /\ no_LF "  " /\ no_LF " [color=red];"
  /\ search (dressed_line "  " " [color=red];" ("a0.1", "m0-0"))
     = Some ("a0.1", "m0-0")
  /\ gv_to_edges
       (UploadedFile (dressed_line "  " " [color=red];" ("a0.1", "m0-0")))
     = [("a0.1", "m0-0")].
Proof.
  assert (Py.contains DQ "  " = false) as H1 by reflexivity.
  assert (clean_edge ("a0.1", "m0-0") = true) as H2 by reflexivity.
  assert (no_LF "  ") as H3 by reflexivity.
  assert (no_LF " [color=red];") as H4 by reflexivity.
  split; [exact H1|]. split; [exact H2|]. split; [exact H3|].
  split; [exact H4|].
  destruct (search_exact_capture "  " " [color=red];" ("a0.1", "m0-0") H1 H2)
    as [Hs Hg].
  split; [exact Hs | exact (Hg H3 H4)].
Defined.

Lemma render_line_search l :
  line_ok l = true -> search (render_line l) = line_edge l.
Proof.
  destruct l as [pre post e|text]; simpl.
  - rewrite !andb_true_iff, !negb_true_iff. intros [[[Hpre _] _] He].
    now apply dressed_line_search.
  - rewrite andb_true_iff, !negb_true_iff. intros [Ht _].
    now apply search_plain.
Qed.

Lemma edges_of_rendered lines :
  forallb line_ok lines = true ->
  edges_of_lines (Py.split Py.LF (render lines)) = omap line_edge lines.
Proof.
  unfold render. induction lines as [|l lines IH]; [reflexivity|].
  cbn [forallb map unlines]. intros [Hl Hls]%andb_true_iff.
  change (nl ++ unlines (map render_line lines))
    with (String Py.LF (unlines (map render_line lines))).
  rewrite split_line by now apply render_line_no_LF.
  cbn [edges_of_lines]. rewrite (render_line_search l Hl), (IH Hls).
  change (omap line_edge (l :: lines))
    with (match line_edge l with
          | Some e => e :: omap line_edge lines
          | None => omap line_edge lines
          end).
  now destruct (line_edge l) as [[a b]|].
Qed.

(** X2: a graph file written line by line, edge lines around clean names
    and other lines without double quote, is read back as its edges, in
    order; through a path as well when every carriage return of the text is
    followed by a line feed. *)
Theorem gv_to_edges_round_trip :
  forall lines : list gv_line,
    forallb line_ok lines = true ->
    gv_to_edges (UploadedFile (render lines)) = omap line_edge lines
    /\ (crlf_only (render lines) = true ->
        gv_to_edges (FilePath (render lines)) = omap line_edge lines).
Proof.
  intros lines Hok. unfold gv_to_edges, gv_lines. split.
  - now apply edges_of_rendered.
  - intros Hcr. rewrite <- (edges_split_readlines _ Hcr).
    now apply edges_of_rendered.
Qed.

Lemma gv_to_edges_round_trip_witness :
  forallb line_ok sample_lines = true
  /\ crlf_only (render sample_lines) = true
  /\ gv_to_edges (UploadedFile (render sample_lines))
     = [("a0.1", "m0-0"); ("m0-0", "resid_post")]
  /\ gv_to_edges (FilePath (render sample_lines))
     = [("a0.1", "m0-0"); ("m0-0", "resid_post")].
Proof.
  assert (forallb line_ok sample_lines = true) as H1 by reflexivity.
  assert (crlf_only (render sample_lines) = true) as H2
    by (vm_compute; reflexivity).
  destruct (gv_to_edges_round_trip sample_lines H1) as [Hu Hf].
  split; [exact H1|]. split; [exact H2|]. split; [exact Hu | exact (Hf H2)].
Defined.

(** X3: every pair that [gv_to_edges] returns has two names that are not
    empty and hold no line feed, and there are at most as many pairs as
    lines. *)
Theorem gv_to_edges_names :
  forall (gv_file : gv_input),
    (forall a b, In (a, b) (gv_to_edges gv_file) ->
       a <> EmptyString /\ b <> EmptyString
       /\ Py.contains Py.LF a = false /\ Py.contains Py.LF b = false)
    /\ (length (gv_to_edges gv_file) <= length (gv_lines gv_file))%nat.
Proof.
  intros gv_file. unfold gv_to_edges.
  induction (gv_lines gv_file) as [|l ls [IH1 IH2]]; simpl.
  - split; [easy | lia].
  - destruct (search l) as [[a0 b0]|] eqn:Hs.
    + split; [|simpl; lia]. intros a b [[= <- <-]|Hin]; [|now apply IH1].
      apply search_sound in Hs as (pre & post & _ & Ha & Hb & Hla & Hlb).
      easy.
    + split; [exact IH1 | lia].
Qed.

End ParserMore.

(** ** Identifiers that follow the naming conventions *)

Module LayerMore.

Import MoreSpec LayoutFacts.

#[local] Arguments digit_char : simpl never.

Lemma digit_char_facts d :
  (d < 10)%nat ->
  Py.is_digit (digit_char d) = true
  /\ Py.digit_value (digit_char d) = Z.of_nat d
  /\ Py.is_space (digit_char d) = false
  /\ Ascii.eqb (digit_char d) "-"%char = false
  /\ Ascii.eqb (digit_char d) "+"%char = false
  /\ Ascii.eqb (digit_char d) "."%char = false.
Proof.
  intros Hd. do 10 (destruct d as [|d]; [repeat split; reflexivity|]). lia.
Qed.

Lemma startswith_cons c s : Py.startswith (String c s) (String c EmptyString) = true.
Proof.
  unfold Py.startswith. simpl.
  destruct (ascii_dec c c); [now destruct s | congruence].
Qed.

Lemma startswith_other c c' s :
  c <> c' -> Py.startswith (String c s) (String c' EmptyString) = false.
Proof.
  intros Hne. unfold Py.startswith. simpl.
  destruct (ascii_dec c' c); [congruence | reflexivity].
Qed.

Lemma get_layer_m s :
  get_layer (String "m" s)
  = bind (Py.item_first (Py.split "-"%char s)) Py.int.
Proof. unfold get_layer. now rewrite startswith_cons. Qed.

Lemma get_layer_a s :
  get_layer (String "a" s)
  = bind (Py.item_first (Py.split "."%char s)) Py.int.
Proof.
  unfold get_layer. rewrite startswith_other by discriminate.
  now rewrite startswith_cons.
Qed.

Lemma get_attention_head_a s :
  get_attention_head (String "a" s)
  = bind (Py.item_last (Py.split "."%char (String "a" s))) Py.int.
Proof. unfold get_attention_head. now rewrite startswith_cons. Qed.

Lemma split_at sep l rest :
  Py.contains sep l = false ->
  Py.split sep (l ++ String sep rest) = l :: Py.split sep rest.
Proof.
  induction l as [|c l IH]; simpl.
  - now rewrite Ascii.eqb_refl.
  - intros [Hc Hl]%orb_false_iff. rewrite (IH Hl). now rewrite Hc.
Qed.

Lemma split_whole sep l : Py.contains sep l = false -> Py.split sep l = [l].
Proof.
  induction l as [|c l IH]; simpl; [reflexivity|].
  intros [Hc Hl]%orb_false_iff. rewrite (IH Hl). now rewrite Hc.
Qed.

Lemma decimal_free sep ds :
  Forall (fun d => (d < 10)%nat) ds ->
  (forall d, (d < 10)%nat -> Ascii.eqb (digit_char d) sep = false) ->
  Py.contains sep (decimal ds) = false.
Proof.
  intros Hds Hsep.
  induction Hds as [|d ds Hd _ IH]; cbn [decimal Py.contains]; [reflexivity|].
  now rewrite (Hsep d Hd), IH.
Qed.

Lemma scan_decimal ds : forall acc,
  Forall (fun d => (d < 10)%nat) ds ->
  Py.scan_digits (decimal ds) false acc
  = Some (foldl (fun a d => 10 * a + Z.of_nat d) acc ds, EmptyString).
Proof.
  induction ds as [|d ds IH]; intros acc Hds;
    cbn [decimal Py.scan_digits foldl]; [reflexivity|].
  apply Forall_cons in Hds as [Hd Hds].
  destruct (digit_char_facts d Hd) as (-> & -> & _). now apply IH.
Qed.

Lemma count_decimal ds :
  Forall (fun d => (d < 10)%nat) ds ->
  Py.count_digits (decimal ds) = Z.of_nat (length ds).
Proof.
  induction 1 as [|d ds Hd _ IH]; cbn [decimal Py.count_digits length];
    [reflexivity|].
  destruct (digit_char_facts d Hd) as (-> & _). rewrite IH. lia.
Qed.

(** [int] reads a run of decimal digits as the number it writes, unless
    they are more than [int_max_str_digits]. *)
Lemma int_decimal ds :
  digits ds ->
  Py.int (decimal ds)
  = if Py.int_max_str_digits <? Z.of_nat (length ds) then Raise ValueError
    else Ok (decimal_value ds).
Proof.
  intros [Hne Hds]. destruct ds as [|d ds]; [congruence|].
  pose proof (scan_decimal (d :: ds) 0 Hds) as Hscan.
  pose proof (count_decimal (d :: ds) Hds) as Hcount.
  apply Forall_cons in Hds as [Hd Hds].
  destruct (digit_char_facts d Hd) as (Hdig & _ & Hsp & Hminus & Hplus & _).
  unfold Py.int. cbn [decimal Py.lstrip]. rewrite Hsp, Hminus, Hplus, Hdig.
  cbn [decimal] in Hscan, Hcount. rewrite Hscan. cbn [Py.lstrip].
  rewrite Hcount. reflexivity.
Qed.

Lemma int_decimal_short ds :
  digits ds -> (length ds <= 4300)%nat ->
  Py.int (decimal ds) = Ok (decimal_value ds).
Proof.
  intros Hds Hlen. rewrite (int_decimal ds Hds). unfold Py.int_max_str_digits.
  destruct (Z.ltb_spec 4300 (Z.of_nat (length ds))); [lia | reflexivity].
Qed.

Lemma int_decimal_long ds :
  digits ds -> (4300 < length ds)%nat ->
  Py.int (decimal ds) = Raise ValueError.
Proof.
  intros Hds Hlen. rewrite (int_decimal ds Hds). unfold Py.int_max_str_digits.
  destruct (Z.ltb_spec 4300 (Z.of_nat (length ds))); [reflexivity | lia].
Qed.

(** X4: an identifier made of [m], at most 4300 decimal digits and, if
    anything follows, a dash and any text, has the layer that the digits
    write, and the head -1; with more than 4300 digits [get_layer] raises
    [ValueError], as [int] does. *)
Theorem get_layer_mlp_convention :
  forall (ds : list nat) (rest : string),
    digits ds ->
    ((length ds <= 4300)%nat ->
     get_layer ("m" ++ decimal ds ++ "-" ++ rest) = Ok (decimal_value ds)
     /\ get_layer ("m" ++ decimal ds) = Ok (decimal_value ds)
     /\ get_attention_head ("m" ++ decimal ds ++ "-" ++ rest) = Ok (-1)
     /\ sort_key ("m" ++ decimal ds ++ "-" ++ rest)
        = Ok (decimal_value ds, -1))
    /\ ((4300 < length ds)%nat ->
        get_layer ("m" ++ decimal ds ++ "-" ++ rest) = Raise ValueError
        /\ get_layer ("m" ++ decimal ds) = Raise ValueError).
Proof.
  intros ds rest Hds.
  assert (Py.contains "-"%char (decimal ds) = false) as Hfree.
  { apply decimal_free; [apply Hds|]. intros d Hd.
    now destruct (digit_char_facts d Hd) as (_ & _ & _ & -> & _). }
  change ("m" ++ decimal ds ++ "-" ++ rest)
    with (String "m" (decimal ds ++ String "-" rest)).
  change ("m" ++ decimal ds) with (String "m" (decimal ds)).
  assert (get_layer (String "m" (decimal ds ++ String "-" rest))
          = Py.int (decimal ds)) as HL
    by now rewrite get_layer_m, (split_at _ _ _ Hfree).
  assert (get_layer (String "m" (decimal ds)) = Py.int (decimal ds)) as HL'
    by now rewrite get_layer_m, (split_whole _ _ Hfree).
  rewrite HL, HL'. split.
  - intros Hlen. pose proof (int_decimal_short ds Hds Hlen) as Hint.
    assert (get_attention_head (String "m" (decimal ds ++ String "-" rest))
            = Ok (-1)) as HH.
    { unfold get_attention_head. now rewrite startswith_other by discriminate. }
    split; [exact Hint|]. split; [exact Hint|]. split; [exact HH|].
    unfold sort_key. rewrite HL, Hint. cbn [bind].
    now rewrite startswith_other by discriminate.
  - intros Hlen. pose proof (int_decimal_long ds Hds Hlen) as Hint.
    split; exact Hint.
Qed.

Lemma get_layer_mlp_convention_witness :
  digits [1; 2]%nat
  /\ (length [1; 2]%nat <= 4300)%nat
  /\ get_layer "m12-7" = Ok 12
  /\ get_layer "m12" = Ok 12
  /\ get_attention_head "m12-7" = Ok (-1)
  /\ sort_key "m12-7" = Ok (12, -1).
Proof.
  assert (digits [1; 2]%nat) as Hd
    by (split; [discriminate | repeat constructor]).
  assert (length [1; 2]%nat <= 4300)%nat as Hlen by (simpl; lia).
  split; [exact Hd|]. split; [exact Hlen|].
  exact (proj1 (get_layer_mlp_convention [1; 2]%nat "7" Hd) Hlen).
Defined.

(** X5: an identifier made of [a], at most 4300 decimal digits, a dot and
    at most 4300 decimal digits has the layer that the first digits write
    and the head that the last digits write; with more than 4300 digits
    before the dot [get_layer] raises [ValueError], and with more than 4300
    after it [get_attention_head] does. *)
Theorem attention_convention :
  forall (ls hs : list nat),
    digits ls -> digits hs ->
    ((length ls <= 4300)%nat -> (length hs <= 4300)%nat ->
     get_layer ("a" ++ decimal ls ++ "." ++ decimal hs) = Ok (decimal_value ls)
     /\ get_attention_head ("a" ++ decimal ls ++ "." ++ decimal hs)
        = Ok (decimal_value hs)
     /\ sort_key ("a" ++ decimal ls ++ "." ++ decimal hs)
        = Ok (decimal_value ls, decimal_value hs))
    /\ ((4300 < length ls)%nat ->
        get_layer ("a" ++ decimal ls ++ "." ++ decimal hs) = Raise ValueError)
    /\ ((4300 < length hs)%nat ->
        get_attention_head ("a" ++ decimal ls ++ "." ++ decimal hs)
        = Raise ValueError).
Proof.
  intros ls hs Hls Hhs.
  assert (forall ds, digits ds -> Py.contains "."%char (decimal ds) = false)
    as Hfree.
  { intros ds Hds. apply decimal_free; [apply Hds|]. intros d Hd.
    now destruct (digit_char_facts d Hd) as (_ & _ & _ & _ & _ & ->). }
  change ("a" ++ decimal ls ++ "." ++ decimal hs)
    with (String "a" (decimal ls ++ String "." (decimal hs))).
  assert (get_layer (String "a" (decimal ls ++ String "." (decimal hs)))
          = Py.int (decimal ls)) as HL
    by now rewrite get_layer_a, (split_at _ _ _ (Hfree ls Hls)).
  assert (get_attention_head (String "a" (decimal ls ++ String "." (decimal hs)))
          = Py.int (decimal hs)) as HH.
  { rewrite get_attention_head_a.
    change (String "a" (decimal ls ++ String "." (decimal hs)))
      with (String "a" (decimal ls) ++ String "." (decimal hs)).
    rewrite split_at, (split_whole _ _ (Hfree hs Hhs)); [reflexivity|].
    cbn [Py.contains]. now rewrite (Hfree ls Hls). }
  rewrite HL, HH. split; [|split].
  - intros Hl Hh.
    pose proof (int_decimal_short ls Hls Hl) as Hil.
    pose proof (int_decimal_short hs Hhs Hh) as Hih.
    split; [exact Hil|]. split; [exact Hih|].
    unfold sort_key. rewrite HL, Hil. cbn [bind].
    rewrite startswith_cons, HH, Hih. reflexivity.
  - intros Hl. exact (int_decimal_long ls Hls Hl).
  - intros Hh. exact (int_decimal_long hs Hhs Hh).
Qed.

Lemma attention_convention_witness :
  digits [1; 0]%nat /\ digits [7]%nat
  /\ (length [1; 0]%nat <= 4300)%nat /\ (length [7]%nat <= 4300)%nat
  /\ get_layer "a10.7" = Ok 10
  /\ get_attention_head "a10.7" = Ok 7
  /\ sort_key "a10.7" = Ok (10, 7).
Proof.
  assert (digits [1; 0]%nat) as Hl
    by (split; [discriminate | repeat constructor]).
  assert (digits [7]%nat) as Hh
    by (split; [discriminate | repeat constructor]).
  assert (length [1; 0]%nat <= 4300)%nat as Ll by (simpl; lia).
  assert (length [7]%nat <= 4300)%nat as Lh by (simpl; lia).
  split; [exact Hl|]. split; [exact Hh|]. split; [exact Ll|].
  split; [exact Lh|].
  exact (proj1 (attention_convention [1; 0]%nat [7]%nat Hl Hh) Ll Lh).
Defined.

End LayerMore.

(** ** The exceptions of the layout *)

Module RaiseFacts.

Import MoreSpec LayoutSpec LayoutFacts.

Lemma int_raises s e : Py.int s = Raise e -> e = ValueError.
Proof.
  unfold Py.int.
  repeat match goal with
         | |- context [match ?x with _ => _ end] => destruct x
         end; congruence.
Qed.

Lemma split_nonempty sep s : Py.split sep s <> [].
Proof.
  induction s as [|c s IH]; simpl; [discriminate|].
  destruct (Ascii.eqb c sep); [discriminate|].
  destruct (Py.split sep s); [congruence | discriminate].
Qed.

Lemma item_last_returns {A} (l : list A) : l <> [] -> returns (Py.item_last l).
Proof.
  induction l as [|x l IH]; [congruence|]. intros _.
  destruct l as [|y l]; [now exists x|]. apply IH. discriminate.
Qed.

Lemma get_layer_raises node e : get_layer node = Raise e -> e = ValueError.
Proof.
  unfold get_layer.
  destruct (Py.startswith node "m").
  - pose proof (split_nonempty "-"%char (Py.tail1 node)).
    destruct (Py.split "-"%char (Py.tail1 node)); [congruence|].
    apply int_raises.
  - destruct (Py.startswith node "a"); [|discriminate].
    pose proof (split_nonempty "."%char (Py.tail1 node)).
    destruct (Py.split "."%char (Py.tail1 node)); [congruence|].
    apply int_raises.
Qed.

Lemma get_attention_head_raises node e :
  get_attention_head node = Raise e -> e = ValueError.
Proof.
  unfold get_attention_head.
  destruct (Py.startswith node "a"); [|discriminate].
  destruct (item_last_returns (Py.split "."%char node)) as [part ->];
    [apply split_nonempty|].
  apply int_raises.
Qed.

Lemma sort_key_raises node e : sort_key node = Raise e -> e = ValueError.
Proof.
  unfold sort_key. destruct (get_layer node) as [l|e0] eqn:HL; cbn [bind].
  - destruct (Py.startswith node "a"); [|discriminate].
    destruct (get_attention_head node) as [h|e1] eqn:HH; [discriminate|].
    intros [= <-]. eapply get_attention_head_raises; eauto.
  - intros [= <-]. eapply get_layer_raises; eauto.
Qed.

Lemma sorted_raises nodes e : sorted nodes = Raise e -> e = ValueError.
Proof.
  unfold sorted.
  assert (with_keys nodes = Raise e -> e = ValueError) as Hk.
  { induction nodes as [|x nodes IH]; simpl; [discriminate|].
    destruct (sort_key x) as [k|e0] eqn:Hx; cbn [bind].
    - destruct (with_keys nodes) as [kl|e1]; [discriminate|].
      intros [= <-]. now apply IH.
    - intros [= <-]. eapply sort_key_raises; eauto. }
  destruct (with_keys nodes) as [kl|e0]; [discriminate|].
  intros [= <-]. now apply Hk.
Qed.

Section Raising.

Context {R : Type} {AR : Arith R}.

Lemma layout_raises nodes (W H : R) e :
  layout nodes W H = Raise e ->
  e = ValueError \/ e = ZeroDivisionError
  \/ ((e = OverflowError \/ e = MemoryError)
      /\ ~ span_fits (list_room R) nodes).
Proof.
  intros Hl. destruct (sorted nodes) as [sn|e0] eqn:Hsn.
  - destruct nodes as [|n0 nodes'].
    + left. unfold layout in Hl. rewrite Hsn in Hl. cbn in Hl. congruence.
    + set (nodes := n0 :: nodes') in *.
      assert (forall n, In n nodes -> returns (sort_key n)) as Hkeys
        by (apply sorted_returns; now exists sn).
      destruct (layout_counting nodes) as
        (sn' & mn & mx & lc & lh & Hsn' & Hmn & Hmx & Hloop & Hw & Hinv);
        [discriminate | exact Hkeys|].
      destruct (Z.le_gt_cases (mx - mn + 1) (list_room R)) as [Hfit|Hbig].
      * rewrite (layout_after_counting _ W H _ _ _ _ _ Hsn' Hmn Hmx Hloop Hfit)
          in Hl.
        unfold py_div in Hl. destruct (Z.eqb_spec (sum lh) 0) as [Hz|Hz].
        -- right. left. cbn in Hl. congruence.
        -- exfalso. cbn [bind] in Hl. cbv zeta in Hl.
           match type of Hl with
           | bind (for_each (place_body ?env) ?st0 _) _ = _ =>
               destruct (place_loop_returns env sn' st0) as [st Hst]
           end.
           ++ simpl. unfold zeros. rewrite length_replicate. exact Hw.
           ++ simpl. unfold zeros. rewrite length_replicate. now destruct Hinv.
           ++ simpl. intros k c Hc. eapply counts_inv_counts; eauto.
           ++ rewrite Hst in Hl. discriminate Hl.
      * right. right. split.
        -- unfold layout in Hl. rewrite Hsn, Hmn, Hmx in Hl. cbn [bind] in Hl.
           unfold py_zeros at 1 in Hl. unfold list_room in Hbig.
           destruct (Z.ltb_spec ssize_max (mx - mn + 1));
             [cbn [bind] in Hl; left; congruence|].
           destruct (Z.ltb_spec (@list_capacity R AR) (mx - mn + 1));
             [cbn [bind] in Hl; right; congruence | lia].
        -- intros Hfit. pose proof (span_fits_range _ _ _ _ Hfit Hmn Hmx). lia.
  - left. unfold layout in Hl. rewrite Hsn in Hl. cbn in Hl.
    injection Hl as <-. eapply sorted_raises; eauto.
Qed.

(** X6: whatever the node list, the edges and the area, [create_elements]
    never raises [IndexError]: no index of [layer_counts], [layer_heights]
    or [attention_counts] is out of range.  What it raises is
    [ValueError], [ZeroDivisionError], or, only when the layers of the
    nodes lie in no range for which a list can be allocated,
    [OverflowError] or [MemoryError].  [get_layer] and
    [get_attention_head] raise nothing but [ValueError]. *)
Theorem create_elements_raises :
  forall (nodes : list string) (edges : list edge) (W H : R) (e : exn),
    (create_elements nodes edges W H = Raise e ->
     e <> IndexError
     /\ (e = ValueError \/ e = ZeroDivisionError
         \/ ((e = OverflowError \/ e = MemoryError)
             /\ ~ span_fits (list_room R) nodes)))
    /\ (forall node, get_layer node = Raise e -> e = ValueError)
    /\ (forall node, get_attention_head node = Raise e -> e = ValueError).
Proof.
  intros nodes edges W H e. split; [|split].
  - unfold create_elements.
    destruct (layout nodes W H) as [[env st]|e0] eqn:Hl; [discriminate|].
    intros [= <-]. pose proof (layout_raises _ _ _ _ Hl) as Hr.
    split; [|exact Hr].
    destruct Hr as [->|[->|[[->| ->] _]]]; discriminate.
  - intros node. apply get_layer_raises.
  - intros node. apply get_attention_head_raises.
Qed.

End Raising.

End RaiseFacts.

(** ** The shape of the element list *)

Module ShapeFacts.

Import MoreSpec LayoutSpec LayoutFacts.

Section Shape.

Context {R : Type} {AR : Arith R}.
Implicit Types (env : layout_env R) (st : place_state R).

(** The placing loop appends the element of each node, at the position
    of its layer and kind. *)
Lemma place_loop_placed_at env nodes : forall st st',
  (forall node L, In node nodes -> get_layer node = Ok L ->
                  min_layer env <= L) ->
  for_each (place_body env) st nodes = Ok st' ->
  exists new,
    elements st' = (elements st ++ map Node new)%list
    /\ Forall2 (placed_at env) nodes new.
Proof.
  induction nodes as [|n nodes IH]; intros st st' Hmin; cbn [for_each].
  - intros [= <-]. exists []. simpl. rewrite app_nil_r. split; [easy|constructor].
  - intros H. inv_bind H.
    apply place_body_inv in E as (L & x & y & ac' & HL & Hxy & ->).
    destruct (IH _ _ (fun node L0 Hin => Hmin node L0 (or_intror Hin)) H)
      as (new & Hel & Hpl).
    exists (node_to_element env n x y :: new). split.
    + rewrite Hel. simpl. now rewrite <- app_assoc.
    + constructor; [|exact Hpl]. exists L, x, y.
      split; [exact HL|]. split; [reflexivity|].
      apply place_xy_inv in Hxy; [|eapply Hmin; [now left | exact HL]].
      destruct Hxy as [(-> & -> & -> & _)
                      |[(Hne & Hm & -> & -> & _)|(Hne & Hm & -> & _)]].
      * split; [easy | congruence].
      * split; [congruence | easy].
      * split; [congruence|]. intros _. split; [reflexivity | congruence].
Qed.

Lemma placed_at_ids env sn new :
  Forall2 (placed_at env) sn new -> map node_id new = sn.
Proof.
  induction 1 as [|node n sn new (L & x & y & _ & -> & _) _ IH]; [reflexivity|].
  simpl. now rewrite IH.
Qed.

Lemma edge_elements_shape (new : list (node_element R)) (es : list edge) :
  edge_elements (map Node new ++ map (fun e => Edge (edge_to_element e)) es)%list
  = map edge_to_element es.
Proof.
  induction new as [|n new IH]; simpl.
  - induction es as [|e es IHe]; [reflexivity|].
    unfold edge_elements in *. simpl. f_equal. exact IHe.
  - exact IH.
Qed.

(** A successful run, with all that the later properties need. *)
Lemma create_elements_run edges nodes (W H : R) els :
  set_iteration edges nodes ->
  create_elements nodes edges W H = Ok els ->
  exists env sn mx new,
    sorted nodes = Ok sn
    /\ Permutation sn nodes
    /\ max_layer_of nodes = Ok mx
    /\ min_layer_of nodes = Ok (min_layer env)
    /\ graph_width env = W
    /\ total_layers env = sum (layer_heights env)
    /\ total_layers env <> 0
    /\ layer_height env = div H (of_int (total_layers env))
    /\ layers_within (min_layer env) (Z.to_nat (mx - min_layer env + 1)) sn
    /\ counts_inv (min_layer env) (Z.to_nat (mx - min_layer env + 1)) sn
         (layer_counts env) (layer_heights env)
    /\ els = (map Node new ++ map (fun e => Edge (edge_to_element e)) edges)%list
    /\ Forall2 (placed_at env) sn new.
Proof.
  intros Hit Hc.
  apply create_elements_inv in Hc as (env & st & Hl & ->).
  destruct (layout_inv _ _ _ _ _ Hl)
    as (sn & mn & mx & lc & lh & Hsn & Hmn & Hmx & Hcount & Hsum & Henv & Hpl).
  pose proof (sorted_layers_within _ _ _ _ Hsn Hmn Hmx) as Hw.
  pose proof (count_loop_inv _ _ _ _ _ Hcount Hw) as Hinv.
  assert (min_layer env = mn) as Hmin by now subst env.
  assert (forall node L, In node sn -> get_layer node = Ok L ->
                         min_layer env <= L) as Hlow.
  { intros node L Hin HL. destruct (Hw node Hin) as (L' & HL' & Hb).
    rewrite Hmin. assert (L' = L) by congruence. lia. }
  destruct (place_loop_placed_at env sn _ st Hlow Hpl) as (new & Hel & Hf).
  exists env, sn, mx, new. rewrite Hmin, Hel. subst env. simpl.
  split; [exact Hsn|]. split; [now apply sorted_perm|].
  split; [exact Hmx|]. split; [exact Hmn|]. split; [reflexivity|].
  split; [reflexivity|]. split; [exact Hsum|]. split; [reflexivity|].
  split; [exact Hw|]. split; [exact Hinv|]. split; [reflexivity | exact Hf].
Qed.

(** X7: a successful [create_elements] returns one node element for each
    member of the node set, in the order of [sorted], with pairwise
    different ids, followed by one edge element for each edge, in the order
    of [edges] and with duplicates kept. *)
Theorem create_elements_one_per_node_and_edge :
  forall (edges : list edge) (nodes : list string) (W H : R)
         (els : list (element R)),
    set_iteration edges nodes ->
    create_elements nodes edges W H = Ok els ->
    els = (map Node (node_elements els) ++ map Edge (edge_elements els))%list
    /\ sorted nodes = Ok (map node_id (node_elements els))
    /\ Permutation (map node_id (node_elements els)) (nodes_of edges)
    /\ NoDup (map node_id (node_elements els))
    /\ edge_elements els = map edge_to_element edges
    /\ length els = (length (nodes_of edges) + length edges)%nat.
Proof.
  intros edges nodes W H els Hit Hc.
  destruct (create_elements_run _ _ _ _ _ Hit Hc)
    as (env & sn & mx & new & Hsn & Hperm & _ & _ & _ & _ & _ & _ & _ & _
        & -> & Hf).
  rewrite node_elements_shape, edge_elements_shape, (placed_at_ids _ _ _ Hf).
  assert (Permutation sn (nodes_of edges)) as Hp
    by (etransitivity; [exact Hperm | exact Hit]).
  split; [now rewrite map_map|]. split; [exact Hsn|]. split; [exact Hp|].
  split; [rewrite Hp; apply nodes_of_NoDup|]. split; [reflexivity|].
  rewrite length_app, !length_map, <- (Permutation_length Hp).
  now rewrite <- (placed_at_ids _ _ _ Hf), length_map.
Qed.

(** X8: in a successful result, the source and the target of every edge
    element are ids of node elements of the same list, and the id of the
    edge element is the source, a dash and the target. *)
Theorem edge_elements_reference_nodes :
  forall (edges : list edge) (nodes : list string) (W H : R)
         (els : list (element R)) (e : edge_element),
    set_iteration edges nodes ->
    create_elements nodes edges W H = Ok els ->
    In (Edge e) els ->
    In (edge_source e) (map node_id (node_elements els))
    /\ In (edge_target e) (map node_id (node_elements els))
    /\ edge_id e = edge_source e ++ "-" ++ edge_target e
    /\ In (edge_source e, edge_target e) edges.
Proof.
  intros edges nodes W H els e Hit Hc Hin.
  destruct (create_elements_run _ _ _ _ _ Hit Hc)
    as (env & sn & mx & new & Hsn & Hperm & _ & _ & _ & _ & _ & _ & _ & _
        & -> & Hf).
  rewrite node_elements_shape, (placed_at_ids _ _ _ Hf).
  apply in_app_iff in Hin as [Hin|Hin];
    [apply in_map_iff in Hin as (n & Hn & _); discriminate|].
  apply in_map_iff in Hin as ([a b] & [= <-] & Hab). simpl.
  assert (forall x, In x (nodes_of edges) -> In x sn) as Hsub.
  { intros x Hx. apply (Permutation_in x (Permutation_sym Hperm)).
    apply (Permutation_in x (Permutation_sym Hit)). exact Hx. }
  split; [|split; [|split; [reflexivity | exact Hab]]].
  - apply Hsub, nodes_of_In. exists (a, b). split; [exact Hab | now left].
  - apply Hsub, nodes_of_In. exists (a, b). split; [exact Hab | now right].
Qed.

(** X9: the node elements of a successful result are in descending order
    of layer and, within a layer, of head: an element never comes before
    one of a higher layer, nor before one of the same layer and a higher
    head (the head of a node that does not start with [a] counting as
    -1). *)
Theorem node_elements_descending :
  forall (edges : list edge) (nodes : list string) (W H : R)
         (els : list (element R)) (i j : nat) (ni nj : node_element R),
    set_iteration edges nodes ->
    create_elements nodes edges W H = Ok els ->
    (i < j)%nat ->
    node_elements els !! i = Some ni ->
    node_elements els !! j = Some nj ->
    exists ki kj,
      sort_key (node_id ni) = Ok ki /\ sort_key (node_id nj) = Ok kj
      /\ (fst kj < fst ki \/ (fst kj = fst ki /\ snd kj <= snd ki)).
Proof.
  intros edges nodes W H els i j ni nj Hit Hc Hij Hi Hj.
  destruct (create_elements_run _ _ _ _ _ Hit Hc)
    as (env & sn & mx & new & Hsn & Hperm & _ & _ & _ & _ & _ & _ & _ & _
        & -> & Hf).
  rewrite node_elements_shape in Hi, Hj.
  pose proof (sorted_key_order _ _ Hsn) as Hs.
  rewrite <- (placed_at_ids _ _ _ Hf) in Hs.
  assert (map node_id new !! i = Some (node_id ni)) as Hi'.
  { change (map node_id new) with (node_id <$> new).
    now rewrite list_lookup_fmap, Hi. }
  assert (map node_id new !! j = Some (node_id nj)) as Hj'.
  { change (map node_id new) with (node_id <$> new).
    now rewrite list_lookup_fmap, Hj. }
  destruct (StronglySorted_lookup_lt _ _ Hs _ _ _ _ Hij Hi' Hj')
    as (ki & kj & Hki & Hkj & Hge).
  exists ki, kj. split; [exact Hki|]. split; [exact Hkj|].
  unfold key_lt in Hge. apply orb_false_iff in Hge as [H1 H2].
  apply Z.ltb_ge in H1. apply andb_false_iff in H2.
  destruct H2 as [H2%Z.eqb_neq | H2%Z.ltb_ge]; lia.
Qed.

End Shape.

Lemma node_lookup_In {R : Type} (els : list (element R)) i n :
  node_elements els !! i = Some n -> In (Node n) els.
Proof.
  intros H%list_elem_of_lookup_2. apply list_elem_of_omap in H as (e & He & E).
  destruct e as [m|m]; [|discriminate]. injection E as ->.
  now apply list_elem_of_In.
Qed.

(** The elements of [stack_edges]: the nodes in the order of the result,
    and the first edge. *)
Lemma stack_edges_run :
  exists els nr nm1 na nm0 e,
    create_elements (nodes_of stack_edges) stack_edges main_width main_height
    = Ok els
    /\ node_elements els !! 0%nat = Some nr
    /\ node_elements els !! 1%nat = Some nm1
    /\ node_elements els !! 2%nat = Some na
    /\ node_elements els !! 3%nat = Some nm0
    /\ node_id nr = "resid_post" /\ node_id nm1 = "m1-0"
    /\ node_id na = "a0.1" /\ node_id nm0 = "m0-0"
    /\ In (Edge e) els /\ edge_source e = "a0.1".
Proof.
  eexists _, _, _, _, _, _.
  split; [vm_compute; reflexivity|].
  do 4 (split; [reflexivity|]). do 4 (split; [reflexivity|]).
  split; [do 4 right; left; reflexivity | reflexivity].
Defined.

Lemma stack_edges_iteration : set_iteration stack_edges (nodes_of stack_edges).
Proof. unfold set_iteration. reflexivity. Defined.

Lemma create_elements_one_per_node_and_edge_witness :
  set_iteration stack_edges (nodes_of stack_edges)
  /\ exists els : list (element Q),
       create_elements (nodes_of stack_edges) stack_edges main_width main_height
       = Ok els
       /\ els = (map Node (node_elements els) ++ map Edge (edge_elements els))%list
       /\ sorted (nodes_of stack_edges) = Ok (map node_id (node_elements els))
       /\ Permutation (map node_id (node_elements els)) (nodes_of stack_edges)
       /\ NoDup (map node_id (node_elements els))
       /\ edge_elements els = map edge_to_element stack_edges
       /\ length els = (length (nodes_of stack_edges) + length stack_edges)%nat.
Proof.
  split; [exact stack_edges_iteration|].
  destruct stack_edges_run as (els & nr & nm1 & na & nm0 & e & Hc & _).
  exists els. split; [exact Hc|].
  exact (create_elements_one_per_node_and_edge stack_edges
           (nodes_of stack_edges) main_width main_height els
           stack_edges_iteration Hc).
Defined.

Lemma edge_elements_reference_nodes_witness :
  set_iteration stack_edges (nodes_of stack_edges)
  /\ exists (els : list (element Q)) e,
       create_elements (nodes_of stack_edges) stack_edges main_width main_height
       = Ok els
       /\ In (Edge e) els
       /\ edge_source e = "a0.1"
       /\ In (edge_source e) (map node_id (node_elements els))
       /\ In (edge_target e) (map node_id (node_elements els))
       /\ edge_id e = edge_source e ++ "-" ++ edge_target e
       /\ In (edge_source e, edge_target e) stack_edges.
Proof.
  split; [exact stack_edges_iteration|].
  destruct stack_edges_run
    as (els & nr & nm1 & na & nm0 & e & Hc & _ & _ & _ & _ & _ & _ & _ & _
        & He & Hs).
  exists els, e. split; [exact Hc|]. split; [exact He|]. split; [exact Hs|].
  exact (edge_elements_reference_nodes stack_edges (nodes_of stack_edges)
           main_width main_height els e stack_edges_iteration Hc He).
Defined.

Lemma node_elements_descending_witness :
  set_iteration stack_edges (nodes_of stack_edges)
  /\ (1 < 3)%nat
  /\ exists (els : list (element Q)) ni nj,
       create_elements (nodes_of stack_edges) stack_edges main_width main_height
       = Ok els
       /\ node_elements els !! 1%nat = Some ni
       /\ node_elements els !! 3%nat = Some nj
       /\ node_id ni = "m1-0" /\ node_id nj = "m0-0"
       /\ exists ki kj,
            sort_key (node_id ni) = Ok ki /\ sort_key (node_id nj) = Ok kj
            /\ (fst kj < fst ki \/ (fst kj = fst ki /\ snd kj <= snd ki)).
Proof.
  assert (1 < 3)%nat as Hlt by lia.
  split; [exact stack_edges_iteration|]. split; [exact Hlt|].
  destruct stack_edges_run
    as (els & nr & nm1 & na & nm0 & e & Hc & _ & H1 & _ & H3 & _ & E1 & _
        & E3 & _).
  exists els, nm1, nm0. split; [exact Hc|]. split; [exact H1|].
  split; [exact H3|]. split; [exact E1|]. split; [exact E3|].
  exact (node_elements_descending stack_edges (nodes_of stack_edges)
           main_width main_height els 1%nat 3%nat nm1 nm0
           stack_edges_iteration Hc Hlt H1 H3).
Defined.

End ShapeFacts.

(** ** The coordinates of stacked nodes *)

Module PositionFacts.

Import MoreSpec LayoutSpec LayoutFacts ShapeFacts.

Lemma sum_app l1 l2 : sum (l1 ++ l2)%list = sum l1 + sum l2.
Proof. induction l1 as [|x l1 IH]; simpl; [reflexivity | rewrite IH; lia]. Qed.

Lemma sum_take_seq (l : list Z) (f : nat -> Z) k :
  (forall j, (j < k)%nat -> l !! j = Some (f j)) ->
  sum (take k l) = sum (map f (seq 0 k)).
Proof.
  induction k as [|k IH]; intros Hl; [reflexivity|].
  rewrite (take_S_r l k (f k)) by (apply Hl; lia).
  rewrite seq_S, map_app, !sum_app, IH by (intros; apply Hl; lia).
  reflexivity.
Qed.

Lemma count_pos p l : 0 < count p l <-> exists x, In x l /\ p x = true.
Proof.
  induction l as [|x l IH]; simpl.
  - split; [lia | intros (y & [] & _)].
  - pose proof (count_nonneg p l). destruct (p x) eqn:Hp.
    + split; [intros _; exists x; auto | lia].
    + rewrite Z.add_0_l, IH. split.
      * intros (y & Hy & Hpy). exists y. auto.
      * intros (y & [<-|Hy] & Hpy); [congruence | exists y; auto].
Qed.

Lemma stacked_layers_In nodes L :
  In L (stacked_layers nodes)
  <-> exists node, In node nodes /\ get_layer node = Ok L /\ L <> 100.
Proof.
  unfold stacked_layers.
  rewrite <- list_elem_of_In, elem_of_remove_dups, list_elem_of_omap.
  split.
  - intros (node & Hin%list_elem_of_In & Hn). exists node.
    destruct (get_layer node) as [l|]; [|discriminate].
    destruct (Z.eqb_spec l 100); [discriminate|]. injection Hn as ->. easy.
  - intros (node & Hin & HL & Hne). exists node.
    split; [now apply list_elem_of_In|]. rewrite HL.
    now destruct (Z.eqb_spec L 100).
Qed.

Lemma stacked_layers_NoDup nodes : NoDup (stacked_layers nodes).
Proof. apply NoDup_remove_dups. Qed.

(** A layer has a height exactly when it is one of the stacked layers. *)
Lemma occupied_stacked sn nodes L :
  Permutation sn nodes ->
  (if 0 <? count (counted_at L) sn then 1 else 0)
  = (if existsb (Z.eqb L) (stacked_layers nodes) then 1 else 0).
Proof.
  intros Hperm.
  destruct (Z.ltb_spec 0 (count (counted_at L) sn)) as [Hpos|Hle].
  - apply count_pos in Hpos as (x & Hx & Hc).
    replace (existsb (Z.eqb L) (stacked_layers nodes)) with true; [reflexivity|].
    symmetry. apply existsb_exists. exists L. split; [|apply Z.eqb_refl].
    apply stacked_layers_In. exists x.
    split; [eapply Permutation_in; eauto|].
    unfold counted_at in Hc. apply andb_true_iff in Hc as [Hl Hne].
    apply layer_is_true in Hl. apply negb_true_iff, Z.eqb_neq in Hne. easy.
  - destruct (existsb (Z.eqb L) (stacked_layers nodes)) eqn:Hex; [|reflexivity].
    exfalso. apply existsb_exists in Hex as (L' & HL' & <-%Z.eqb_eq).
    apply stacked_layers_In in HL' as (x & Hx & HL & Hne).
    assert (0 < count (counted_at L) sn); [|lia].
    apply count_pos. exists x.
    split; [eapply Permutation_in; [symmetry|]; eauto|].
    rewrite (counted_at_layer _ _ _ HL), Z.eqb_refl.
    now destruct (Z.eqb_spec L 100).
Qed.

Lemma filter_below_succ (D : list Z) a :
  NoDup D ->
  length (List.filter (fun l => l <? a + 1) D)
  = (length (List.filter (fun l => (l <? a)%Z) D)
     + (if existsb (Z.eqb a) D then 1 else 0))%nat.
Proof.
  induction 1 as [|x D Hx Hnd IH]; [reflexivity|]. simpl.
  destruct (Z.ltb_spec x (a + 1)), (Z.ltb_spec x a), (Z.eqb_spec a x);
    try lia; simpl; rewrite IH; try lia.
  subst x. replace (existsb (Z.eqb a) D) with false; [lia|].
  symmetry. apply not_true_iff_false. intros (y & Hy & <-%Z.eqb_eq)%existsb_exists.
  apply Hx. now apply list_elem_of_In.
Qed.

Lemma filter_none (D : list Z) b :
  (forall x, In x D -> b <= x) -> List.filter (fun l => l <? b) D = [].
Proof.
  induction D as [|x D IH]; intros Hb; [reflexivity|]. simpl.
  pose proof (Hb x (or_introl eq_refl)). destruct (Z.ltb_spec x b); [lia|].
  apply IH. intros; apply Hb; now right.
Qed.

Lemma below_count (D : list Z) mn k :
  NoDup D -> (forall x, In x D -> mn <= x) ->
  sum (map (fun j => if existsb (Z.eqb (mn + Z.of_nat j)) D then 1 else 0)
           (seq 0 k))
  = Z.of_nat (length (List.filter (fun l => l <? mn + Z.of_nat k) D)).
Proof.
  intros Hnd Hlow. induction k as [|k IH].
  - rewrite filter_none; [reflexivity|]. intros x Hx. specialize (Hlow x Hx). lia.
  - rewrite seq_S, map_app, sum_app, IH. simpl.
    replace (mn + Z.of_nat (S k)) with (mn + Z.of_nat k + 1) by lia.
    rewrite (filter_below_succ D (mn + Z.of_nat k) Hnd).
    destruct (existsb _ D); lia.
Qed.

Lemma filter_all (D : list Z) b :
  (forall x, In x D -> x < b) -> List.filter (fun l => l <? b) D = D.
Proof.
  induction D as [|x D IH]; intros Hb; [reflexivity|]. simpl.
  pose proof (Hb x (or_introl eq_refl)). destruct (Z.ltb_spec x b); [|lia].
  f_equal. apply IH. intros; apply Hb; now right.
Qed.

Section Stack.

Context {R : Type} {AR : Arith R}.

(** In a successful run, [total_layers] is the number of stacked layers
    and the heights before a layer add up to the number of stacked layers
    below it. *)
Lemma stack_counts edges nodes (W H : R) els :
  set_iteration edges nodes ->
  create_elements nodes edges W H = Ok els ->
  exists env sn new,
    Permutation sn nodes
    /\ graph_width env = W
    /\ total_layers env = layer_total nodes
    /\ layer_total nodes <> 0
    /\ layer_height env = div H (of_int (layer_total nodes))
    /\ (forall node L, In node nodes -> get_layer node = Ok L ->
          stack_y env L = layer_y H nodes L)
    /\ els = (map Node new ++ map (fun e => Edge (edge_to_element e)) edges)%list
    /\ Forall2 (placed_at env) sn new.
Proof.
  intros Hit Hc.
  destruct (create_elements_run _ _ _ _ _ Hit Hc)
    as (env & sn & mx & new & Hsn & Hperm & Hmx & Hmn & HW & Htot & Hne & Hlh
        & Hw & Hinv & Hels & Hf).
  set (mn := min_layer env) in *. set (len := Z.to_nat (mx - mn + 1)) in *.
  destruct Hinv as (Hlc & Hlen & Hk).
  assert (forall x, In x (stacked_layers nodes) -> mn <= x <= mx) as Hb.
  { intros x (node & Hin & HL & _)%stacked_layers_In.
    eapply layer_bounds; eauto. }
  assert (forall k, (k <= len)%nat ->
            sum (take k (layer_heights env))
            = Z.of_nat (length (List.filter (fun l => l <? mn + Z.of_nat k)
                                  (stacked_layers nodes)))) as Htake.
  { intros k Hkl.
    rewrite (sum_take_seq _
               (fun j => if existsb (Z.eqb (mn + Z.of_nat j))
                                    (stacked_layers nodes) then 1 else 0)).
    - apply below_count; [apply stacked_layers_NoDup|]. intros x Hx.
      now apply Hb.
    - intros j Hj. destruct (Hk j) as [_ Hh]; [lia|].
      rewrite Hh. f_equal. now apply occupied_stacked. }
  assert (total_layers env = layer_total nodes) as HT.
  { rewrite Htot, <- (take_ge (layer_heights env) len) by lia.
    rewrite (Htake len) by lia.
    unfold layer_total. rewrite filter_all; [reflexivity|].
    intros x Hx. specialize (Hb x Hx). lia. }
  exists env, sn, new. split; [exact Hperm|]. split; [exact HW|].
  split; [exact HT|]. split; [now rewrite <- HT|].
  split; [now rewrite Hlh, HT|]. split; [|split; [exact Hels | exact Hf]].
  intros node L Hin HL.
  pose proof (layer_bounds _ _ _ Hmn Hmx _ _ Hin HL) as HbL. fold mn in HbL.
  unfold stack_y, layer_y, slice_to. fold mn.
  destruct (Z.leb_spec 0 (L - mn)); [|lia].
  rewrite (Htake (Z.to_nat (L - mn))) by lia.
  replace (mn + Z.of_nat (Z.to_nat (L - mn))) with L by lia.
  now rewrite HT, Hlh, HT.
Qed.

(** The position of the element of a stacked node. *)
Lemma node_position_stacked edges nodes (W H : R) els n L :
  set_iteration edges nodes ->
  create_elements nodes edges W H = Ok els ->
  In (Node n) els ->
  get_layer (node_id n) = Ok L ->
  L <> 100 ->
  In (node_id n) nodes
  /\ (Py.startswith (node_id n) "m" = true ->
      pos_x (node_position n) = mul W (lit (5 # 100)))
  /\ (Py.contains "H"%char (node_id n) = false ->
      pos_y (node_position n) = layer_y H nodes L)
  /\ (Py.contains "H"%char (node_id n) = true ->
      pos_y (node_position n)
      = sub (layer_y H nodes L) (quarter_unit H nodes)).
Proof.
  intros Hit Hc Hin HL Hne.
  destruct (stack_counts _ _ _ _ _ Hit Hc)
    as (env & sn & new & Hperm & HW & HT & _ & Hlh & Hy & -> & Hf).
  apply In_Node_app in Hin.
  assert (exists node, In node sn /\ placed_at env node n)
    as (node & Hnode & L' & x & y & HL' & -> & _ & Hpos).
  { clear -Hf Hin. induction Hf as [|node m sn new Hp _ IH]; [easy|].
    destruct Hin as [->|Hin]; [exists node; split; [now left | exact Hp]|].
    destruct (IH Hin) as (node' & Hin' & Hp'). exists node'. split; [now right|easy]. }
  simpl in HL. assert (L' = L) as -> by congruence.
  assert (In node nodes) as Hnodes by (eapply Permutation_in; eauto).
  destruct (Hpos Hne) as [-> Hx]. simpl.
  rewrite (Hy node L Hnodes HL').
  split; [exact Hnodes|].
  split; [intros Hm; rewrite (Hx Hm), HW; reflexivity|].
  unfold shift_H, quarter_unit. rewrite Hlh.
  split; intros ->; reflexivity.
Qed.

(** X10: in a successful result, the element of a node whose layer [L] is
    not 100 has y = (T - B - 0.5) * (H / T), where [T] counts the different
    layers other than 100 that hold a node and [B] those of them that lie
    below [L], less a quarter of [H / T] when the identifier contains [H];
    and x = 0.05 W when the identifier starts with [m].  Layers without
    nodes take no room. *)
Theorem stacked_node_position :
  forall (edges : list edge) (nodes : list string) (W H : R)
         (els : list (element R)) (n : node_element R) (L : Z),
    set_iteration edges nodes ->
    create_elements nodes edges W H = Ok els ->
    In (Node n) els ->
    get_layer (node_id n) = Ok L ->
    L <> 100 ->
    (Py.startswith (node_id n) "m" = true ->
     pos_x (node_position n) = mul W (lit (5 # 100)))
    /\ (Py.contains "H"%char (node_id n) = false ->
        pos_y (node_position n) = layer_y H nodes L)
    /\ (Py.contains "H"%char (node_id n) = true ->
        pos_y (node_position n)
        = sub (layer_y H nodes L) (quarter_unit H nodes)).
Proof.
  intros edges nodes W H els n L Hit Hc Hin HL Hne.
  now destruct (node_position_stacked _ _ _ _ _ _ _ Hit Hc Hin HL Hne)
    as (_ & Hx).
Qed.

Lemma single_stacked_layer (D : list Z) L0 :
  NoDup D -> In L0 D -> (forall x, In x D -> x = L0) -> D = [L0].
Proof.
  intros Hnd Hin Hall. destruct D as [|x D]; [easy|].
  assert (x = L0) as -> by (apply Hall; now left).
  apply NoDup_cons in Hnd as [Hx _]. destruct D as [|y D]; [reflexivity|].
  exfalso. apply Hx. assert (y = L0) as -> by (apply Hall; right; now left).
  apply list_elem_of_In. now left.
Qed.

(** X11: when all the nodes whose layer is not 100 share one layer, a
    successful result has [total_layers] = 1 and every such node whose
    identifier does not contain [H] is at y = (1 - 0.5) * (H / 1), the
    middle of the area. *)
Theorem single_layer_centered :
  forall (edges : list edge) (nodes : list string) (W H : R)
         (els : list (element R)) (n : node_element R) (L0 : Z),
    set_iteration edges nodes ->
    create_elements nodes edges W H = Ok els ->
    (forall node L, In node nodes -> get_layer node = Ok L ->
                    L = 100 \/ L = L0) ->
    In (Node n) els ->
    get_layer (node_id n) = Ok L0 ->
    L0 <> 100 ->
    layer_total nodes = 1
    /\ (Py.contains "H"%char (node_id n) = false ->
        pos_y (node_position n)
        = mul (sub (of_int 1) (lit (5 # 10))) (div H (of_int 1))).
Proof.
  intros edges nodes W H els n L0 Hit Hc Hone Hin HL Hne.
  destruct (node_position_stacked _ _ _ _ _ _ _ Hit Hc Hin HL Hne)
    as (Hnodes & _ & Hy & _).
  assert (stacked_layers nodes = [L0]) as HD.
  { apply single_stacked_layer; [apply stacked_layers_NoDup| |].
    - apply stacked_layers_In. exists (node_id n). easy.
    - intros x (node & Hn & Hx & Hx100)%stacked_layers_In.
      destruct (Hone node x Hn Hx); [contradiction | assumption]. }
  assert (layer_total nodes = 1) as HT by (unfold layer_total; now rewrite HD).
  split; [exact HT|]. intros HH. rewrite (Hy HH).
  unfold layer_y, layers_below. rewrite HT, HD. simpl.
  now rewrite Z.ltb_irrefl.
Qed.

End Stack.

Lemma stacked_node_position_witness :
  set_iteration stack_edges (nodes_of stack_edges)
  /\ 0 <> 100
  /\ exists (els : list (element Q)) n,
       create_elements (nodes_of stack_edges) stack_edges main_width main_height
       = Ok els
       /\ In (Node n) els
       /\ get_layer (node_id n) = Ok 0
       /\ (Py.startswith (node_id n) "m" = true ->
           pos_x (node_position n) = mul main_width (lit (5 # 100)))
       /\ (Py.contains "H"%char (node_id n) = false ->
           pos_y (node_position n)
           = layer_y main_height (nodes_of stack_edges) 0)
       /\ (Py.contains "H"%char (node_id n) = true ->
           pos_y (node_position n)
           = sub (layer_y main_height (nodes_of stack_edges) 0)
                 (quarter_unit main_height (nodes_of stack_edges))).
Proof.
  assert (0 <> 100) as Hne by lia.
  split; [exact stack_edges_iteration|]. split; [exact Hne|].
  destruct stack_edges_run
    as (els & nr & nm1 & na & nm0 & e & Hc & _ & _ & _ & H3 & _ & _ & _
        & E3 & _).
  assert (In (Node nm0) els) as Hin by exact (node_lookup_In els 3 nm0 H3).
  assert (get_layer (node_id nm0) = Ok 0) as HL by (rewrite E3; reflexivity).
  exists els, nm0. split; [exact Hc|]. split; [exact Hin|]. split; [exact HL|].
  exact (stacked_node_position stack_edges (nodes_of stack_edges)
           main_width main_height els nm0 0 stack_edges_iteration Hc Hin HL Hne).
Defined.

(** The elements of [demo_edges] and its MLP node. *)
Lemma demo_edges_run :
  exists els n,
    create_elements (nodes_of demo_edges) demo_edges main_width main_height
    = Ok els
    /\ node_elements els !! 2%nat = Some n
    /\ node_id n = "m0-0".
Proof.
  eexists _, _. split; [vm_compute; reflexivity|].
  split; reflexivity.
Defined.

Lemma single_layer_centered_witness :
  set_iteration demo_edges (nodes_of demo_edges)
  /\ (forall node L, In node (nodes_of demo_edges) -> get_layer node = Ok L ->
                     L = 100 \/ L = 0)
  /\ 0 <> 100
  /\ exists (els : list (element Q)) n,
       create_elements (nodes_of demo_edges) demo_edges main_width main_height
       = Ok els
       /\ In (Node n) els
       /\ get_layer (node_id n) = Ok 0
       /\ layer_total (nodes_of demo_edges) = 1
       /\ (Py.contains "H"%char (node_id n) = false ->
           pos_y (node_position n)
           = mul (sub (of_int 1) (lit (5 # 10))) (div main_height (of_int 1))).
Proof.
  assert (set_iteration demo_edges (nodes_of demo_edges)) as Hit
    by (unfold set_iteration; reflexivity).
  assert (forall node L, In node (nodes_of demo_edges) ->
                         get_layer node = Ok L -> L = 100 \/ L = 0) as Hall.
  { intros node L Hin HL. vm_compute in Hin.
    destruct Hin as [<-|[<-|[<-|[]]]]; vm_compute in HL;
      injection HL as <-; lia. }
  assert (0 <> 100) as Hne by lia.
  split; [exact Hit|]. split; [exact Hall|]. split; [exact Hne|].
  destruct demo_edges_run as (els & n & Hc & H2 & E2).
  assert (In (Node n) els) as Hin by exact (node_lookup_In els 2 n H2).
  assert (get_layer (node_id n) = Ok 0) as HL by (rewrite E2; reflexivity).
  exists els, n. split; [exact Hc|]. split; [exact Hin|]. split; [exact HL|].
  exact (single_layer_centered demo_edges (nodes_of demo_edges)
           main_width main_height els n 0 Hit Hc Hall Hin HL Hne).
Defined.

End PositionFacts.

(** ** The bands of the stack and the ranks of the attention nodes *)

Module CanvasFacts.

Import MoreSpec LayoutSpec LayoutFacts ShapeFacts PositionFacts.

Lemma below_le (D : list Z) L1 L2 :
  L1 <= L2 ->
  (length (List.filter (fun l => Z.ltb l L1) D)
   <= length (List.filter (fun l => Z.ltb l L2) D))%nat.
Proof.
  intros HL. induction D as [|x D IH]; simpl; [lia|].
  destruct (Z.ltb_spec x L1), (Z.ltb_spec x L2); simpl; lia.
Qed.

Lemma below_lt (D : list Z) L1 L2 :
  In L1 D -> L1 < L2 ->
  (length (List.filter (fun l => Z.ltb l L1) D)
   < length (List.filter (fun l => Z.ltb l L2) D))%nat.
Proof.
  intros Hin HL. induction D as [|x D IH]; [easy|]. simpl.
  pose proof (below_le D L1 L2 ltac:(lia)).
  destruct Hin as [->|Hin].
  - destruct (Z.ltb_spec L1 L1), (Z.ltb_spec L1 L2); simpl; lia.
  - specialize (IH Hin).
    destruct (Z.ltb_spec x L1), (Z.ltb_spec x L2); simpl; lia.
Qed.

Lemma below_total (D : list Z) L :
  In L D ->
  (length (List.filter (fun l => Z.ltb l L) D) < length D)%nat.
Proof.
  intros Hin. induction D as [|x D IH]; [easy|]. simpl.
  assert (length (List.filter (fun l => Z.ltb l L) D) <= length D)%nat
    by apply filter_length_le.
  destruct Hin as [->|Hin].
  - destruct (Z.ltb_spec L L); simpl; lia.
  - specialize (IH Hin). destruct (Z.ltb_spec x L); simpl; lia.
Qed.

(** The rank of a stacked layer, counted from the top: between 1 and the
    number of stacked layers, and smaller for a higher layer. *)
Lemma rank_bounds nodes L :
  In L (stacked_layers nodes) ->
  1 <= layer_total nodes - layers_below L nodes <= layer_total nodes.
Proof.
  intros Hin. unfold layer_total, layers_below.
  pose proof (below_total _ _ Hin). lia.
Qed.

Lemma rank_decreases nodes L1 L2 :
  In L1 (stacked_layers nodes) -> L1 < L2 ->
  layer_total nodes - layers_below L2 nodes + 1
  <= layer_total nodes - layers_below L1 nodes.
Proof.
  intros Hin HL. unfold layers_below.
  pose proof (below_lt _ _ _ Hin HL). lia.
Qed.

Section Ranks.

Context {R : Type} {AR : Arith R}.

(** A stacked node is drawn in the band of the rank of its layer. *)
Lemma stacked_node_at_rank edges nodes (W H : R) els n L :
  set_iteration edges nodes ->
  create_elements nodes edges W H = Ok els ->
  In (Node n) els ->
  get_layer (node_id n) = Ok L ->
  L <> 100 ->
  In L (stacked_layers nodes)
  /\ at_rank H nodes (layer_total nodes - layers_below L nodes) n.
Proof.
  intros Hit Hc Hin HL Hne.
  destruct (node_position_stacked _ _ _ _ _ _ _ Hit Hc Hin HL Hne)
    as (Hnodes & _ & Hy0 & Hy1).
  split; [apply stacked_layers_In; exists (node_id n); easy|].
  unfold at_rank. destruct (Py.contains "H"%char (node_id n)).
  - exact (Hy1 eq_refl).
  - exact (Hy0 eq_refl).
Qed.

(** X12: of two nodes whose layers are not 100, the one of the higher
    layer is drawn in a band of strictly smaller rank: their y are
    (r - 0.5) (H / T), less a quarter of H / T for an identifier that
    contains [H], with integers 1 <= r2 < r1 <= T for the layers
    L1 < L2, whatever the arithmetic of the coordinates. *)
Theorem higher_layer_smaller_rank :
  forall (edges : list edge) (nodes : list string) (W H : R)
         (els : list (element R)) (n1 n2 : node_element R) (L1 L2 : Z),
    set_iteration edges nodes ->
    create_elements nodes edges W H = Ok els ->
    In (Node n1) els -> In (Node n2) els ->
    get_layer (node_id n1) = Ok L1 -> get_layer (node_id n2) = Ok L2 ->
    L1 <> 100 -> L2 <> 100 ->
    L1 < L2 ->
    exists r1 r2 : Z,
      1 <= r2 /\ r2 < r1 /\ r1 <= layer_total nodes
      /\ at_rank H nodes r1 n1 /\ at_rank H nodes r2 n2.
Proof.
  intros edges nodes W H els n1 n2 L1 L2 Hit Hc Hin1 Hin2 HL1 HL2 H1 H2 Hlt.
  destruct (stacked_node_at_rank _ _ _ _ _ _ _ Hit Hc Hin1 HL1 H1) as [HD1 Hr1].
  destruct (stacked_node_at_rank _ _ _ _ _ _ _ Hit Hc Hin2 HL2 H2) as [HD2 Hr2].
  pose proof (rank_decreases nodes L1 L2 HD1 Hlt) as Hdec.
  pose proof (rank_bounds nodes L1 HD1) as Hb1.
  pose proof (rank_bounds nodes L2 HD2) as Hb2.
  exists (layer_total nodes - layers_below L1 nodes),
         (layer_total nodes - layers_below L2 nodes).
  split; [lia|]. split; [lia|]. split; [lia|]. split; assumption.
Qed.

(** X13: every node whose layer [L] is not 100 is drawn in one of the [T]
    bands of the stack: its y is (r - 0.5) (H / T), less a quarter of H / T
    for an identifier that contains [H], with the integer rank
    r = T - B between 1 and T, where [T] counts the stacked layers and [B]
    those below [L]. *)
Theorem stacked_node_rank :
  forall (edges : list edge) (nodes : list string) (W H : R)
         (els : list (element R)) (n : node_element R) (L : Z),
    set_iteration edges nodes ->
    create_elements nodes edges W H = Ok els ->
    In (Node n) els ->
    get_layer (node_id n) = Ok L ->
    L <> 100 ->
    let r := layer_total nodes - layers_below L nodes in
    1 <= r /\ r <= layer_total nodes
    /\ 0 <= layers_below L nodes
    /\ at_rank H nodes r n.
Proof.
  intros edges nodes W H els n L Hit Hc Hin HL Hne r.
  destruct (stacked_node_at_rank _ _ _ _ _ _ _ Hit Hc Hin HL Hne) as [HD Hr].
  pose proof (rank_bounds nodes L HD) as Hb. fold r in Hb.
  split; [lia|]. split; [lia|]. split; [unfold layers_below; lia | exact Hr].
Qed.

(** X14: an attention node of a layer [L] other than 100 has
    x = 0.85 W - k (0.8 W) / (c + 1) for an integer [k] between 1 and the
    number of attention nodes of its layer, which is at most the number
    [c] of all the nodes of that layer; whatever the arithmetic of the
    coordinates. *)
Theorem attention_node_x_by_rank :
  forall (edges : list edge) (nodes : list string) (W H : R)
         (els : list (element R)) (n : node_element R) (L : Z),
    set_iteration edges nodes ->
    create_elements nodes edges W H = Ok els ->
    In (Node n) els ->
    get_layer (node_id n) = Ok L ->
    L <> 100 ->
    Py.startswith (node_id n) "m" = false ->
    exists k,
      1 <= k /\ k <= count (attention_at L) nodes
      /\ count (attention_at L) nodes <= count (counted_at L) nodes
      /\ pos_x (node_position n)
         = attention_x W (count (counted_at L) nodes) k.
Proof.
  intros edges nodes W H els n L Hit Hc Hin HL Hne Hm.
  destruct (attention_xs_formula _ _ _ _ _ L Hit Hc Hne) as [Hxs Hlen].
  assert (attention_at L (node_id n) = true) as Hat.
  { rewrite (attention_at_layer _ _ _ HL), Hm, Z.eqb_refl.
    now destruct (Z.eqb_spec L 100). }
  assert (In (pos_x (node_position n)) (attention_xs L els)) as Hx.
  { unfold attention_xs. apply in_map_iff. exists n. split; [reflexivity|].
    apply filter_In. split; [|exact Hat].
    apply list_elem_of_In, list_elem_of_omap. exists (Node n).
    split; [now apply list_elem_of_In | reflexivity]. }
  apply list_elem_of_In, list_elem_of_lookup_1 in Hx as [i Hi].
  pose proof (lookup_lt_Some _ _ _ Hi) as Hilt.
  rewrite Hxs in Hi. apply map_lookup_Some in Hi as (r & Hr & Hxr).
  apply ranks_lookup in Hr as ->.
  exists (0 + Z.of_nat (S i)). split; [lia|]. split; [lia|].
  split; [|exact Hxr].
  apply count_le, attention_at_counted.
Qed.

End Ranks.

Lemma higher_layer_smaller_rank_witness :
  set_iteration stack_edges (nodes_of stack_edges)
  /\ 0 <> 100 /\ 1 <> 100 /\ 0 < 1
  /\ exists (els : list (element Q)) n1 n2,
       create_elements (nodes_of stack_edges) stack_edges main_width main_height
       = Ok els
       /\ In (Node n1) els /\ In (Node n2) els
       /\ get_layer (node_id n1) = Ok 0 /\ get_layer (node_id n2) = Ok 1
       /\ exists r1 r2 : Z,
            1 <= r2 /\ r2 < r1 /\ r1 <= layer_total (nodes_of stack_edges)
            /\ at_rank main_height (nodes_of stack_edges) r1 n1
            /\ at_rank main_height (nodes_of stack_edges) r2 n2.
Proof.
  assert (0 <> 100) as Hne0 by lia.
  assert (1 <> 100) as Hne1 by lia.
  assert (0 < 1) as Hlt by lia.
  split; [exact stack_edges_iteration|].
  split; [exact Hne0|]. split; [exact Hne1|]. split; [exact Hlt|].
  destruct stack_edges_run
    as (els & nr & nm1 & na & nm0 & e & Hc & _ & H1 & _ & H3 & _ & E1 & _
        & E3 & _).
  assert (In (Node nm0) els) as I0 by exact (node_lookup_In els 3 nm0 H3).
  assert (In (Node nm1) els) as I1 by exact (node_lookup_In els 1 nm1 H1).
  assert (get_layer (node_id nm0) = Ok 0) as L0 by (rewrite E3; reflexivity).
  assert (get_layer (node_id nm1) = Ok 1) as L1 by (rewrite E1; reflexivity).
  exists els, nm0, nm1. split; [exact Hc|]. split; [exact I0|].
  split; [exact I1|]. split; [exact L0|]. split; [exact L1|].
  exact (higher_layer_smaller_rank stack_edges (nodes_of stack_edges)
           main_width main_height els nm0 nm1 0 1 stack_edges_iteration Hc
           I0 I1 L0 L1 Hne0 Hne1 Hlt).
Defined.

Lemma stacked_node_rank_witness :
  set_iteration stack_edges (nodes_of stack_edges)
  /\ 1 <> 100
  /\ exists (els : list (element Q)) n,
       create_elements (nodes_of stack_edges) stack_edges main_width main_height
       = Ok els
       /\ In (Node n) els
       /\ get_layer (node_id n) = Ok 1
       /\ 1 <= layer_total (nodes_of stack_edges)
               - layers_below 1 (nodes_of stack_edges)
       /\ layer_total (nodes_of stack_edges)
          - layers_below 1 (nodes_of stack_edges)
          <= layer_total (nodes_of stack_edges)
       /\ 0 <= layers_below 1 (nodes_of stack_edges)
       /\ at_rank main_height (nodes_of stack_edges)
            (layer_total (nodes_of stack_edges)
             - layers_below 1 (nodes_of stack_edges)) n.
Proof.
  assert (1 <> 100) as Hne1 by lia.
  split; [exact stack_edges_iteration|]. split; [exact Hne1|].
  destruct stack_edges_run
    as (els & nr & nm1 & na & nm0 & e & Hc & _ & H1 & _ & _ & _ & E1 & _).
  assert (In (Node nm1) els) as I1 by exact (node_lookup_In els 1 nm1 H1).
  assert (get_layer (node_id nm1) = Ok 1) as L1 by (rewrite E1; reflexivity).
  exists els, nm1. split; [exact Hc|]. split; [exact I1|]. split; [exact L1|].
  exact (stacked_node_rank stack_edges (nodes_of stack_edges)
           main_width main_height els nm1 1 stack_edges_iteration Hc I1 L1
           Hne1).
Defined.

Lemma attention_node_x_by_rank_witness :
  set_iteration stack_edges (nodes_of stack_edges)
  /\ 0 <> 100
  /\ exists (els : list (element Q)) n,
       create_elements (nodes_of stack_edges) stack_edges main_width main_height
       = Ok els
       /\ In (Node n) els
       /\ node_id n = "a0.1"
       /\ exists k,
            1 <= k /\ k <= count (attention_at 0) (nodes_of stack_edges)
            /\ count (attention_at 0) (nodes_of stack_edges)
               <= count (counted_at 0) (nodes_of stack_edges)
            /\ pos_x (node_position n)
               = attention_x main_width
                   (count (counted_at 0) (nodes_of stack_edges)) k.
Proof.
  assert (0 <> 100) as Hne0 by lia.
  split; [exact stack_edges_iteration|]. split; [exact Hne0|].
  destruct stack_edges_run
    as (els & nr & nm1 & na & nm0 & e & Hc & _ & _ & H2 & _ & _ & _ & E2 & _).
  assert (In (Node na) els) as I2 by exact (node_lookup_In els 2 na H2).
  assert (get_layer (node_id na) = Ok 0) as L2 by (rewrite E2; reflexivity).
  assert (Py.startswith (node_id na) "m" = false) as Hm
    by (rewrite E2; reflexivity).
  exists els, na. split; [exact Hc|]. split; [exact I2|]. split; [exact E2|].
  exact (attention_node_x_by_rank stack_edges (nodes_of stack_edges)
           main_width main_height els na 0 stack_edges_iteration Hc I2 L2
           Hne0 Hm).
Defined.

End CanvasFacts.

(** ** Independence of the iteration order of the node set *)

Module OrderFacts.

Import LayoutSpec MoreSpec LayoutFacts RaiseFacts.

Lemma py_min_perm l1 l2 : Permutation l1 l2 -> py_min l1 = py_min l2.
Proof.
  intros Hp. destruct l1 as [|h1 t1], l2 as [|h2 t2].
  - reflexivity.
  - now apply Permutation_nil in Hp.
  - symmetry in Hp. now apply Permutation_nil in Hp.
  - simpl. f_equal.
    destruct (foldl_min_le h1 t1) as [A1 B1], (foldl_min_le h2 t2) as [A2 B2].
    pose proof (foldl_min_In h1 t1) as I1.
    pose proof (foldl_min_In h2 t2) as I2.
    apply (Permutation_in _ Hp) in I1.
    apply (Permutation_in _ (Permutation_sym Hp)) in I2.
    assert (foldl Z.min h2 t2 <= foldl Z.min h1 t1)
      by (destruct I1 as [<-|I1]; auto).
    assert (foldl Z.min h1 t1 <= foldl Z.min h2 t2)
      by (destruct I2 as [<-|I2]; auto).
    lia.
Qed.

Lemma py_max_perm l1 l2 : Permutation l1 l2 -> py_max l1 = py_max l2.
Proof.
  intros Hp. destruct l1 as [|h1 t1], l2 as [|h2 t2].
  - reflexivity.
  - now apply Permutation_nil in Hp.
  - symmetry in Hp. now apply Permutation_nil in Hp.
  - simpl. f_equal.
    destruct (foldl_max_ge h1 t1) as [A1 B1], (foldl_max_ge h2 t2) as [A2 B2].
    pose proof (foldl_max_In h1 t1) as I1.
    pose proof (foldl_max_In h2 t2) as I2.
    apply (Permutation_in _ Hp) in I1.
    apply (Permutation_in _ (Permutation_sym Hp)) in I2.
    assert (foldl Z.max h1 t1 <= foldl Z.max h2 t2)
      by (destruct I1 as [<-|I1]; auto).
    assert (foldl Z.max h2 t2 <= foldl Z.max h1 t1)
      by (destruct I2 as [<-|I2]; auto).
    lia.
Qed.

Lemma finite_layers_raises nodes e :
  finite_layers nodes = Raise e -> e = ValueError.
Proof.
  induction nodes as [|n nodes IH]; simpl; [discriminate|].
  destruct (get_layer n) as [l|e0] eqn:Hn; cbn [bind ne_neg_inf].
  - destruct (finite_layers nodes); [discriminate|].
    intros [= <-]. now apply IH.
  - intros [= <-]. eapply get_layer_raises; eauto.
Qed.

Lemma finite_layers_map nodes ls :
  finite_layers nodes = Ok ls ->
  ls = map (fun n => match get_layer n with Ok l => l | Raise _ => 0 end) nodes
  /\ forall n, In n nodes -> returns (get_layer n).
Proof.
  intros H%finite_layers_Ok.
  induction H as [|n l nodes ls Hn _ [IH1 IH2]]; [split; [reflexivity | easy]|].
  split.
  - simpl. rewrite Hn. now f_equal.
  - intros x [<-|Hx]; [now exists l | now apply IH2].
Qed.

Lemma finite_layers_perm n1 n2 :
  Permutation n1 n2 ->
  match finite_layers n1, finite_layers n2 with
  | Ok l1, Ok l2 => Permutation l1 l2
  | Raise e1, Raise e2 => e1 = e2
  | _, _ => False
  end.
Proof.
  intros Hp.
  destruct (finite_layers n1) as [l1|e1] eqn:H1,
           (finite_layers n2) as [l2|e2] eqn:H2.
  - apply finite_layers_map in H1 as [-> _], H2 as [-> _].
    now apply Permutation_map.
  - apply finite_layers_map in H1 as [_ H1].
    destruct (finite_layers_returns n2) as [l E]; [|congruence].
    intros n Hn. apply H1, (Permutation_in _ (Permutation_sym Hp)), Hn.
  - apply finite_layers_map in H2 as [_ H2].
    destruct (finite_layers_returns n1) as [l E]; [|congruence].
    intros n Hn. apply H2, (Permutation_in _ Hp), Hn.
  - now rewrite (finite_layers_raises _ _ H1), (finite_layers_raises _ _ H2).
Qed.

Lemma layer_range_perm n1 n2 :
  Permutation n1 n2 ->
  min_layer_of n1 = min_layer_of n2 /\ max_layer_of n1 = max_layer_of n2.
Proof.
  intros Hp%finite_layers_perm. unfold min_layer_of, max_layer_of.
  destruct (finite_layers n1) as [l1|e1], (finite_layers n2) as [l2|e2];
    try contradiction; cbn [bind].
  - split; [now apply py_min_perm | now apply py_max_perm].
  - now subst.
Qed.

Lemma key_ge_antisym a b : key_ge a b -> key_ge b a -> a = b.
Proof.
  unfold key_ge, key_lt. destruct a as [a1 a2], b as [b1 b2]. simpl.
  rewrite !orb_false_iff, !andb_false_iff, !Z.ltb_ge, !Z.eqb_neq.
  intros H1 H2. f_equal; lia.
Qed.

(** Two descending arrangements of the same nodes are equal when no two
    nodes share a key. *)
Lemma sorted_unique (l1 l2 : list string) :
  StronglySorted key_order l1 -> StronglySorted key_order l2 ->
  Permutation l1 l2 -> distinct_keys l1 -> l1 = l2.
Proof.
  intros H1; revert l2; induction H1 as [|a l1 H1 IH Ha]; intros l2 H2 Hp Hd.
  - now apply Permutation_nil in Hp.
  - destruct l2 as [|b l2];
      [symmetry in Hp; now apply Permutation_nil in Hp|].
    apply StronglySorted_inv in H2 as [H2 Hb].
    assert (a = b) as <-.
    { assert (In a (b :: l2)) as Ia by (apply (Permutation_in _ Hp); now left).
      assert (In b (a :: l1)) as Ib
        by (apply (Permutation_in _ (Permutation_sym Hp)); now left).
      destruct Ia as [->|Ia]; [reflexivity|].
      destruct Ib as [->|Ib]; [reflexivity|].
      rewrite Forall_forall in Ha, Hb.
      destruct (Ha b) as (ka & kb & Ka & Kb & Hab); [now apply list_elem_of_In|].
      destruct (Hb a) as (kb' & ka' & Kb' & Ka' & Hba);
        [now apply list_elem_of_In|].
      assert (ka' = ka) as -> by congruence.
      assert (kb' = kb) as -> by congruence.
      destruct (string_dec a b) as [E|N]; [exact E|]. exfalso.
      apply (Hd a b); [now left | now right | exact N |].
      rewrite Ka, Kb. f_equal. now apply key_ge_antisym. }
    f_equal. apply IH; [exact H2 | eapply Permutation_cons_inv; eauto |].
    intros x y Hx Hy. apply Hd; now right.
Qed.

Lemma sorted_order_free n1 n2 :
  Permutation n1 n2 -> distinct_keys n1 -> sorted n1 = sorted n2.
Proof.
  intros Hp Hd.
  destruct (sorted n1) as [s1|e1] eqn:H1, (sorted n2) as [s2|e2] eqn:H2.
  - f_equal. apply sorted_unique.
    + eapply sorted_key_order; eauto.
    + eapply sorted_key_order; eauto.
    + rewrite (sorted_perm _ _ H1), (sorted_perm _ _ H2). exact Hp.
    + intros x y Hx Hy.
      apply Hd; apply (Permutation_in _ (sorted_perm _ _ H1)); assumption.
  - exfalso. assert (returns (sorted n2)) as [s E]; [|congruence].
    apply sorted_returns. intros x Hx.
    apply (proj1 (sorted_returns n1) (ex_intro _ s1 H1)).
    apply (Permutation_in _ (Permutation_sym Hp)), Hx.
  - exfalso. assert (returns (sorted n1)) as [s E]; [|congruence].
    apply sorted_returns. intros x Hx.
    apply (proj1 (sorted_returns n2) (ex_intro _ s2 H2)).
    apply (Permutation_in _ Hp), Hx.
  - now rewrite (sorted_raises _ _ H1), (sorted_raises _ _ H2).
Qed.

(** X15: the result of [create_elements] does not depend on the order in
    which Python iterates over the set of nodes, provided no two nodes of
    the graph have the same sort key (layer, head): for two iteration
    orders of the same set the function returns the same list of elements
    or raises the same exception. *)
Theorem create_elements_order_free :
  forall {R : Type} {AR : Arith R} (edges : list edge)
         (nodes1 nodes2 : list string) (W H : R),
    set_iteration edges nodes1 ->
    set_iteration edges nodes2 ->
    distinct_keys (nodes_of edges) ->
    create_elements nodes1 edges W H = create_elements nodes2 edges W H.
Proof.
  intros R AR edges n1 n2 W H Hit1 Hit2 Hd.
  assert (Permutation n1 n2) as Hp.
  { unfold set_iteration in *. now rewrite Hit1, Hit2. }
  assert (distinct_keys n1) as Hd1.
  { intros x y Hx Hy. apply Hd; apply (Permutation_in _ Hit1); assumption. }
  destruct (layer_range_perm _ _ Hp) as [Hmin Hmax].
  unfold create_elements, layout.
  now rewrite (sorted_order_free _ _ Hp Hd1), Hmin, Hmax.
Qed.

Lemma create_elements_order_free_witness :
  set_iteration stack_edges (nodes_of stack_edges)
  /\ set_iteration stack_edges (rev (nodes_of stack_edges))
  /\ distinct_keys (nodes_of stack_edges)
  /\ create_elements (nodes_of stack_edges) stack_edges main_width main_height
     = create_elements (rev (nodes_of stack_edges)) stack_edges
                       main_width main_height.
Proof.
  assert (set_iteration stack_edges (nodes_of stack_edges)) as H1
    by (unfold set_iteration; reflexivity).
  assert (set_iteration stack_edges (rev (nodes_of stack_edges))) as H2
    by (unfold set_iteration; symmetry; apply Permutation_rev).
  assert (distinct_keys (nodes_of stack_edges)) as Hd.
  { intros x y Hx Hy Hn. vm_compute in Hx, Hy.
    destruct Hx as [<-|[<-|[<-|[<-|[]]]]], Hy as [<-|[<-|[<-|[<-|[]]]]];
      try congruence; intros E; vm_compute in E; discriminate. }
  split; [exact H1|]. split; [exact H2|]. split; [exact Hd|].
  exact (create_elements_order_free stack_edges (nodes_of stack_edges)
           (rev (nodes_of stack_edges)) main_width main_height H1 H2 Hd).
Defined.

End OrderFacts.

(** ** The types and styles of the nodes *)

Module TypeFacts.

Import LayoutSpec MoreSpec LayoutFacts ShapeFacts.

Lemma get_layer_other node :
  Py.startswith node "m" = false -> Py.startswith node "a" = false ->
  get_layer node = Ok 100.
Proof. intros Hm Ha. unfold get_layer. now rewrite Hm, Ha. Qed.

(** X16: in a returned list every node element carries its identifier as
    label and one of the types MLP, Attention, Output and default, never
    Input or Embedding: MLP with the green style for an [m] prefix,
    Attention with the orange style for an [a] prefix, Output with the
    yellow style of width 80 for [resid_post], and default with an empty
    style for any other name; a node of type Output or default is in
    layer 100. *)
Theorem node_elements_typed :
  forall {R : Type} {AR : Arith R} (edges : list edge) (nodes : list string)
         (W H : R) (els : list (element R)) (n : node_element R),
    set_iteration edges nodes ->
    create_elements nodes edges W H = Ok els ->
    In (Node n) els ->
    node_label n = node_id n
    /\ (Py.startswith (node_id n) "m" = true ->
        node_type n = "MLP" /\ node_style n = centered "#6ede87" 50)
    /\ (Py.startswith (node_id n) "m" = false ->
        Py.startswith (node_id n) "a" = true ->
        node_type n = "Attention" /\ node_style n = centered "#ff9a3c" 50)
    /\ (node_id n = "resid_post" ->
        node_type n = "Output" /\ node_style n = centered "#ffcc50" 80)
    /\ (Py.startswith (node_id n) "m" = false ->
        Py.startswith (node_id n) "a" = false ->
        node_id n <> "resid_post" ->
        node_type n = "default" /\ node_style n = [])
    /\ node_type n <> "Input" /\ node_type n <> "Embedding"
    /\ (node_type n = "Output" \/ node_type n = "default" ->
        get_layer (node_id n) = Ok 100).
Proof.
  intros R AR edges nodes W H els n Hit Hc Hin.
  destruct (create_elements_run _ _ _ _ _ Hit Hc)
    as (env & sn & mx & new & _ & _ & _ & _ & _ & _ & _ & _ & _ & _
        & Hels & Hf).
  assert (exists x y, n = node_to_element env (node_id n) x y)
    as (x & y & Hn).
  { rewrite Hels in Hin. apply In_Node_app in Hin.
    clear -Hf Hin. induction Hf as [|node m sn new Hp _ IH]; [easy|].
    destruct Hin as [->|Hin]; [|now apply IH].
    destruct Hp as (L & x & y & _ & -> & _). now exists x, y. }
  remember (node_id n) as id eqn:Hid.
  assert (node_type n = node_kind id
          /\ node_style n
             = dict_get (dict_get node_types (node_kind id) []) "style" []
          /\ node_label n = id) as (Ht & Hs & Hl) by (rewrite Hn; easy).
  rewrite Ht, Hs, Hl. clear Hn Ht Hs Hl Hit Hc Hin Hels Hf Hid.
  unfold node_kind.
  destruct (Py.startswith id "m") eqn:Hm;
    [|destruct (Py.startswith id "a") eqn:Ha;
      [|pose proof (get_layer_other _ Hm Ha) as HL;
        destruct (String.eqb_spec id "resid_post") as [E|N]]].
  all: repeat match goal with |- _ /\ _ => split end; intros;
    repeat match goal with H : _ \/ _ |- _ => destruct H end;
    try reflexivity; try discriminate; try assumption; try contradiction;
    try (subst id; discriminate); try (split; reflexivity).
Qed.

Lemma node_elements_typed_witness :
  set_iteration stack_edges (nodes_of stack_edges)
  /\ exists (els : list (element Q)) n,
       create_elements (nodes_of stack_edges) stack_edges main_width main_height
       = Ok els
       /\ In (Node n) els
       /\ node_id n = "resid_post"
       /\ node_label n = node_id n
       /\ node_type n = "Output"
       /\ node_style n = centered "#ffcc50" 80
       /\ get_layer (node_id n) = Ok 100.
Proof.
  split; [exact stack_edges_iteration|].
  destruct stack_edges_run
    as (els & nr & nm1 & na & nm0 & e & Hc & H0 & _ & _ & _ & E0 & _).
  assert (In (Node nr) els) as I0 by exact (node_lookup_In els 0 nr H0).
  destruct (node_elements_typed stack_edges (nodes_of stack_edges)
              main_width main_height els nr stack_edges_iteration Hc I0)
    as (Hl & _ & _ & Ho & _ & _ & _ & H100).
  destruct (Ho E0) as [Ht Hs].
  exists els, nr. split; [exact Hc|]. split; [exact I0|]. split; [exact E0|].
  split; [exact Hl|]. split; [exact Ht|]. split; [exact Hs|].
  exact (H100 (or_introl Ht)).
Defined.

End TypeFacts.

(** ** The circuit directory and the selected case *)

Module GvFilesFacts.

Import MoreSpec.

Lemma gv_files_of_In fs d names name file :
  In (name, file) (gv_files_of fs d names)
  <-> In name names
      /\ Os.isdir fs (Os.path_join d name) = true
      /\ Os.path_exists fs (graph_path d name) = true
      /\ file = graph_path d name.
Proof.
  unfold graph_path. induction names as [|s names IH]; simpl; [tauto|].
  destruct (Os.isdir fs (Os.path_join d s)) eqn:Hd;
    [destruct (Os.path_exists fs (Os.path_join (Os.path_join d s) "graph.gv"))
       eqn:He|].
  - simpl. rewrite IH. split.
    + intros [[= <- <-]|H]; [tauto|]. tauto.
    + intros ([<-|H] & H1 & H2 & ->); [now left | right; tauto].
  - rewrite IH. split; [tauto|].
    intros ([<-|H] & H1 & H2 & ->); [congruence | tauto].
  - rewrite IH. split; [tauto|].
    intros ([<-|H] & H1 & H2 & ->); [congruence | tauto].
Qed.

Lemma insert_by_name_perm x l : Permutation (insert_by_name x l) (x :: l).
Proof.
  induction l as [|y l IH]; simpl; [reflexivity|].
  destruct (String.ltb (fst y) (fst x)); [|reflexivity].
  rewrite IH. apply perm_swap.
Qed.

Lemma sort_by_name_perm l : Permutation (sort_by_name l) l.
Proof.
  induction l as [|x l IH]; [reflexivity|].
  unfold sort_by_name in *. simpl. rewrite insert_by_name_perm. now constructor.
Qed.

Lemma ltb_trans a b c :
  String.ltb a b = true -> String.ltb b c = true -> String.ltb a c = true.
Proof.
  unfold String.ltb. intros H1 H2.
  destruct (String.compare a b) eqn:E1; try discriminate.
  destruct (String.compare b c) eqn:E2; try discriminate.
  apply OrderedTypeEx.String_as_OT.cmp_lt in E1, E2.
  pose proof (OrderedTypeEx.String_as_OT.lt_trans _ _ _ E1 E2) as H.
  apply OrderedTypeEx.String_as_OT.cmp_lt in H.
  unfold OrderedTypeEx.String_as_OT.cmp in H. now rewrite H.
Qed.

Lemma ltb_le a b : String.ltb a b = true -> name_le a b.
Proof.
  unfold name_le, String.ltb. rewrite (String.compare_antisym a b).
  now destruct (String.compare b a).
Qed.

Lemma name_le_trans a b c : name_le a b -> name_le b c -> name_le a c.
Proof.
  unfold name_le. intros H1 H2.
  destruct (String.ltb c a) eqn:Hca; [|reflexivity]. exfalso.
  unfold String.ltb in H1.
  destruct (String.compare b a) eqn:Hba; try discriminate.
  - apply String.compare_eq_iff in Hba as ->. congruence.
  - assert (String.ltb a b = true) as Hab.
    { unfold String.ltb. rewrite (String.compare_antisym a b), Hba.
      reflexivity. }
    pose proof (ltb_trans _ _ _ Hca Hab). congruence.
Qed.

Lemma insert_by_name_sorted x l :
  StronglySorted (fun p q => name_le (fst p) (fst q)) l ->
  StronglySorted (fun p q => name_le (fst p) (fst q)) (insert_by_name x l).
Proof.
  intros Hs. induction Hs as [|y l Hs IH Hy]; simpl.
  - constructor; constructor.
  - destruct (String.ltb (fst y) (fst x)) eqn:Hlt.
    + constructor; [exact IH|].
      rewrite Forall_forall. intros q Hq%list_elem_of_In.
      apply (Permutation_in _ (insert_by_name_perm x l)) in Hq.
      destruct Hq as [<-|Hq]; [now apply ltb_le|].
      rewrite Forall_forall in Hy. now apply Hy, list_elem_of_In.
    + constructor; [now constructor|].
      constructor; [exact Hlt|].
      rewrite Forall_forall in Hy. rewrite Forall_forall. intros q Hq.
      eapply name_le_trans; [exact Hlt | now apply Hy].
Qed.

Lemma sort_by_name_sorted l :
  StronglySorted (fun p q => name_le (fst p) (fst q)) (sort_by_name l).
Proof.
  induction l as [|x l IH]; [constructor|].
  unfold sort_by_name in *. simpl. now apply insert_by_name_sorted.
Qed.

Lemma case_names_sorted l :
  StronglySorted (fun p q => name_le (fst p) (fst q)) l ->
  StronglySorted name_le (case_names l).
Proof.
  intros Hs. induction Hs as [|y l Hs IH Hy]; simpl; constructor; [exact IH|].
  rewrite Forall_forall in Hy. rewrite Forall_forall. unfold case_names.
  intros b Hb%list_elem_of_In. apply in_map_iff in Hb as (q & <- & Hq).
  now apply Hy, list_elem_of_In.
Qed.

Lemma get_gv_files_In fs d files name file :
  get_gv_files fs d = Some files ->
  In (name, file) files
  <-> (exists names, Os.listdir fs d = Some names /\ In name names)
      /\ Os.isdir fs (Os.path_join d name) = true
      /\ Os.path_exists fs (graph_path d name) = true
      /\ file = graph_path d name.
Proof.
  unfold get_gv_files. destruct (Os.listdir fs d) as [names|]; [|discriminate].
  intros [= <-]. split.
  - intros Hin. apply (Permutation_in _ (sort_by_name_perm _)) in Hin.
    apply gv_files_of_In in Hin as (H1 & H2 & H3 & H4). eauto 6.
  - intros ((names' & [= <-] & H1) & H2 & H3 & H4).
    apply (Permutation_in _ (Permutation_sym (sort_by_name_perm _))).
    now apply gv_files_of_In.
Qed.

Lemma graph_path_nonempty d name : graph_path d name <> EmptyString.
Proof.
  unfold graph_path, Os.path_join at 1.
  change (Py.startswith "graph.gv" "/") with false. cbv iota.
  destruct (String.eqb _ _ || _); destruct (Os.path_join d name); discriminate.
Qed.

Lemma gv_file_path_of_In files case :
  In case (case_names files) ->
  In (case, gv_file_path_of files case) files.
Proof.
  induction files as [|[name file] files IH]; simpl; [easy|].
  destruct (String.eqb_spec name case) as [->|N].
  - intros _. now left.
  - intros [E|Hin]; [contradiction | right; now apply IH].
Qed.

Lemma gv_file_path_of_other files case :
  ~ In case (case_names files) -> gv_file_path_of files case = EmptyString.
Proof.
  induction files as [|[name file] files IH]; simpl; [easy|].
  destruct (String.eqb_spec name case) as [->|N]; [tauto|].
  intros H. apply IH. tauto.
Qed.

(** X17: [get_gv_files] returns exactly the pairs (name, path) where name
    is an entry of the listed directory that is itself a directory
    containing [graph.gv], and path is the joined path of that file; the
    pairs come in ascending order of their names. *)
Theorem get_gv_files_listing :
  forall (fs : Os.file_system) (circuit_dir : string)
         (files : list (string * string)),
    get_gv_files fs circuit_dir = Some files ->
    (forall name file,
        In (name, file) files
        <-> (exists names,
                Os.listdir fs circuit_dir = Some names /\ In name names)
            /\ Os.isdir fs (Os.path_join circuit_dir name) = true
            /\ Os.path_exists fs (graph_path circuit_dir name) = true
            /\ file = graph_path circuit_dir name)
    /\ StronglySorted name_le (case_names files).
Proof.
  intros fs d files Hg. split.
  - intros name file. now apply get_gv_files_In.
  - unfold get_gv_files in Hg.
    destruct (Os.listdir fs d) as [names|]; [|discriminate].
    injection Hg as <-. apply case_names_sorted, sort_by_name_sorted.
Qed.

Lemma get_gv_files_listing_witness :
  get_gv_files sample_fs "gpt2-medium" = Some sample_files
  /\ (forall name file,
        In (name, file) sample_files
        <-> (exists names,
                Os.listdir sample_fs "gpt2-medium" = Some names
                /\ In name names)
            /\ Os.isdir sample_fs (Os.path_join "gpt2-medium" name) = true
            /\ Os.path_exists sample_fs (graph_path "gpt2-medium" name) = true
            /\ file = graph_path "gpt2-medium" name)
  /\ StronglySorted name_le (case_names sample_files).
Proof.
  assert (get_gv_files sample_fs "gpt2-medium" = Some sample_files) as Hg
    by (vm_compute; reflexivity).
  split; [exact Hg|].
  exact (get_gv_files_listing sample_fs "gpt2-medium" sample_files Hg).
Defined.

(** X18: for a case taken from the names that [main] offers, the path
    looked up at line 196 is the path of that case's [graph.gv], which
    exists and is not the empty string, so the branch of line 211 that
    reports a missing graph file is not taken; for any other case the
    lookup gives the empty string. *)
Theorem selected_case_has_file :
  forall (fs : Os.file_system) (circuit_dir : string)
         (files : list (string * string)) (case : string),
    get_gv_files fs circuit_dir = Some files ->
    (In case (case_names files) ->
       gv_file_path_of files case = graph_path circuit_dir case
       /\ gv_file_path_of files case <> EmptyString
       /\ Os.path_exists fs (gv_file_path_of files case) = true)
    /\ (~ In case (case_names files) ->
          gv_file_path_of files case = EmptyString).
Proof.
  intros fs d files case Hg. split.
  - intros Hin%gv_file_path_of_In.
    apply (get_gv_files_In _ _ _ _ _ Hg) in Hin as (_ & _ & He & ->).
    split; [reflexivity|]. split; [apply graph_path_nonempty | exact He].
  - apply gv_file_path_of_other.
Qed.

Lemma selected_case_has_file_witness :
  get_gv_files sample_fs "gpt2-medium" = Some sample_files
  /\ In "birth_year" (case_names sample_files)
  /\ gv_file_path_of sample_files "birth_year"
     = "gpt2-medium/birth_year/graph.gv"
  /\ gv_file_path_of sample_files "birth_year" <> EmptyString
  /\ Os.path_exists sample_fs (gv_file_path_of sample_files "birth_year") = true.
Proof.
  assert (get_gv_files sample_fs "gpt2-medium" = Some sample_files) as Hg
    by (vm_compute; reflexivity).
  assert (In "birth_year" (case_names sample_files)) as Hin
    by (left; reflexivity).
  split; [exact Hg|]. split; [exact Hin|].
  exact (proj1 (selected_case_has_file sample_fs "gpt2-medium" sample_files
                  "birth_year" Hg) Hin).
Defined.

End GvFilesFacts.
